(** * Workshop leaderboard backend: the aggregation services

    A shallow embedding of the five aggregation services of
    [backend/src/services] (team totals, time series, success rate, cost
    efficiency, model usage), of the team directory they consult with its
    cache, of the way they treat a failed upstream fetch and of the helper
    through which the date-range endpoints call them, followed by the
    properties the specification states about them and by further properties
    of the code: its exceptions, the shape of its answers and what its
    answers do not depend on.

    Conventions of the embedding.

    - The services work on [response.model_dump(mode="json")], the dictionary
      image of the pydantic models of [client/models.py].  That image holds
      every declared field; an [Optional] field that was not supplied is
      present with the value [None].  A record below is such a dumped
      dictionary, [option] fields are the [Optional] ones, and [None] is
      Python's [None].  Hence [d.get("f", {})] on a dumped record never uses
      its default: it is the field, possibly [None], and a method called on
      that [None] raises [AttributeError].
    - A dictionary keyed by identifiers is an association list in insertion
      order (Python dictionaries iterate in insertion order) with
      [dict_get] for [d.get(k)], and [or_empty] for [d.get(k, {})].
    - Exceptions are values of [exn] and fallible code lives in the error
      monad [result].
    - Python's [float] is IEEE binary64, here [PrimFloat.float]; [int] is
      unbounded, here [Z]. *)

From Stdlib Require Import ZArith List String Ascii Bool Lia.
From Stdlib Require Import Permutation Sorted.
From Stdlib Require Import PrimFloat SpecFloat FloatOps.
Import ListNotations.

Open Scope string_scope.
Open Scope list_scope.
Open Scope Z_scope.

#[local] Set Warnings "-inexact-float".

(** ** Exceptions and the error monad *)

Inductive exn : Type :=
| AttributeError
| TypeError
| IndexError
| OverflowError
| ZeroDivisionError
| RuntimeError (msg : string)
| ValueError (msg : string)
| SystemExit (code : Z)
| ValidationError (msg : string).

Inductive result (A : Type) : Type :=
| Ok (a : A)
| Err (e : exn).

Arguments Ok {A} a.
Arguments Err {A} e.

Definition bind {A B : Type} (c : result A) (k : A -> result B) : result B :=
  match c with
  | Ok a => k a
  | Err e => Err e
  end.

Notation "x <- c ;; k" := (bind c (fun x => k))
  (at level 61, c at next level, right associativity).

(** A [for] loop whose body may raise: the state is threaded through the
    elements in order and the first exception ends the loop. *)
Fixpoint for_each {A S : Type} (body : S -> A -> result S) (l : list A) (s : S)
  : result S :=
  match l with
  | [] => Ok s
  | a :: l' => s' <- body s a ;; for_each body l' s'
  end.

(** Calling a method on an [Optional] value: [None.get], [None.items()] and
    [None.keys()] raise [AttributeError]. *)
Definition attr {A : Type} (o : option A) : result A :=
  match o with
  | Some a => Ok a
  | None => Err AttributeError
  end.

(** [k in o]: a membership test against [None] raises [TypeError]. *)
Definition contains {A : Type} (o : option A) : result A :=
  match o with
  | Some a => Ok a
  | None => Err TypeError
  end.

(** ** Dictionaries *)

Definition dict (V : Type) : Type := list (string * V).

Fixpoint dict_get {V : Type} (d : dict V) (k : string) : option V :=
  match d with
  | [] => None
  | (k', v) :: d' => if String.eqb k' k then Some v else dict_get d' k
  end.

Definition dict_mem {V : Type} (d : dict V) (k : string) : bool :=
  match dict_get d k with
  | Some _ => true
  | None => false
  end.

(** [d[k] = v]: an existing key keeps its position, a new key goes last. *)
Fixpoint dict_set {V : Type} (d : dict V) (k : string) (v : V) : dict V :=
  match d with
  | [] => [(k, v)]
  | (k', v') :: d' =>
      if String.eqb k' k then (k', v) :: d' else (k', v') :: dict_set d' k v
  end.

(** In-place change of the value stored at [k] ([d[k] += ...],
    [d[k].append(...)]); the callers only use it on keys that are present. *)
Fixpoint dict_update {V : Type} (d : dict V) (k : string) (f : V -> V) : dict V :=
  match d with
  | [] => []
  | (k', v) :: d' =>
      if String.eqb k' k then (k', f v) :: d' else (k', v) :: dict_update d' k f
  end.

Definition dict_keys {V : Type} (d : dict V) : list string := map fst d.

(** [d.get(k, {})] on a dictionary keyed by identifiers: the stored record, or
    the empty dictionary given as default. *)
Inductive or_empty (A : Type) : Type :=
| Found (a : A)
| EmptyDict.

Arguments Found {A} a.
Arguments EmptyDict {A}.

Definition get_or_empty {V : Type} (d : dict V) (k : string) : or_empty V :=
  match dict_get d k with
  | Some v => Found v
  | None => EmptyDict
  end.

(** ** Python numbers *)

(** The binary64 number nearest to [n / d] (ties to even), for [n, d > 0],
    with sign [s]; an infinity when the quotient is out of range. *)
Definition nearest_quotient (s : bool) (n d : Z) : spec_float :=
  let '(q, e, l) := SFdiv_core_binary prec emax n 0 d 0 in
  binary_round_aux prec emax s q e l.

Definition finite_or_raise (sf : spec_float) : result float :=
  match sf with
  | S754_infinity _ => Err OverflowError
  | S754_nan => Err OverflowError
  | _ => Ok (SF2Prim sf)
  end.

(** [float(z)], the conversion applied to an [int] operand of a float
    operation: correctly rounded, [OverflowError] beyond the float range. *)
Definition float_of_int (z : Z) : result float :=
  match z with
  | Z0 => Ok zero
  | _ => finite_or_raise (nearest_quotient (z <? 0) (Z.abs z) 1)
  end.

(** [a / b] on two [int]s: the correctly rounded quotient. *)
Definition int_truediv (a b : Z) : result float :=
  if b =? 0 then Err ZeroDivisionError
  else match a with
       | Z0 => Ok (if b <? 0 then neg_zero else zero)
       | _ => finite_or_raise
                (nearest_quotient (xorb (a <? 0) (b <? 0)) (Z.abs a) (Z.abs b))
       end.

(** Nearest integer to [n / d], ties to even, for [n >= 0] and [d > 0]. *)
Definition round_half_even (n d : Z) : Z :=
  let q := n / d in
  match 2 * (n mod d) ?= d with
  | Lt => q
  | Gt => q + 1
  | Eq => if Z.even q then q else q + 1
  end.

(** [round(x, ndigits)] on a float: the exact binary value of [x] is rounded
    half-to-even to [ndigits] decimal places and the decimal result is
    converted back to the nearest float. *)
Definition py_round (x : float) (ndigits : Z) : result float :=
  match Prim2SF x with
  | S754_finite s m e =>
      if 323 <? ndigits then Ok x
      else if ndigits <? -308 then Ok (if s then neg_zero else zero)
      else
        let p10 := 10 ^ Z.abs ndigits in
        let up := if 0 <=? ndigits then p10 else 1 in
        let down := if 0 <=? ndigits then 1 else p10 in
        let num := Z.pos m * up * (if 0 <=? e then 2 ^ e else 1) in
        let den := down * (if 0 <=? e then 1 else 2 ^ (- e)) in
        let n := round_half_even num den in
        if n =? 0 then Ok (if s then neg_zero else zero)
        else finite_or_raise (nearest_quotient s (n * down) up)
  | _ => Ok x
  end.

(** ** Python strings *)

Fixpoint string_drop (n : nat) (s : string) : string :=
  match n, s with
  | O, _ => s
  | S n', String _ s' => string_drop n' s'
  | S _, EmptyString => EmptyString
  end.

(** [s.split(sep, 1)] for a non-empty [sep]: [[s]] when [sep] does not occur,
    else the text before and the text after its first occurrence. *)
Fixpoint py_split1 (sep s : string) : list string :=
  if String.prefix sep s then [EmptyString; string_drop (String.length sep) s]
  else match s with
       | EmptyString => [EmptyString]
       | String c s' =>
           match py_split1 sep s' with
           | [a] => [String c a]
           | a :: rest => String c a :: rest
           | [] => []
           end
       end.

(** [l[1]] *)
Definition index1 (l : list string) : result string :=
  match l with
  | _ :: b :: _ => Ok b
  | _ => Err IndexError
  end.

(** ** JSON values ([Any] in the pydantic models) *)

Unset Elimination Schemes.
Inductive json : Type :=
| JNull
| JBool (b : bool)
| JInt (z : Z)
| JFloat (f : float)
| JStr (s : string)
| JList (l : list json)
| JDict (d : list (string * json)).
Set Elimination Schemes.

(** Truth value of a JSON value in an [if]. *)
Definition truthy (v : json) : bool :=
  match v with
  | JNull => false
  | JBool b => b
  | JInt z => negb (z =? 0)
  | JFloat f => negb (PrimFloat.eqb f zero)
  | JStr s => negb (String.eqb s EmptyString)
  | JList l => match l with [] => false | _ => true end
  | JDict d => match d with [] => false | _ => true end
  end.

(** ** The upstream document ([client/models.py]) *)

Record SpendMetrics : Type := {
  spend : float;
  prompt_tokens : Z;
  completion_tokens : Z;
  cache_read_input_tokens : Z;
  cache_creation_input_tokens : Z;
  total_tokens : Z;
  successful_requests : Z;
  failed_requests : Z;
  api_requests : Z
}.

Record KeyMetricWithMetadata : Type := {
  km_metrics : SpendMetrics;
  km_metadata : option (dict json)
}.

Record MetricWithMetadata : Type := {
  mm_metrics : SpendMetrics;
  mm_metadata : option (dict json);
  api_key_breakdown : option (dict KeyMetricWithMetadata)
}.

Record BreakdownMetrics : Type := {
  mcp_servers : option (dict MetricWithMetadata);
  models : option (dict MetricWithMetadata);
  model_groups : option (dict MetricWithMetadata);
  providers : option (dict MetricWithMetadata);
  api_keys : option (dict KeyMetricWithMetadata);
  entities : option (dict MetricWithMetadata)
}.

Record DailySpendData : Type := {
  date : string;
  day_metrics : SpendMetrics;
  breakdown : option BreakdownMetrics
}.

(** Only [results] is read by the services; the pagination metadata of the
    response is left out. *)
Record SpendAnalyticsPaginatedResponse : Type := {
  results : list DailySpendData
}.

(** [entity.get("metrics", {})] where [entity] came from [d.get(id, {})]. *)
Definition get_metrics (entity : or_empty MetricWithMetadata)
  : or_empty SpendMetrics :=
  match entity with
  | Found e => Found (mm_metrics e)
  | EmptyDict => EmptyDict
  end.

(** [data.get("metrics", {})] where [data] came from
    [api_key_breakdown.get(key, {})]. *)
Definition get_key_metrics (data : or_empty KeyMetricWithMetadata)
  : or_empty SpendMetrics :=
  match data with
  | Found e => Found (km_metrics e)
  | EmptyDict => EmptyDict
  end.

(** [metrics.get("counter", 0)] *)
Definition get_int (counter : SpendMetrics -> Z) (metrics : or_empty SpendMetrics)
  : Z :=
  match metrics with
  | Found m => counter m
  | EmptyDict => 0
  end.

(** [entity.get("api_key_breakdown", {})] where [entity] came from
    [d.get(id, {})]: the (optional) field of a stored entity, the default
    for the empty dictionary. *)
Definition get_api_key_breakdown (entity : or_empty MetricWithMetadata)
  : option (dict KeyMetricWithMetadata) :=
  match entity with
  | Found e => api_key_breakdown e
  | EmptyDict => Some []
  end.

(** ** The team directory ([services/team_service.py]) *)

Record TeamResponse : Type := {
  team_id : string;
  team_alias : option string
}.

(** [team.team_alias or team.team_id] *)
Definition alias_or_id (t : TeamResponse) : string :=
  match team_alias t with
  | Some a => if String.eqb a EmptyString then team_id t else a
  | None => team_id t
  end.

(** What the services need of a team service ([TeamServiceProtocol]). *)
Record TeamServiceProtocol : Type := {
  get_team_ids : list string;
  get_team_name : string -> string
}.

Module TeamService.

Definition _team_ids (teams : list TeamResponse) : list string :=
  map team_id teams.

Definition _team_id_to_name (teams : list TeamResponse) : dict string :=
  fold_left (fun d t => dict_set d (team_id t) (alias_or_id t)) teams [].

Definition get_team_name (teams : list TeamResponse) (id : string) : string :=
  match dict_get (_team_id_to_name teams) id with
  | Some name => name
  | None => id
  end.

(** The service once [fetch_teams] has cached the upstream team list. *)
Definition service (teams : list TeamResponse) : TeamServiceProtocol :=
  Build_TeamServiceProtocol (_team_ids teams) (get_team_name teams).

End TeamService.

(** ** Upstream fetch ([client/api_client.py]) and its failure *)


(** The handler shared by the services that call the client themselves:
    [except RuntimeError as e:
       raise RuntimeError(f"<prefix>{str(e).split(': ', 1)[1]}")];
    any other exception passes through. *)
Definition reraise {A : Type} (prefix : string) (e : exn) : result A :=
  match e with
  | RuntimeError msg =>
      cause <- index1 (py_split1 ": " msg) ;;
      Err (RuntimeError (prefix ++ cause)%string)
  | _ => Err e
  end.

(** [[f(x) for x in l]] where [f] may raise. *)
Fixpoint map_result {A B : Type} (f : A -> result B) (l : list A)
  : result (list B) :=
  match l with
  | [] => Ok []
  | a :: l' => b <- f a ;; bs <- map_result f l' ;; Ok (b :: bs)
  end.

(** ** Success rate ([services/success_rate_service.py]) *)

Module SuccessRateService.

Record team_counters : Type := {
  tc_total_requests : Z;
  tc_successful_requests : Z;
  tc_failed_requests : Z
}.

Record team_summary : Type := {
  ts_name : string;
  ts_total_requests : Z;
  ts_successful_requests : Z;
  ts_failed_requests : Z;
  ts_success_rate : float
}.

Definition no_requests : team_counters :=
  {| tc_total_requests := 0;
     tc_successful_requests := 0;
     tc_failed_requests := 0 |}.

(** [{get_team_name(team_id): {...zeros...} for team_id in team_ids}] *)
Definition initial_team_metrics (svc : TeamServiceProtocol) : dict team_counters :=
  fold_left (fun d team_id => dict_set d (get_team_name svc team_id) no_requests)
            (get_team_ids svc) [].

Definition add_counters (metrics : or_empty SpendMetrics) (c : team_counters)
  : team_counters :=
  {| tc_total_requests := tc_total_requests c + get_int api_requests metrics;
     tc_successful_requests :=
       tc_successful_requests c + get_int successful_requests metrics;
     tc_failed_requests := tc_failed_requests c + get_int failed_requests metrics |}.

(** Body of [for team_id in team_ids]. *)
Definition add_team (svc : TeamServiceProtocol)
           (entities : option (dict MetricWithMetadata))
           (team_metrics : dict team_counters) (team_id : string)
  : result (dict team_counters) :=
  let team_name := get_team_name svc team_id in
  es <- attr entities ;;
  let entity := get_or_empty es team_id in
  let metrics := get_metrics entity in
  Ok (dict_update team_metrics team_name (add_counters metrics)).

(** Body of [for entry in data.get("results", [])]. *)
Definition add_entry (svc : TeamServiceProtocol)
           (team_metrics : dict team_counters) (entry : DailySpendData)
  : result (dict team_counters) :=
  let breakdown := breakdown entry in
  b <- attr breakdown ;;
  let entities := entities b in
  for_each (add_team svc entities) (get_team_ids svc) team_metrics.

Definition aggregate (svc : TeamServiceProtocol) (data : SpendAnalyticsPaginatedResponse)
  : result (dict team_counters) :=
  for_each (add_entry svc) (results data) (initial_team_metrics svc).

(** [(successful / total * 100) if total > 0 else 0.0] *)
Definition success_rate_of (successful total : Z) : result float :=
  if 0 <? total
  then q <- int_truediv successful total ;; Ok (q * 100)%float
  else Ok zero.

Definition summarise (item : string * team_counters) : result team_summary :=
  let '(team_name, metrics) := item in
  let total := tc_total_requests metrics in
  let successful := tc_successful_requests metrics in
  success_rate <- success_rate_of successful total ;;
  rounded <- py_round success_rate 2 ;;
  Ok {| ts_name := team_name;
        ts_total_requests := total;
        ts_successful_requests := successful;
        ts_failed_requests := tc_failed_requests metrics;
        ts_success_rate := rounded |}.

Definition fetch_team_success_rate_summary (svc : TeamServiceProtocol)
           (response : result SpendAnalyticsPaginatedResponse)
  : result (list team_summary) :=
  match response with
  | Err e => reraise "Error fetching team token usage: " e
  | Ok data =>
      team_metrics <- aggregate svc data ;;
      map_result summarise team_metrics
  end.

End SuccessRateService.

(** ** Time series ([services/time_series_service.py]) *)

Module TimeSeriesService.

Record team_point : Type := {
  tp_name : string;
  tp_tokens : Z;
  tp_total_requests : Z;
  tp_successful_requests : Z;
  tp_failed_requests : Z
}.

Record day_point : Type := {
  dp_date : string;
  dp_teams : list team_point
}.

(** [entry.get("breakdown") or {}] followed by [.get("entities", {})]: a
    missing breakdown is replaced by the empty dictionary, whose entities
    default to the empty dictionary; a dumped breakdown is a non-empty
    dictionary, hence kept, and its [entities] field may be [None]. *)
Definition entities_of (entry : DailySpendData)
  : option (dict MetricWithMetadata) :=
  match breakdown entry with
  | None => Some []
  | Some b => entities b
  end.

Definition point_of (svc : TeamServiceProtocol) (es : dict MetricWithMetadata)
           (team_id : string) : team_point :=
  let team_name := get_team_name svc team_id in
  let entity := get_or_empty es team_id in
  let metrics := get_metrics entity in
  {| tp_name := team_name;
     tp_tokens := get_int total_tokens metrics;
     tp_total_requests := get_int api_requests metrics;
     tp_successful_requests := get_int successful_requests metrics;
     tp_failed_requests := get_int failed_requests metrics |}.

(** Body of [for team_id in team_ids]. *)
Definition add_team (svc : TeamServiceProtocol)
           (entities : option (dict MetricWithMetadata))
           (teams_for_day : list team_point) (team_id : string)
  : result (list team_point) :=
  es <- attr entities ;;
  Ok (teams_for_day ++ [point_of svc es team_id]).

(** Body of [for entry in data.get("results", [])]. *)
Definition add_entry (svc : TeamServiceProtocol)
           (daily_data : list day_point) (entry : DailySpendData)
  : result (list day_point) :=
  let entities := entities_of entry in
  teams_for_day <- for_each (add_team svc entities) (get_team_ids svc) [] ;;
  Ok (daily_data ++ [{| dp_date := date entry; dp_teams := teams_for_day |}]).

Definition fetch_daily_timeseries_per_team (svc : TeamServiceProtocol)
           (response : result SpendAnalyticsPaginatedResponse)
  : result (list day_point) :=
  match response with
  | Err e => reraise "Error fetching team token usage: " e
  | Ok data => for_each (add_entry svc) (results data) []
  end.

End TimeSeriesService.

(** ** Team totals ([services/token_aggregation_service.py]) *)

Module TokenAggregationService.

Record model_entry : Type := {
  model_name : string;
  me_total_tokens : Z;
  me_prompt_tokens : Z;
  me_completion_tokens : Z
}.

(** [key_alias] is [None] when the dictionary has no ["key_alias"] key. *)
Record key_entry : Type := {
  api_key : string;
  key_alias : option json;
  ke_models : list model_entry
}.

(** [{"total_tokens": int, "breakdown": {"api_keys": [...]}}] *)
Record team_entry : Type := {
  te_total_tokens : Z;
  te_api_keys : list key_entry
}.

Definition model_entry_of (name : string) (metrics : or_empty SpendMetrics)
  : model_entry :=
  {| model_name := name;
     me_total_tokens := get_int total_tokens metrics;
     me_prompt_tokens := get_int prompt_tokens metrics;
     me_completion_tokens := get_int completion_tokens metrics |}.

(** Body of [for api_key in entity_api_keys] inside the loop on models. *)
Definition visit_key (model_name : string)
           (model_api_key_breakdown : option (dict KeyMetricWithMetadata))
           (api_key_models : dict (list model_entry)) (api_key : string)
  : result (dict (list model_entry)) :=
  d <- contains model_api_key_breakdown ;;
  match dict_get d api_key with
  | Some data =>
      let key_metrics := Found (km_metrics data) in
      Ok (dict_update api_key_models api_key
            (fun l => l ++ [model_entry_of model_name key_metrics]))
  | None => Ok api_key_models
  end.

(** Body of [for model_name, model_data in top_level_models.items()]. *)
Definition visit_model (entity_api_keys : list string)
           (api_key_models : dict (list model_entry))
           (item : string * MetricWithMetadata)
  : result (dict (list model_entry)) :=
  let '(model_name, model_data) := item in
  let model_api_key_breakdown := api_key_breakdown model_data in
  for_each (visit_key model_name model_api_key_breakdown)
           entity_api_keys api_key_models.

(** [top_level_api_keys.get(api_key, {}).get("metadata", {}).get("key_alias")];
    the outer [option] of the result is Python's [None]. *)
Definition lookup_alias (top_level_api_keys : option (dict KeyMetricWithMetadata))
           (api_key : string) : result (option json) :=
  keys <- attr top_level_api_keys ;;
  match get_or_empty keys api_key with
  | EmptyDict => Ok None
  | Found data =>
      metadata <- attr (km_metadata data) ;;
      Ok (dict_get metadata "key_alias")
  end.

(** [if key_alias: key_entry["key_alias"] = key_alias] *)
Definition alias_field (alias : option json) : option json :=
  match alias with
  | Some v => if truthy v then Some v else None
  | None => None
  end.

(** Body of [for api_key, models in api_key_models.items()]. *)
Definition build_key (entity_keys : dict KeyMetricWithMetadata)
           (top_level_api_keys : option (dict KeyMetricWithMetadata))
           (api_keys_out : list key_entry) (item : string * list model_entry)
  : result (list key_entry) :=
  let '(api_key, models) := item in
  alias <- lookup_alias top_level_api_keys api_key ;;
  match models with
  | _ :: _ =>
      Ok (api_keys_out ++
          [{| api_key := api_key; key_alias := alias_field alias;
              ke_models := models |}])
  | [] =>
      let entity_key_data := get_or_empty entity_keys api_key in
      let metrics := get_key_metrics entity_key_data in
      Ok (api_keys_out ++
          [{| api_key := api_key; key_alias := alias_field alias;
              ke_models := [model_entry_of "All Models" metrics] |}])
  end.

(** [_extract_breakdown(entity, top_level_breakdown)].  [set_iter] gives the
    order in which the set built from a list of keys is iterated, which
    Python leaves unspecified. *)
Definition _extract_breakdown (set_iter : list string -> list string)
           (entity : MetricWithMetadata) (top_level_breakdown : BreakdownMetrics)
  : result (list key_entry) :=
  entity_keys <- attr (api_key_breakdown entity) ;;
  let entity_api_keys := set_iter (dict_keys entity_keys) in
  let top_level_api_keys := api_keys top_level_breakdown in
  let api_key_models :=
    fold_left (fun d key => dict_set d key []) entity_api_keys [] in
  let top_level_models := model_groups top_level_breakdown in
  models <- attr top_level_models ;;
  api_key_models <- for_each (visit_model entity_api_keys) models api_key_models ;;
  for_each (build_key entity_keys top_level_api_keys) api_key_models [].

(** Change the last element of [l] that satisfies [p]: the object that a
    lookup table built by [{key(x): x for x in l}] holds for that key. *)
Fixpoint update_last {A : Type} (p : A -> bool) (f : A -> A) (l : list A)
  : list A :=
  match l with
  | [] => []
  | a :: l' =>
      if existsb p l' then a :: update_last p f l'
      else if p a then f a :: l' else a :: l'
  end.

Definition has_name (name : string) (m : model_entry) : bool :=
  String.eqb (model_name m) name.

Definition has_key (key : string) (k : key_entry) : bool :=
  String.eqb (api_key k) key.

Definition add_tokens (source_model m : model_entry) : model_entry :=
  {| model_name := model_name m;
     me_total_tokens := me_total_tokens m + me_total_tokens source_model;
     me_prompt_tokens := me_prompt_tokens m + me_prompt_tokens source_model;
     me_completion_tokens :=
       me_completion_tokens m + me_completion_tokens source_model |}.

(** Body of [for source_model in source_key_data["models"]];
    [existing_models] is the lookup table built before the loop. *)
Definition merge_model (existing_models : list model_entry)
           (models : list model_entry) (source_model : model_entry)
  : list model_entry :=
  let name := model_name source_model in
  if existsb (has_name name) existing_models
  then update_last (has_name name) (add_tokens source_model) models
  else models ++ [source_model].

Definition merge_models (models source_models : list model_entry)
  : list model_entry :=
  fold_left (merge_model models) source_models models.

(** Body of [for source_key_data in source["api_keys"]]; [existing_keys] is
    the lookup table built before the loop. *)
Definition merge_key (existing_keys : list key_entry)
           (target : list key_entry) (source_key_data : key_entry)
  : list key_entry :=
  let key := api_key source_key_data in
  if existsb (has_key key) existing_keys
  then update_last (has_key key)
         (fun k => {| api_key := api_key k; key_alias := key_alias k;
                      ke_models :=
                        merge_models (ke_models k) (ke_models source_key_data) |})
         target
  else target ++ [source_key_data].

(** [_merge_breakdown(target, source)]: the new contents of [target]. *)
Definition _merge_breakdown (target source : list key_entry) : list key_entry :=
  fold_left (merge_key target) source target.

Definition no_tokens : team_entry :=
  {| te_total_tokens := 0; te_api_keys := [] |}.

Definition initial_team_data (svc : TeamServiceProtocol) : dict team_entry :=
  fold_left (fun d team_id => dict_set d (get_team_name svc team_id) no_tokens)
            (get_team_ids svc) [].

(** Body of [for team_id, entity in entities.items()]. *)
Definition add_entity (set_iter : list string -> list string)
           (svc : TeamServiceProtocol) (top_level_breakdown : BreakdownMetrics)
           (team_data : dict team_entry) (item : string * MetricWithMetadata)
  : result (dict team_entry) :=
  let '(team_id, entity) := item in
  let total_tokens := get_int total_tokens (Found (mm_metrics entity)) in
  let team_name := get_team_name svc team_id in
  if dict_mem team_data team_name
  then
    breakdown <- _extract_breakdown set_iter entity top_level_breakdown ;;
    Ok (dict_update team_data team_name
          (fun t => {| te_total_tokens := te_total_tokens t + total_tokens;
                       te_api_keys := _merge_breakdown (te_api_keys t) breakdown |}))
  else Ok team_data.

(** Body of [for entry in data.get("results", [])]. *)
Definition add_entry (set_iter : list string -> list string)
           (svc : TeamServiceProtocol)
           (team_data : dict team_entry) (entry : DailySpendData)
  : result (dict team_entry) :=
  top_level_breakdown <- attr (breakdown entry) ;;
  es <- attr (entities top_level_breakdown) ;;
  for_each (add_entity set_iter svc top_level_breakdown) es team_data.

Definition fetch_total_tokens_per_team (set_iter : list string -> list string)
           (svc : TeamServiceProtocol)
           (response : result SpendAnalyticsPaginatedResponse)
  : result (dict team_entry) :=
  match response with
  | Err e => reraise "Error fetching team token usage: " e
  | Ok data => for_each (add_entry set_iter svc) (results data) (initial_team_data svc)
  end.

End TokenAggregationService.

(** ** Cost efficiency ([services/cost_efficiency_service.py]) *)

Module CostEfficiencyService.

Record pair_totals : Type := {
  pt_total_tokens : Z;
  pt_total_cost : float
}.

Record cell : Type := {
  c_team : string;
  c_model : string;
  c_cost_per_1k_tokens : float;
  c_total_cost : float;
  c_total_tokens : Z
}.

Definition no_usage : pair_totals :=
  {| pt_total_tokens := 0; pt_total_cost := zero |}.

Definition add_usage (tokens : Z) (spend : float) (p : pair_totals) : pair_totals :=
  {| pt_total_tokens := pt_total_tokens p + tokens;
     pt_total_cost := (pt_total_cost p + spend)%float |}.

(** [if k not in d: d[k] = v] *)
Definition set_default {V : Type} (d : dict V) (k : string) (v : V) : dict V :=
  if dict_mem d k then d else dict_set d k v.

(** Body of [for api_key in team_api_keys]. *)
Definition visit_key (team_name model_name : string)
           (api_key_breakdown : option (dict KeyMetricWithMetadata))
           (team_model_data : dict (dict pair_totals)) (api_key : string)
  : result (dict (dict pair_totals)) :=
  d <- contains api_key_breakdown ;;
  match dict_get d api_key with
  | Some data =>
      let key_metrics := Found (km_metrics data) in
      let tokens := get_int total_tokens key_metrics in
      let spend :=
      match key_metrics with Found m => spend m | EmptyDict => zero end in
      Ok (dict_update team_model_data team_name
            (fun models =>
               dict_update (set_default models model_name no_usage) model_name
                           (add_usage tokens spend)))
  | None => Ok team_model_data
  end.

(** Body of [for model_name, model_data in models_breakdown.items()]. *)
Definition visit_model (team_name : string) (entity : or_empty MetricWithMetadata)
           (team_model_data : dict (dict pair_totals))
           (item : string * MetricWithMetadata)
  : result (dict (dict pair_totals)) :=
  let '(model_name, model_data) := item in
  let api_key_breakdown := api_key_breakdown model_data in
  entity_keys <- attr (get_api_key_breakdown entity) ;;
  let team_api_keys := dict_keys entity_keys in
  for_each (visit_key team_name model_name api_key_breakdown)
           team_api_keys team_model_data.

(** Body of [for team_id in team_ids]. *)
Definition visit_team (svc : TeamServiceProtocol)
           (entities models_breakdown : option (dict MetricWithMetadata))
           (team_model_data : dict (dict pair_totals)) (team_id : string)
  : result (dict (dict pair_totals)) :=
  let team_name := get_team_name svc team_id in
  es <- attr entities ;;
  let entity := get_or_empty es team_id in
  let team_model_data := set_default team_model_data team_name [] in
  models <- attr models_breakdown ;;
  for_each (visit_model team_name entity) models team_model_data.

(** Body of [for entry in data.get("results", [])]. *)
Definition add_entry (svc : TeamServiceProtocol)
           (team_model_data : dict (dict pair_totals)) (entry : DailySpendData)
  : result (dict (dict pair_totals)) :=
  top_level_breakdown <- attr (breakdown entry) ;;
  let entities := entities top_level_breakdown in
  let models_breakdown := model_groups top_level_breakdown in
  for_each (visit_team svc entities models_breakdown)
           (get_team_ids svc) team_model_data.

Definition aggregate (svc : TeamServiceProtocol)
           (data : SpendAnalyticsPaginatedResponse)
  : result (dict (dict pair_totals)) :=
  for_each (add_entry svc) (results data) [].

(** [(total_cost / total_tokens * 1000) if total_tokens > 0 else 0.0] *)
Definition cost_per_1k_of (total_cost : float) (total_tokens : Z) : result float :=
  if 0 <? total_tokens
  then t <- float_of_int total_tokens ;; Ok (total_cost / t * 1000)%float
  else Ok zero.

Definition cell_of (team_name : string) (item : string * pair_totals)
  : result cell :=
  let '(model_name, metrics) := item in
  let total_tokens := pt_total_tokens metrics in
  let total_cost := pt_total_cost metrics in
  cost_per_1k <- cost_per_1k_of total_cost total_tokens ;;
  rounded <- py_round cost_per_1k 4 ;;
  rounded_cost <- py_round total_cost 4 ;;
  Ok {| c_team := team_name;
        c_model := model_name;
        c_cost_per_1k_tokens := rounded;
        c_total_cost := rounded_cost;
        c_total_tokens := total_tokens |}.

(** The (team, model) pairs in the order the result list is built. *)
Definition pairs (team_model_data : dict (dict pair_totals))
  : list (string * (string * pair_totals)) :=
  flat_map (fun '(team_name, models) => map (pair team_name) models)
           team_model_data.

Definition build_cells (team_model_data : dict (dict pair_totals))
  : result (list cell) :=
  map_result (fun '(team_name, item) => cell_of team_name item)
             (pairs team_model_data).

Definition fetch_cost_efficiency (svc : TeamServiceProtocol)
           (response : result SpendAnalyticsPaginatedResponse)
  : result (list cell) :=
  match response with
  | Err e => reraise "Error fetching team data: " e
  | Ok data =>
      team_model_data <- aggregate svc data ;;
      build_cells team_model_data
  end.

End CostEfficiencyService.

(** ** Model usage ([services/SOLUTION_model_usage_service.py]) *)

Module ModelUsageService.

(** Body of [for model_name, model_data in models_breakdown.items()];
    [get_display_name] is the model mapping service. *)
Definition add_model (get_display_name : string -> string)
           (model_totals : dict Z) (item : string * MetricWithMetadata) : dict Z :=
  let '(model_name, model_data) := item in
  let display_name := get_display_name model_name in
  let metrics := Found (mm_metrics model_data) in
  let total_tokens := get_int total_tokens metrics in
  dict_set model_totals display_name
    (match dict_get model_totals display_name with
     | Some n => n
     | None => 0
     end + total_tokens).

(** Body of [for entry in data.get("results", [])]. *)
Definition add_entry (get_display_name : string -> string)
           (model_totals : dict Z) (entry : DailySpendData) : result (dict Z) :=
  top_level_breakdown <- attr (breakdown entry) ;;
  let models_breakdown := models top_level_breakdown in
  ms <- attr models_breakdown ;;
  Ok (fold_left (add_model get_display_name) ms model_totals).

Definition aggregate (get_display_name : string -> string)
           (data : SpendAnalyticsPaginatedResponse) : result (dict Z) :=
  for_each (add_entry get_display_name) (results data) [].

(** Where [sorted(..., key=lambda x: x[1], reverse=True)] puts one more item
    in front of an already sorted list: after the items with a larger
    count, before the ones with an equal or smaller count. *)
Fixpoint insert_desc (x : string * Z) (l : list (string * Z)) : list (string * Z) :=
  match l with
  | [] => [x]
  | y :: l' => if snd x <? snd y then y :: insert_desc x l' else x :: y :: l'
  end.

(** [sorted(items, key=lambda x: x[1], reverse=True)]: Python's sort is
    stable, also with [reverse=True], which fixes its result. *)
Definition sorted_desc (items : list (string * Z)) : list (string * Z) :=
  fold_right insert_desc [] items.

(** [TeamDailyActivityService.fetch_daily_activity] hands the client's
    response, or its exception, on as it is. *)
Definition fetch_model_usage (get_display_name : string -> string)
           (response : result SpendAnalyticsPaginatedResponse) : result (dict Z) :=
  data <- response ;;
  model_totals <- aggregate get_display_name data ;;
  let filtered := filter (fun '(name, tokens) => 0 <? tokens) model_totals in
  Ok (sorted_desc filtered).

End ModelUsageService.

(** ** Date-range endpoints ([utils/endpoint_utils.py]) *)

Module EndpointUtils.

(** How a call of the endpoint helper ends: it returns the value of the
    service method, raises an [HTTPException], or lets an exception
    through. *)
Inductive outcome (A : Type) : Type :=
| Returns (a : A)
| RaisesHTTPException (status_code : Z) (detail : string)
| Raises (e : exn).

Arguments Returns {A} a.
Arguments RaisesHTTPException {A} status_code detail.
Arguments Raises {A} e.

(** What the helper calls on the dates: the validating model
    [DateRangeParams] with its two fields, [parse_date_range] and the two
    formatters of [utils/date_utils.py]. *)
Record DateTools (datetime : Type) : Type := {
  DateRangeParams : option string -> option string
                    -> result (option string * option string);
  parse_date_range : option string -> option string -> result (datetime * datetime);
  format_date_for_api : datetime -> result string;
  format_date_for_api_end : datetime -> result string
}.

Arguments DateRangeParams {datetime} _ _ _.
Arguments parse_date_range {datetime} _ _ _.
Arguments format_date_for_api {datetime} _ _.
Arguments format_date_for_api_end {datetime} _ _.

(** [isinstance(e, ValueError)]: pydantic's [ValidationError] derives from
    [ValueError]. *)
Definition is_ValueError (e : exn) : bool :=
  match e with
  | ValueError _ | ValidationError _ => true
  | _ => false
  end.

Definition is_RuntimeError (e : exn) : bool :=
  match e with
  | RuntimeError _ => true
  | _ => false
  end.

(** [isinstance(e, Exception)]: [SystemExit] derives from [BaseException]
    only. *)
Definition is_Exception (e : exn) : bool :=
  match e with
  | SystemExit _ => false
  | _ => true
  end.

(** [str(e)]: the message the exception was built with; [builtin_message]
    gives the text of the exceptions that the interpreter raises itself. *)
Definition str (builtin_message : exn -> string) (e : exn) : string :=
  match e with
  | RuntimeError msg | ValueError msg | ValidationError msg => msg
  | _ => builtin_message e
  end.

(** [try: ... except ValueError as e: raise HTTPException(400, str(e))] *)
Definition bad_request {A B : Type} (builtin_message : exn -> string)
           (c : result A) (k : A -> outcome B) : outcome B :=
  match c with
  | Ok a => k a
  | Err e =>
      if is_ValueError e then RaisesHTTPException 400 (str builtin_message e)
      else Raises e
  end.

Definition execute_date_range_endpoint {datetime A : Type}
           (tools : DateTools datetime) (builtin_message : exn -> string)
           (start_date end_date : option string)
           (service_method : string -> string -> result A) : outcome A :=
  bad_request builtin_message (DateRangeParams tools start_date end_date)
    (fun params =>
  bad_request builtin_message (parse_date_range tools (fst params) (snd params))
    (fun '(start_dt, end_dt) =>
  match (start_date <- format_date_for_api tools start_dt ;;
         end_date <- format_date_for_api_end tools end_dt ;;
         service_method start_date end_date) with
  | Ok a => Returns a
  | Err e =>
      if is_RuntimeError e
      then RaisesHTTPException 502 (str builtin_message e)
      else if is_Exception e
           then RaisesHTTPException 500 ("Unexpected error: " ++ str builtin_message e)
           else Raises e
  end)).

End EndpointUtils.

(** ** The cache of the team directory ([services/team_service.py]) *)

Module TeamServiceState.

(** The attributes of a [TeamService] object. *)
Record state : Type := {
  _teams : list TeamResponse;
  _team_ids : list string;
  _team_id_to_name : dict string;
  _initialized : bool
}.

(** [__init__] *)
Definition init : state :=
  {| _teams := []; _team_ids := []; _team_id_to_name := []; _initialized := false |}.

(** [fetch_teams]; [api] is what [api_client.fetch_teams()] gives when it is
    called.  An exception of the client leaves the object as it was. *)
Definition fetch_teams (api : result (list TeamResponse)) (st : state)
  : result (list TeamResponse) * state :=
  if _initialized st then (Ok (_teams st), st)
  else match api with
       | Err e => (Err e, st)
       | Ok teams =>
           (Ok teams,
            {| _teams := teams;
               _team_ids := TeamService._team_ids teams;
               _team_id_to_name := TeamService._team_id_to_name teams;
               _initialized := true |})
       end.

Definition get_team_ids (api : result (list TeamResponse)) (st : state)
  : result (list string) * state :=
  if negb (_initialized st)
  then match fetch_teams api st with
       | (Ok _, st') => (Ok (_team_ids st'), st')
       | (Err e, st') => (Err e, st')
       end
  else (Ok (_team_ids st), st).

Definition get_team_name (api : result (list TeamResponse)) (st : state)
           (team_id : string) : result string * state :=
  let lookup st :=
    match dict_get (_team_id_to_name st) team_id with
    | Some name => name
    | None => team_id
    end in
  if negb (_initialized st)
  then match fetch_teams api st with
       | (Ok _, st') => (Ok (lookup st'), st')
       | (Err e, st') => (Err e, st')
       end
  else (Ok (lookup st), st).

End TeamServiceState.

(** * Specification-level definitions *)

(** The empty counters, as pydantic fills them in for [{}]. *)
Definition zero_metrics : SpendMetrics :=
  {| spend := zero; prompt_tokens := 0; completion_tokens := 0;
     cache_read_input_tokens := 0; cache_creation_input_tokens := 0;
     total_tokens := 0; successful_requests := 0; failed_requests := 0;
     api_requests := 0 |}.

(** A day that came without a breakdown, and the document made of it. *)
Definition day_without_breakdown : DailySpendData :=
  {| date := "2024-01-15"; day_metrics := zero_metrics; breakdown := None |}.

Definition document_without_breakdown : SpendAnalyticsPaginatedResponse :=
  {| results := [day_without_breakdown] |}.

Definition one_team : TeamServiceProtocol :=
  TeamService.service [{| team_id := "team1"; team_alias := Some "Alpha Team" |}].

(** The sum of a list of integers. *)
Definition sum_Z (l : list Z) : Z := fold_right Z.add 0 l.

(** The names of a list in the order of their first occurrence: the order
    in which [{name(x): ... for x in l}] creates its keys. *)
Fixpoint distinct (l : list string) : list string :=
  match l with
  | [] => []
  | x :: l' => x :: filter (fun y => negb (String.eqb x y)) (distinct l')
  end.

(** The display names of the requested teams. *)
Definition display_names (svc : TeamServiceProtocol) : list string :=
  distinct (map (get_team_name svc) (get_team_ids svc)).

(** The requested team ids that resolve to the display name [name]. *)
Definition ids_named (svc : TeamServiceProtocol) (name : string) : list string :=
  filter (fun team_id => String.eqb (get_team_name svc team_id) name)
         (get_team_ids svc).

(** The entities of a day; none when the day has no breakdown or the
    breakdown has no entities. *)
Definition day_entities (entry : DailySpendData) : dict MetricWithMetadata :=
  match breakdown entry with
  | Some b => match entities b with Some es => es | None => [] end
  | None => []
  end.

(** The [model_groups] map of a day; empty when the day has none. *)
Definition day_model_groups (entry : DailySpendData) : dict MetricWithMetadata :=
  match breakdown entry with
  | Some b => match model_groups b with Some ms => ms | None => [] end
  | None => []
  end.


(** What the entities [es] of one day hold of [counter] for [team_id]:
    zero for a team that is not among them. *)
Definition team_counter (counter : SpendMetrics -> Z)
           (es : dict MetricWithMetadata) (team_id : string) : Z :=
  get_int counter (get_metrics (get_or_empty es team_id)).

(** [counter] summed over all days and over the requested ids that resolve
    to [name]. *)
Definition requested_total (counter : SpendMetrics -> Z)
           (svc : TeamServiceProtocol) (days : list DailySpendData)
           (name : string) : Z :=
  sum_Z (map (fun entry =>
                sum_Z (map (team_counter counter (day_entities entry))
                           (ids_named svc name)))
             days).

Module SuccessRateSpec.
Import SuccessRateService.

(** The days on which the success-rate loop does not raise. *)
Definition day_ok (svc : TeamServiceProtocol) (entry : DailySpendData) : bool :=
  match breakdown entry with
  | None => false
  | Some b =>
      match entities b, get_team_ids svc with
      | Some _, _ => true
      | None, [] => true
      | None, _ :: _ => false
      end
  end.

(** The counters of [name] folded over [days]. *)
Definition totals (svc : TeamServiceProtocol) (days : list DailySpendData)
           (name : string) : team_counters :=
  {| tc_total_requests := requested_total api_requests svc days name;
     tc_successful_requests := requested_total successful_requests svc days name;
     tc_failed_requests := requested_total failed_requests svc days name |}.

(** The accumulator after folding [days]: one entry per display name. *)
Definition folded (svc : TeamServiceProtocol) (days : list DailySpendData)
  : dict team_counters :=
  map (fun name => (name, totals svc days name)) (display_names svc).

(** One day, when it has entities: every requested team adds its counters
    to the entry of its display name. *)
Definition add_day (svc : TeamServiceProtocol) (es : dict MetricWithMetadata) (team_metrics : dict team_counters)
  : dict team_counters :=
  fold_left (fun tm team_id =>
               dict_update tm (get_team_name svc team_id)
                           (add_counters (get_metrics (get_or_empty es team_id))))
            (get_team_ids svc) team_metrics.

End SuccessRateSpec.





Module TimeSeriesSpec.
Import TimeSeriesService.

(** The days on which the time-series loop does not raise: all but those
    whose breakdown is present without an [entities] map while a team is
    requested. *)
Definition day_ok (svc : TeamServiceProtocol) (entry : DailySpendData) : bool :=
  match entities_of entry, get_team_ids svc with
  | None, _ :: _ => false
  | _, _ => true
  end.

(** The row of one day: its date and one point per requested team, read
    from that day's entities alone. *)
Definition row_of (svc : TeamServiceProtocol) (entry : DailySpendData) : day_point :=
  {| dp_date := date entry;
     dp_teams :=
       map (fun team_id =>
              {| tp_name := get_team_name svc team_id;
                 tp_tokens := team_counter total_tokens (day_entities entry) team_id;
                 tp_total_requests :=
                   team_counter api_requests (day_entities entry) team_id;
                 tp_successful_requests :=
                   team_counter successful_requests (day_entities entry) team_id;
                 tp_failed_requests :=
                   team_counter failed_requests (day_entities entry) team_id |})
           (get_team_ids svc) |}.

End TimeSeriesSpec.



Module ModelUsageSpec.
Import ModelUsageService.

(** The [models] map of a day; empty when the day has none. *)
Definition day_models (entry : DailySpendData) : dict MetricWithMetadata :=
  match breakdown entry with
  | Some b => match models b with Some ms => ms | None => [] end
  | None => []
  end.

(** The day has a breakdown and the breakdown has a [models] map. *)
Definition has_models (entry : DailySpendData) : bool :=
  match breakdown entry with
  | Some b => match models b with Some _ => true | None => false end
  | None => false
  end.

(** The model records in the order the fold meets them, each as its display
    name and its [total_tokens]. *)
Definition seen (get_display_name : string -> string) (days : list DailySpendData)
  : list (string * Z) :=
  flat_map (fun entry =>
              map (fun item : string * MetricWithMetadata =>
                     (get_display_name (fst item), total_tokens (mm_metrics (snd item))))
                  (day_models entry))
           days.

(** One step of the fold on an already resolved record. *)
Definition tally (model_totals : dict Z) (item : string * Z) : dict Z :=
  dict_set model_totals (fst item)
    (match dict_get model_totals (fst item) with Some n => n | None => 0 end
     + snd item).

(** [total_tokens] summed over all days and over all model records whose
    display name is [name]. *)
Definition display_total (get_display_name : string -> string)
           (days : list DailySpendData) (name : string) : Z :=
  sum_Z (map snd (filter (fun item => String.eqb (fst item) name)
                         (seen get_display_name days))).

(** The accumulator after the fold: display names in first-seen order, each
    with its total. *)
Definition folded (get_display_name : string -> string) (days : list DailySpendData)
  : dict Z :=
  map (fun name => (name, display_total get_display_name days name))
      (distinct (map fst (seen get_display_name days))).

(** The totals that pass [if tokens > 0]. *)
Definition positive_total (item : string * Z) : bool := 0 <? snd item.

(** [metrics.total_tokens] of model group [group] summed over all days. *)
Definition model_group_total (days : list DailySpendData) (group : string) : Z :=
  sum_Z (map (fun entry =>
                match dict_get (day_model_groups entry) group with
                | Some md => total_tokens (mm_metrics md)
                | None => 0
                end)
             days).

(** The reading of the model-usage service as a fold over [model_groups]:
    it answers, and every model group with a non-zero total is in the
    answer with that total. *)
Definition totals_of_model_groups (get_display_name : string -> string)
           (data : SpendAnalyticsPaginatedResponse) : Prop :=
  exists out,
    fetch_model_usage get_display_name (Ok data) = Ok out
    /\ forall group,
        model_group_total (results data) group <> 0 ->
        dict_get out group = Some (model_group_total (results data) group).

End ModelUsageSpec.

(** A day in the upstream shape of the specification: entities, model groups
    and API keys, and nothing under [models]. *)
Definition tokens_only (total prompt completion : Z) : SpendMetrics :=
  {| spend := zero; prompt_tokens := prompt; completion_tokens := completion;
     cache_read_input_tokens := 0; cache_creation_input_tokens := 0;
     total_tokens := total; successful_requests := 0;
     failed_requests := 0; api_requests := 0 |}.

Definition key_of (m : SpendMetrics) (metadata : option (dict json))
  : KeyMetricWithMetadata :=
  {| km_metrics := m; km_metadata := metadata |}.

Definition with_keys (m : SpendMetrics) (keys : dict KeyMetricWithMetadata)
  : MetricWithMetadata :=
  {| mm_metrics := m; mm_metadata := None; api_key_breakdown := Some keys |}.

Definition upstream_day : DailySpendData :=
  {| date := "2024-01-15"; day_metrics := tokens_only 1000 600 400;
     breakdown :=
       Some {| mcp_servers := None; models := None;
               model_groups :=
                 Some [("gpt-4",
                        with_keys (tokens_only 1000 600 400)
                                  [("key1", key_of (tokens_only 1000 600 400) None)])];
               providers := None;
               api_keys := Some [("key1", key_of zero_metrics (Some []))];
               entities :=
                 Some [("team1",
                        with_keys (tokens_only 1000 600 400)
                                  [("key1", key_of (tokens_only 1000 600 400) None)])] |} |}.

Definition upstream_document : SpendAnalyticsPaginatedResponse :=
  {| results := [upstream_day] |}.

(** Three days of model records under [models]: two models tie at 500
    tokens, one model stays at zero. *)
Definition model_record (total : Z) : MetricWithMetadata :=
  {| mm_metrics := tokens_only total 0 0; mm_metadata := None;
     api_key_breakdown := None |}.

Definition day_of_models (d : string) (ms : dict MetricWithMetadata)
  : DailySpendData :=
  {| date := d; day_metrics := zero_metrics;
     breakdown := Some {| mcp_servers := None; models := Some ms;
                          model_groups := None; providers := None;
                          api_keys := None; entities := None |} |}.

Definition model_days : SpendAnalyticsPaginatedResponse :=
  {| results :=
       [day_of_models "2024-01-15"
          [("claude", model_record 200); ("idle", model_record 0);
           ("gpt-4", model_record 500)];
        day_of_models "2024-01-16"
          [("mistral", model_record 900); ("claude", model_record 300)]] |}.

(** Whether a computation ended without exception. *)
Definition is_ok {A : Type} (r : result A) : bool :=
  match r with
  | Ok _ => true
  | Err _ => false
  end.

Module CostEfficiencySpec.
Import CostEfficiencyService.

(** The totals accumulated for the pair ([team], [model]), if any. *)
Definition get2 (team_model_data : dict (dict pair_totals)) (team model : string)
  : option pair_totals :=
  match dict_get team_model_data team with
  | Some models => dict_get models model
  | None => None
  end.

(** Adding the [(tokens, spend)] observations [uses], in order, to what a
    pair has accumulated; a pair without observation stays as it is. *)
Definition accumulate (uses : list (Z * float)) (o : option pair_totals)
  : option pair_totals :=
  match uses with
  | [] => o
  | _ :: _ =>
      Some (fold_left (fun p u => add_usage (fst u) (snd u) p) uses
                      (match o with Some p => p | None => no_usage end))
  end.

(** The observations that the keys [keys] find in the key breakdown [d] of a
    model group. *)
Definition key_uses (d : dict KeyMetricWithMetadata) (keys : list string)
  : list (Z * float) :=
  flat_map (fun k =>
              match dict_get d k with
              | Some data => [(total_tokens (km_metrics data), spend (km_metrics data))]
              | None => []
              end)
           keys.

(** The observations of [keys] in the model groups named [model]. *)
Definition model_uses (keys : list string) (ms : dict MetricWithMetadata)
           (model : string) : list (Z * float) :=
  flat_map (fun item : string * MetricWithMetadata =>
              if String.eqb (fst item) model
              then match api_key_breakdown (snd item) with
                   | Some d => key_uses d keys
                   | None => []
                   end
              else [])
           ms.

(** The API keys of team [team_id] among the entities [es]. *)
Definition team_keys (es : dict MetricWithMetadata) (team_id : string) : list string :=
  match get_api_key_breakdown (get_or_empty es team_id) with
  | Some keys => dict_keys keys
  | None => []
  end.

(** The observations of one day for the pair ([team], [model]): those of
    the requested ids that resolve to [team], in the order of the ids. *)
Definition day_uses (svc : TeamServiceProtocol) (entry : DailySpendData)
           (team model : string) : list (Z * float) :=
  flat_map (fun team_id =>
              model_uses (team_keys (day_entities entry) team_id)
                         (day_model_groups entry) model)
           (ids_named svc team).

Definition all_uses (svc : TeamServiceProtocol) (days : list DailySpendData)
           (team model : string) : list (Z * float) :=
  flat_map (fun entry => day_uses svc entry team model) days.

(** The days on which the cost-efficiency loop does not raise. *)
Definition day_ok (svc : TeamServiceProtocol) (entry : DailySpendData) : bool :=
  is_ok (add_entry svc [] entry).

End CostEfficiencySpec.

(** One day on which key [key1] of team [team1] spent 9.999999 on 333333
    tokens of model [gpt-4]. *)
Definition priced (total : Z) (cost : float) : SpendMetrics :=
  {| spend := cost; prompt_tokens := 0; completion_tokens := 0;
     cache_read_input_tokens := 0; cache_creation_input_tokens := 0;
     total_tokens := total; successful_requests := 0;
     failed_requests := 0; api_requests := 0 |}.

Definition day_of_usage (d : string) (team key model : string) (m : SpendMetrics)
  : DailySpendData :=
  {| date := d; day_metrics := m;
     breakdown :=
       Some {| mcp_servers := None; models := None;
               model_groups := Some [(model, with_keys m [(key, key_of m None)])];
               providers := None;
               api_keys := Some [(key, key_of zero_metrics (Some []))];
               entities := Some [(team, with_keys m [(key, key_of m None)])] |} |}.

Definition priced_document : SpendAnalyticsPaginatedResponse :=
  {| results :=
       [day_of_usage "2024-01-15" "team1" "key1" "gpt-4" (priced 333333 9.999999)] |}.

(** The outer and the inner dictionaries of the cost-efficiency accumulator
    have distinct keys. *)
Definition distinct_keys (tmd : dict (dict CostEfficiencyService.pair_totals)) : Prop :=
  NoDup (dict_keys tmd)
  /\ forall team models, In (team, models) tmd -> NoDup (dict_keys models).

(** ** Merging by key

    [_merge_breakdown] merges key entries by [api_key] and, inside one key,
    model entries by [model_name], both in the same way: a lookup table of
    the entries present before the loop decides whether a source entry is
    combined with the entry of its key or appended. *)

Definition keyed {A : Type} (key : A -> string) (k : string) (a : A) : bool :=
  String.eqb (key a) k.

Definition merge_step {A : Type} (key : A -> string) (combine : A -> A -> A)
           (existing current : list A) (x : A) : list A :=
  if existsb (keyed key (key x)) existing
  then TokenAggregationService.update_last (keyed key (key x)) (combine x) current
  else current ++ [x].

Definition merge_by {A : Type} (key : A -> string) (combine : A -> A -> A)
           (target source : list A) : list A :=
  fold_left (merge_step key combine target) source target.

(** The entry found under [k]. *)
Definition lookup {A : Type} (key : A -> string) (k : string) (l : list A)
  : option A :=
  find (keyed key k) l.

(** What a merge leaves under a key, from what the two sides held. *)
Definition merged {A : Type} (combine : A -> A -> A) (t s : option A) : option A :=
  match t, s with
  | Some a, Some x => Some (combine x a)
  | Some a, None => Some a
  | None, _ => s
  end.

(** Boolean test of distinctness of a list of names. *)
Fixpoint distinctb (l : list string) : bool :=
  match l with
  | [] => true
  | x :: l' => negb (existsb (String.eqb x) l') && distinctb l'
  end.

Module TeamTotalsSpec.
Import TokenAggregationService.

(** How a source entry is combined with the target entry of its key. *)
Definition combine_models (source_model m : model_entry) : model_entry :=
  add_tokens source_model m.

Definition combine_keys (source_key_data k : key_entry) : key_entry :=
  {| api_key := api_key k; key_alias := key_alias k;
     ke_models := merge_models (ke_models k) (ke_models source_key_data) |}.

(** The three token counts of a model entry, and their sums. *)
Definition token_counts (m : model_entry) : Z * Z * Z :=
  (me_total_tokens m, me_prompt_tokens m, me_completion_tokens m).

Definition add_counts (a b : Z * Z * Z) : Z * Z * Z :=
  match a, b with
  | (t, p, c), (t', p', c') => (t + t', p + p', c + c')
  end.

(** Sum of two optional triples: a pair that one side does not have counts
    for what the other side has. *)
Definition plus (a b : option (Z * Z * Z)) : option (Z * Z * Z) :=
  match a, b with
  | Some x, Some y => Some (add_counts x y)
  | Some x, None => Some x
  | None, _ => b
  end.

(** The token counts held for the pair ([key], [model]) in a breakdown, if
    the pair is there. *)
Definition key_model_totals (api_keys : list key_entry) (key model : string)
  : option (Z * Z * Z) :=
  match lookup api_key key api_keys with
  | Some e => option_map token_counts (lookup model_name model (ke_models e))
  | None => None
  end.

(** Distinct API keys, and distinct model names under each of them. *)
Definition well_keyed (api_keys : list key_entry) : Prop :=
  NoDup (map api_key api_keys)
  /\ forall e, In e api_keys -> NoDup (map model_name (ke_models e)).

(** The alias of the first of the breakdowns [sources] that has the key. *)
Fixpoint first_alias (key : string) (sources : list (list key_entry))
  : option (option json) :=
  match sources with
  | [] => None
  | s :: rest =>
      match lookup api_key key s with
      | Some e => Some (key_alias e)
      | None => first_alias key rest
      end
  end.

End TeamTotalsSpec.

Module ExtractSpec.
Import TokenAggregationService.

(** The alias that the [api_keys] map of a breakdown records for [key], as
    [_extract_breakdown] attaches it: the ["key_alias"] of the key's
    metadata when it is truthy. *)
Definition day_alias (top_level_breakdown : BreakdownMetrics) (key : string)
  : option json :=
  match api_keys top_level_breakdown with
  | Some keys =>
      match dict_get keys key with
      | Some data =>
          match km_metadata data with
          | Some metadata => alias_field (dict_get metadata "key_alias")
          | None => None
          end
      | None => None
      end
  | None => None
  end.

(** The entry built for a key from the models gathered for it. *)
Definition entry_of (entity_keys : dict KeyMetricWithMetadata)
           (top_level_breakdown : BreakdownMetrics)
           (item : string * list model_entry) : key_entry :=
  {| api_key := fst item;
     key_alias := day_alias top_level_breakdown (fst item);
     ke_models :=
       match snd item with
       | _ :: _ => snd item
       | [] => [model_entry_of "All Models"
                  (get_key_metrics (get_or_empty entity_keys (fst item)))]
       end |}.

(** Every list of models has distinct names, taken from [names]; the lists
    of the keys not yet visited take them from [earlier] only. *)
Definition models_within (names earlier : list string) (visited : list string)
           (api_key_models : dict (list model_entry)) : Prop :=
  forall key ms,
    In (key, ms) api_key_models ->
    NoDup (map model_name ms)
    /\ incl (map model_name ms) names
    /\ (~ In key visited -> incl (map model_name ms) earlier).

End ExtractSpec.

(** A day whose dictionaries have distinct keys where the team-totals
    service relies on it: entities, the API keys of every entity, and model
    groups. *)
Definition distinct_day (entry : DailySpendData) : bool :=
  distinctb (dict_keys (day_entities entry))
  && distinctb (dict_keys (day_model_groups entry))
  && forallb (fun item : string * MetricWithMetadata =>
                match api_key_breakdown (snd item) with
                | Some keys => distinctb (dict_keys keys)
                | None => true
                end)
             (day_entities entry).

Module TeamTotalsFold.
Import TokenAggregationService TeamTotalsSpec.

(** What one entity contributes to the entry of its team: its
    [total_tokens] and its extracted breakdown. *)
Definition source_of (set_iter : list string -> list string)
           (top_level_breakdown : BreakdownMetrics) (entity : MetricWithMetadata)
  : Z * list key_entry :=
  (total_tokens (mm_metrics entity),
   match _extract_breakdown set_iter entity top_level_breakdown with
   | Ok breakdown => breakdown
   | Err _ => []
   end).

Definition add_source (s : Z * list key_entry) (t : team_entry) : team_entry :=
  {| te_total_tokens := te_total_tokens t + fst s;
     te_api_keys := _merge_breakdown (te_api_keys t) (snd s) |}.

(** The entities of a day that resolve to the display name [name]: every
    entity of the day counts, requested or not. *)
Definition entities_named (svc : TeamServiceProtocol) (name : string)
           (es : dict MetricWithMetadata) : dict MetricWithMetadata :=
  filter (fun item => String.eqb (get_team_name svc (fst item)) name) es.

(** The contributions of one day, and of all days, to the entry of [name],
    in the order in which the fold merges them. *)
Definition day_sources (set_iter : list string -> list string)
           (svc : TeamServiceProtocol) (name : string) (entry : DailySpendData)
  : list (Z * list key_entry) :=
  match breakdown entry with
  | Some b =>
      map (fun item => source_of set_iter b (snd item))
          (entities_named svc name (day_entities entry))
  | None => []
  end.

Definition sources (set_iter : list string -> list string)
           (svc : TeamServiceProtocol) (name : string) (days : list DailySpendData)
  : list (Z * list key_entry) :=
  flat_map (day_sources set_iter svc name) days.

(** The days on which the team-totals loop does not raise. *)
Definition day_ok (set_iter : list string -> list string)
           (svc : TeamServiceProtocol) (entry : DailySpendData) : bool :=
  is_ok (add_entry set_iter svc (initial_team_data svc) entry).

(** Two accumulators with the same team names. *)
Definition same_teams (team_data team_data' : dict team_entry) : Prop :=
  forall name, dict_mem team_data name = dict_mem team_data' name.

(** [total_tokens] of the entities resolving to [name], summed over all
    days. *)
Definition entity_total (svc : TeamServiceProtocol) (days : list DailySpendData)
           (name : string) : Z :=
  sum_Z (map (fun entry =>
                sum_Z (map (fun item : string * MetricWithMetadata =>
                              total_tokens (mm_metrics (snd item)))
                           (entities_named svc name (day_entities entry))))
             days).

End TeamTotalsFold.

(** Two team ids behind one display name. *)
Definition shared_name : TeamServiceProtocol :=
  TeamService.service [{| team_id := "team1"; team_alias := Some "Platform" |};
                       {| team_id := "team2"; team_alias := Some "Platform" |}].

Definition usage (tokens requests : Z) : SpendMetrics :=
  {| spend := zero; prompt_tokens := 0; completion_tokens := 0;
     cache_read_input_tokens := 0; cache_creation_input_tokens := 0;
     total_tokens := tokens; successful_requests := requests;
     failed_requests := 0; api_requests := requests |}.

(** Two days on which both teams were active: [team1] through [key1],
    [team2] through [key2], both on model group [gpt-4]. *)
Definition shared_day (d : string) : DailySpendData :=
  {| date := d; day_metrics := zero_metrics;
     breakdown :=
       Some {| mcp_servers := None; models := None;
               model_groups :=
                 Some [("gpt-4",
                        with_keys (tokens_only 1500 900 600)
                                  [("key1", key_of (tokens_only 1000 600 400) None);
                                   ("key2", key_of (tokens_only 500 300 200) None)])];
               providers := None;
               api_keys := Some [("key1", key_of zero_metrics (Some []));
                                 ("key2", key_of zero_metrics (Some []))];
               entities :=
                 Some [("team1",
                        with_keys (usage 1000 10)
                                  [("key1", key_of (tokens_only 1000 600 400) None)]);
                       ("team2",
                        with_keys (usage 500 5)
                                  [("key2", key_of (tokens_only 500 300 200) None)])]
            |} |}.

Definition shared_days : SpendAnalyticsPaginatedResponse :=
  {| results := [shared_day "2024-01-15"; shared_day "2024-01-16"] |}.

(** What the team-totals service holds for the shared name after these two
    days. *)
Definition shared_entry : TokenAggregationService.team_entry :=
  {| TokenAggregationService.te_total_tokens := 3000;
     TokenAggregationService.te_api_keys :=
       [{| TokenAggregationService.api_key := "key1";
           TokenAggregationService.key_alias := None;
           TokenAggregationService.ke_models :=
             [{| TokenAggregationService.model_name := "gpt-4";
                 TokenAggregationService.me_total_tokens := 2000;
                 TokenAggregationService.me_prompt_tokens := 1200;
                 TokenAggregationService.me_completion_tokens := 800 |}] |};
        {| TokenAggregationService.api_key := "key2";
           TokenAggregationService.key_alias := None;
           TokenAggregationService.ke_models :=
             [{| TokenAggregationService.model_name := "gpt-4";
                 TokenAggregationService.me_total_tokens := 1000;
                 TokenAggregationService.me_prompt_tokens := 600;
                 TokenAggregationService.me_completion_tokens := 400 |}] |}] |}.

Module AliasSpec.
Import TokenAggregationService TeamTotalsSpec TeamTotalsFold ExtractSpec.

(** The entities that resolve to [name], in document order, each with the
    breakdown of its day. *)
Definition team_entities (svc : TeamServiceProtocol) (name : string)
           (days : list DailySpendData) : list (BreakdownMetrics * MetricWithMetadata) :=
  flat_map (fun entry =>
              match breakdown entry with
              | Some b => map (fun item => (b, snd item))
                              (entities_named svc name (day_entities entry))
              | None => []
              end)
           days.

(** [key] is among the API keys of the entity. *)
Definition uses_key (key : string) (entity : MetricWithMetadata) : bool :=
  match api_key_breakdown entity with
  | Some keys => dict_mem keys key
  | None => false
  end.

(** The breakdowns of the days on which [key] is among the API keys of an
    entity resolving to [name], in document order. *)
Definition key_days (svc : TeamServiceProtocol) (name key : string)
           (days : list DailySpendData) : list BreakdownMetrics :=
  map fst (filter (fun be => uses_key key (snd be)) (team_entities svc name days)).

(** The reading of the specification: an alias recorded for the key on any
    of its days is the alias of the key's entry. *)
Definition alias_of_any_day (set_iter : list string -> list string)
           (svc : TeamServiceProtocol) (data : SpendAnalyticsPaginatedResponse) : Prop :=
  forall out name t key b alias,
    fetch_total_tokens_per_team set_iter svc (Ok data) = Ok out ->
    dict_get out name = Some t ->
    In b (key_days svc name key (results data)) ->
    day_alias b key = Some alias ->
    exists e, lookup api_key key (te_api_keys t) = Some e /\ key_alias e = Some alias.

End AliasSpec.

(** Two days of the same key; only the second records an alias for it. *)
Definition breakdown_with_alias (metadata : dict json) : BreakdownMetrics :=
  {| mcp_servers := None; models := None;
     model_groups :=
       Some [("gpt-4",
              with_keys (tokens_only 1000 600 400)
                        [("key1", key_of (tokens_only 1000 600 400) None)])];
     providers := None;
     api_keys := Some [("key1", key_of zero_metrics (Some metadata))];
     entities :=
       Some [("team1",
              with_keys (tokens_only 1000 600 400)
                        [("key1", key_of (tokens_only 1000 600 400) None)])] |}.

Definition day_with_alias (d : string) (metadata : dict json) : DailySpendData :=
  {| date := d; day_metrics := tokens_only 1000 600 400;
     breakdown := Some (breakdown_with_alias metadata) |}.

Definition alias_on_second_day : SpendAnalyticsPaginatedResponse :=
  {| results :=
       [day_with_alias "2024-01-15" [];
        day_with_alias "2024-01-16" [("key_alias", JStr "DevBoost Key")]] |}.

Definition alias_on_first_day : SpendAnalyticsPaginatedResponse :=
  {| results :=
       [day_with_alias "2024-01-15" [("key_alias", JStr "DevBoost Key")];
        day_with_alias "2024-01-16" []] |}.

(** What the team-totals service holds for the team after these two days,
    up to the alias of the key. *)
Definition two_days_of_key (alias : option json) : TokenAggregationService.team_entry :=
  {| TokenAggregationService.te_total_tokens := 2000;
     TokenAggregationService.te_api_keys :=
       [{| TokenAggregationService.api_key := "key1";
           TokenAggregationService.key_alias := alias;
           TokenAggregationService.ke_models :=
             [{| TokenAggregationService.model_name := "gpt-4";
                 TokenAggregationService.me_total_tokens := 2000;
                 TokenAggregationService.me_prompt_tokens := 1200;
                 TokenAggregationService.me_completion_tokens := 800 |}] |}] |}.

Module SourcesSpec.
Import TokenAggregationService TeamTotalsSpec TeamTotalsFold ExtractSpec.

(** An entity whose extraction succeeds, on a day whose dictionaries have
    distinct keys. *)
Definition extractable (set_iter : list string -> list string)
           (be : BreakdownMetrics * MetricWithMetadata) : Prop :=
  (exists breakdown, _extract_breakdown set_iter (snd be) (fst be) = Ok breakdown)
  /\ (forall keys, api_key_breakdown (snd be) = Some keys -> NoDup (dict_keys keys))
  /\ (forall ms, model_groups (fst be) = Some ms -> NoDup (dict_keys ms)).

End SourcesSpec.

(** Three days on which key [key1] of team [team1] used model [gpt-4]:
    10, 90 and 250 tokens for 0.00001, 0.00009 and 0.00025; and the same
    three days in the opposite order. *)
Definition spend_days : SpendAnalyticsPaginatedResponse :=
  {| results :=
       [day_of_usage "2024-01-15" "team1" "key1" "gpt-4" (priced 10 0.00001);
        day_of_usage "2024-01-16" "team1" "key1" "gpt-4" (priced 90 0.00009);
        day_of_usage "2024-01-17" "team1" "key1" "gpt-4" (priced 250 0.00025)] |}.

Definition spend_days_reversed : SpendAnalyticsPaginatedResponse :=
  {| results := rev (results spend_days) |}.

(** The reading of the specification for the pairs of the cost-efficiency
    fold: two orders of the same days leave the same totals under every
    (team, model) pair. *)
Definition same_pair_totals (svc : TeamServiceProtocol)
           (data data' : SpendAnalyticsPaginatedResponse) : Prop :=
  forall tmd tmd' team model,
    CostEfficiencyService.aggregate svc data = Ok tmd ->
    CostEfficiencyService.aggregate svc data' = Ok tmd' ->
    CostEfficiencySpec.get2 tmd team model = CostEfficiencySpec.get2 tmd' team model.


(** [sep in s] on strings. *)
Fixpoint occurs (sep s : string) : bool :=
  if String.prefix sep s then true
  else match s with
       | EmptyString => false
       | String _ s' => occurs sep s'
       end.

(** The key entry lists at least one model. *)
Definition lists_a_model (k : TokenAggregationService.key_entry) : Prop :=
  TokenAggregationService.ke_models k <> [].

(** The names of [source] that [target] does not hold yet, in the order of
    [source]. *)
Definition new_names (target source : list string) : list string :=
  filter (fun name => negb (existsb (String.eqb name) target)) source.

(** The model entry that the key breakdown [d] of model group [model] gives
    to [key]: one entry when [d] lists the key, none otherwise. *)
Definition key_models (model : string) (d : dict KeyMetricWithMetadata) (key : string)
  : list TokenAggregationService.model_entry :=
  match dict_get d key with
  | Some data =>
      [TokenAggregationService.model_entry_of model (Found (km_metrics data))]
  | None => []
  end.

(** The model entries that the model groups [models] give to [key], in the
    order of the model groups. *)
Definition gathered (models : dict MetricWithMetadata) (key : string)
  : list TokenAggregationService.model_entry :=
  flat_map (fun item : string * MetricWithMetadata =>
              match api_key_breakdown (snd item) with
              | Some d => key_models (fst item) d key
              | None => []
              end)
           models.

(** A team with two API keys, of which model group [gpt-4] lists the first
    only. *)
Definition two_key_entity : MetricWithMetadata :=
  with_keys (tokens_only 1500 900 600)
            [("key1", key_of (tokens_only 1000 600 400) None);
             ("key2", key_of (tokens_only 500 300 200) None)].

Definition one_model_breakdown : BreakdownMetrics :=
  {| mcp_servers := None; models := None;
     model_groups :=
       Some [("gpt-4",
              with_keys (tokens_only 1000 600 400)
                        [("key1", key_of (tokens_only 1000 600 400) None)])];
     providers := None;
     api_keys :=
       Some [("key1",
              key_of zero_metrics (Some [("key_alias", JStr "DevBoost Key")]))];
     entities := Some [("team1", two_key_entity)] |}.

(** The exceptions that reading a fetched document can end with: a method
    called on a missing map, a membership test against one, a float out of
    range. *)
Definition document_error (e : exn) : Prop :=
  e = AttributeError \/ e = TypeError \/ e = OverflowError.

(** The two of them that a missing map gives rise to. *)
Definition lookup_error (e : exn) : Prop :=
  e = AttributeError \/ e = TypeError.

(** The calls that the four endpoints of [api/server.py] that consult a
    service ([/tokens], [/tokens/timeseries], [/tokens/success-rate] and
    [/tokens/cost-efficiency]) make through [execute_date_range_endpoint]:
    [client start end] is what fetching the activity of the requested teams
    between the two formatted dates gives. *)
Module Endpoints.
Import EndpointUtils.

Section Calls.

Context {datetime : Type}.
Variable tools : DateTools datetime.
Variable builtin_message : exn -> string.
Variable set_iter : list string -> list string.
Variable svc : TeamServiceProtocol.
Variable client : string -> string -> result SpendAnalyticsPaginatedResponse.

Definition tokens (start_date end_date : option string)
  : outcome (dict TokenAggregationService.team_entry) :=
  execute_date_range_endpoint tools builtin_message start_date end_date
    (fun s e =>
       TokenAggregationService.fetch_total_tokens_per_team set_iter svc (client s e)).

Definition timeseries (start_date end_date : option string)
  : outcome (list TimeSeriesService.day_point) :=
  execute_date_range_endpoint tools builtin_message start_date end_date
    (fun s e => TimeSeriesService.fetch_daily_timeseries_per_team svc (client s e)).

Definition success_rate (start_date end_date : option string)
  : outcome (list SuccessRateService.team_summary) :=
  execute_date_range_endpoint tools builtin_message start_date end_date
    (fun s e => SuccessRateService.fetch_team_success_rate_summary svc (client s e)).

Definition cost_efficiency (start_date end_date : option string)
  : outcome (list CostEfficiencyService.cell) :=
  execute_date_range_endpoint tools builtin_message start_date end_date
    (fun s e => CostEfficiencyService.fetch_cost_efficiency svc (client s e)).

(** The dates pass validation and parsing and are formatted as [s] and
    [e]. *)
Definition dates_accepted (start_date end_date : option string) (s e : string)
  : Prop :=
  exists params start_dt end_dt,
    DateRangeParams tools start_date end_date = Ok params
    /\ parse_date_range tools (fst params) (snd params) = Ok (start_dt, end_dt)
    /\ format_date_for_api tools start_dt = Ok s
    /\ format_date_for_api_end tools end_dt = Ok e.

End Calls.

End Endpoints.

(** Date tools that accept every request and format both ends of the range
    as the given strings. *)
Definition lenient_tools (s e : string) : EndpointUtils.DateTools unit :=
  {| EndpointUtils.DateRangeParams := fun start_date end_date => Ok (start_date, end_date);
     EndpointUtils.parse_date_range := fun _ _ => Ok (tt, tt);
     EndpointUtils.format_date_for_api := fun _ => Ok s;
     EndpointUtils.format_date_for_api_end := fun _ => Ok e |}.

(** One request window, already formatted. *)
Definition window_start : string := "2024.01.15".
Definition window_end : string := "2024-01-16T23:59:59+00:00".

(** The three token counts of a metrics record. *)
Definition counts_of (m : SpendMetrics) : Z * Z * Z :=
  (total_tokens m, prompt_tokens m, completion_tokens m).

(** The token counts that the key breakdown of model group [model] holds
    for [key], if the group exists and lists the key. *)
Definition group_counts (models : dict MetricWithMetadata) (key model : string)
  : option (Z * Z * Z) :=
  match dict_get models model with
  | Some md =>
      match api_key_breakdown md with
      | Some d => option_map (fun data => counts_of (km_metrics data)) (dict_get d key)
      | None => None
      end
  | None => None
  end.

(** What one entity of a team, on a day with breakdown [fst be], gives to
    the pair ([key], [model]) of the team's drill-down.  Nothing when [key]
    is not a key of the entity.  When some model group lists the key: the
    key's counts in model group [model].  When none does: the key's counts
    in the entity's own key breakdown, under the model ["All Models"]. *)
Definition day_counts (be : BreakdownMetrics * MetricWithMetadata) (key model : string)
  : option (Z * Z * Z) :=
  match api_key_breakdown (snd be), model_groups (fst be) with
  | Some keys, Some models =>
      match dict_get keys key with
      | Some data =>
          match gathered models key with
          | [] => if String.eqb model "All Models"
                  then Some (counts_of (km_metrics data))
                  else None
          | _ :: _ => group_counts models key model
          end
      | None => None
      end
  | _, _ => None
  end.

(** The optional value is there. *)
Definition present {A : Type} (o : option A) : bool :=
  match o with
  | Some _ => true
  | None => false
  end.

(** A day on which the upstream supplied every map that the team-based
    services read: the breakdown with its entities, model groups and API
    keys, the key breakdown of every entity and of every model group, and
    the metadata of every API key. *)
Definition complete_day (entry : DailySpendData) : bool :=
  match breakdown entry with
  | Some b =>
      match entities b, model_groups b, api_keys b with
      | Some es, Some ms, Some ks =>
          forallb (fun item : string * MetricWithMetadata =>
                     present (api_key_breakdown (snd item))) es
          && forallb (fun item : string * MetricWithMetadata =>
                        present (api_key_breakdown (snd item))) ms
          && forallb (fun item : string * KeyMetricWithMetadata =>
                        present (km_metadata (snd item))) ks
      | _, _, _ => false
      end
  | None => false
  end.

(** [name] is the display name of a requested team. *)
Definition requested_name (svc : TeamServiceProtocol) (name : string) : bool :=
  existsb (String.eqb name) (display_names svc).

(** The day without the entities of the teams that were not requested. *)
Definition requested_only (svc : TeamServiceProtocol) (entry : DailySpendData)
  : DailySpendData :=
  {| date := date entry;
     day_metrics := day_metrics entry;
     breakdown :=
       option_map
         (fun b =>
            {| mcp_servers := mcp_servers b;
               models := models b;
               model_groups := model_groups b;
               providers := providers b;
               api_keys := api_keys b;
               entities :=
                 option_map
                   (filter (fun item : string * MetricWithMetadata =>
                              requested_name svc (get_team_name svc (fst item))))
                   (entities b) |})
         (breakdown entry) |}.






(** * Properties *)

(** ** Failure of the upstream fetch *)




(** ** A day without breakdown *)

(** C2, evaluated on a document whose only day has no breakdown: the
    team-totals, success-rate, cost-efficiency and model-usage services raise
    [AttributeError]; the time-series service, which replaces a missing
    breakdown by the empty dictionary, answers with a zero-filled row. *)
Theorem missing_breakdown_raises :
  TokenAggregationService.fetch_total_tokens_per_team
    (fun keys => keys) one_team (Ok document_without_breakdown)
  = Err AttributeError
  /\ SuccessRateService.fetch_team_success_rate_summary
       one_team (Ok document_without_breakdown)
     = Err AttributeError
  /\ CostEfficiencyService.fetch_cost_efficiency
       one_team (Ok document_without_breakdown)
     = Err AttributeError
  /\ ModelUsageService.fetch_model_usage
       (fun name => name) (Ok document_without_breakdown)
     = Err AttributeError
  /\ TimeSeriesService.fetch_daily_timeseries_per_team
       one_team (Ok document_without_breakdown)
     = Ok [{| TimeSeriesService.dp_date := "2024-01-15";
              TimeSeriesService.dp_teams :=
                [{| TimeSeriesService.tp_name := "Alpha Team";
                    TimeSeriesService.tp_tokens := 0;
                    TimeSeriesService.tp_total_requests := 0;
                    TimeSeriesService.tp_successful_requests := 0;
                    TimeSeriesService.tp_failed_requests := 0 |}] |}].
Proof. repeat split. Qed.

(** ** Dictionaries and loops *)

Lemma dict_get_update (V : Type) (d : dict V) (k k' : string) (f : V -> V) :
  dict_get (dict_update d k f) k'
  = if String.eqb k k' then option_map f (dict_get d k') else dict_get d k'.
Proof.
  induction d as [| [k0 v] d IH]; simpl.
  - destruct (String.eqb k k'); reflexivity.
  - destruct (String.eqb k0 k) eqn:E0; simpl.
    + apply String.eqb_eq in E0. subst k0.
      destruct (String.eqb k k'); reflexivity.
    + destruct (String.eqb k0 k') eqn:E1; [| exact IH].
      apply String.eqb_eq in E1. subst k0. rewrite String.eqb_sym, E0. reflexivity.
Qed.

Lemma dict_keys_update (V : Type) (d : dict V) (k : string) (f : V -> V) :
  dict_keys (dict_update d k f) = dict_keys d.
Proof.
  induction d as [| [k0 v] d IH]; simpl; [reflexivity |].
  destruct (String.eqb k0 k); simpl; [reflexivity | now rewrite IH].
Qed.

Lemma dict_mem_update (V : Type) (d : dict V) (k k' : string) (f : V -> V) :
  dict_mem (dict_update d k f) k' = dict_mem d k'.
Proof.
  unfold dict_mem. rewrite dict_get_update.
  destruct (String.eqb k k'), (dict_get d k'); reflexivity.
Qed.

Lemma dict_get_set (V : Type) (d : dict V) (k k' : string) (v : V) :
  dict_get (dict_set d k v) k'
  = if String.eqb k k' then Some v else dict_get d k'.
Proof.
  induction d as [| [k0 v0] d IH]; simpl.
  - reflexivity.
  - destruct (String.eqb k0 k) eqn:E0; simpl.
    + apply String.eqb_eq in E0. subst k0.
      destruct (String.eqb k k'); reflexivity.
    + destruct (String.eqb k0 k') eqn:E1; [| exact IH].
      apply String.eqb_eq in E1. subst k0. rewrite String.eqb_sym, E0. reflexivity.
Qed.

Lemma dict_mem_set (V : Type) (d : dict V) (k k' : string) (v : V) :
  dict_mem (dict_set d k v) k' = String.eqb k k' || dict_mem d k'.
Proof.
  unfold dict_mem. rewrite dict_get_set.
  destruct (String.eqb k k'); reflexivity.
Qed.

Lemma dict_keys_set (V : Type) (d : dict V) (k : string) (v : V) :
  dict_keys (dict_set d k v)
  = if dict_mem d k then dict_keys d else dict_keys d ++ [k].
Proof.
  unfold dict_mem.
  induction d as [| [k0 v0] d IH]; simpl; [reflexivity |].
  destruct (String.eqb k0 k) eqn:E0; simpl; [reflexivity |].
  rewrite IH. destruct (dict_get d k); reflexivity.
Qed.

Lemma dict_mem_keys (V : Type) (d : dict V) (k : string) :
  dict_mem d k = true <-> In k (dict_keys d).
Proof.
  unfold dict_mem.
  induction d as [| [k0 v0] d IH]; simpl.
  - split; [discriminate | tauto].
  - destruct (String.eqb k0 k) eqn:E0.
    + apply String.eqb_eq in E0. tauto.
    + apply String.eqb_neq in E0. rewrite IH. tauto.
Qed.

Lemma dict_get_in (V : Type) (d : dict V) (k : string) (v : V) :
  dict_get d k = Some v -> In (k, v) d.
Proof.
  induction d as [| [k0 v0] d IH]; simpl; [discriminate |].
  destruct (String.eqb k0 k) eqn:E0.
  - apply String.eqb_eq in E0. intros [= ->]. subst. now left.
  - intro H. right. now apply IH.
Qed.

Lemma in_dict_get (V : Type) (d : dict V) (k : string) (v : V) :
  NoDup (dict_keys d) -> In (k, v) d -> dict_get d k = Some v.
Proof.
  induction d as [| [k0 v0] d IH]; simpl; [tauto |].
  intros Hnd [H | H].
  - injection H as -> ->. now rewrite String.eqb_refl.
  - inversion Hnd as [| ? ? Hnotin Hnd']; subst.
    destruct (String.eqb k0 k) eqn:E0.
    + apply String.eqb_eq in E0. subst k0. exfalso. apply Hnotin.
      change k with (fst (k, v)). now apply in_map.
    + now apply IH.
Qed.

(** A loop whose body never raises is a left fold. *)
Lemma for_each_pure (A S : Type) (body : S -> A -> result S) (step : S -> A -> S)
      (l : list A) (s : S) :
  (forall s a, In a l -> body s a = Ok (step s a)) ->
  for_each body l s = Ok (fold_left step l s).
Proof.
  revert s. induction l as [| a l IH]; intros s H; simpl; [reflexivity |].
  rewrite H by now left. simpl. apply IH. intros; apply H; now right.
Qed.

Lemma map_result_Forall2 (A B : Type) (f : A -> result B) (l : list A) (out : list B) :
  map_result f l = Ok out -> Forall2 (fun a b => f a = Ok b) l out.
Proof.
  revert out. induction l as [| a l IH]; intros out; simpl.
  - intros [= <-]. constructor.
  - destruct (f a) as [b |] eqn:Ea; simpl; [| discriminate].
    destruct (map_result f l) as [bs |]; simpl; [| discriminate].
    intros [= <-]. constructor; [exact Ea | now apply IH].
Qed.

(** Sums of integers and their invariance under reordering. *)
Lemma sum_Z_app (l1 l2 : list Z) : sum_Z (l1 ++ l2) = sum_Z l1 + sum_Z l2.
Proof. induction l1; simpl; lia. Qed.

Lemma sum_Z_perm (l1 l2 : list Z) : Permutation l1 l2 -> sum_Z l1 = sum_Z l2.
Proof. induction 1; simpl; lia. Qed.

(** ** Keys created by a dictionary comprehension *)

Lemma filter_filter (A : Type) (p q : A -> bool) (l : list A) :
  filter p (filter q l) = filter (fun x => q x && p x) l.
Proof.
  induction l as [| a l IH]; simpl; [reflexivity |].
  destruct (q a); simpl; [destruct (p a) |]; now rewrite IH.
Qed.

Lemma In_distinct (l : list string) (x : string) : In x (distinct l) <-> In x l.
Proof.
  induction l as [| a l IH]; simpl; [tauto |].
  rewrite filter_In, IH, negb_true_iff, String.eqb_neq.
  destruct (String.eqb_spec a x); subst; tauto.
Qed.

Lemma NoDup_distinct (l : list string) : NoDup (distinct l).
Proof.
  induction l as [| a l IH]; simpl; constructor.
  - rewrite filter_In, String.eqb_refl. simpl. intros [_ H]. discriminate.
  - now apply NoDup_filter.
Qed.

Lemma keys_of_comprehension (V : Type) (f : string -> string) (v0 : V)
      (ids : list string) (d : dict V) :
  dict_keys (fold_left (fun d id => dict_set d (f id) v0) ids d)
  = dict_keys d ++ filter (fun n => negb (dict_mem d n)) (distinct (map f ids)).
Proof.
  revert d. induction ids as [| a ids IH]; intro d; simpl.
  - now rewrite app_nil_r.
  - rewrite IH, dict_keys_set. rewrite filter_filter.
    destruct (dict_mem d (f a)) eqn:Hm; simpl.
    + f_equal. apply filter_ext_in. intros n _.
      rewrite dict_mem_set.
      destruct (String.eqb_spec (f a) n); simpl; subst; rewrite ?Hm; reflexivity.
    + rewrite <- app_assoc. simpl. do 2 f_equal. apply filter_ext_in. intros n _.
      rewrite dict_mem_set. now rewrite negb_orb.
Qed.

Lemma values_of_comprehension (V : Type) (f : string -> string) (v0 : V)
      (ids : list string) (d : dict V) (n : string) :
  dict_get (fold_left (fun d id => dict_set d (f id) v0) ids d) n
  = if existsb (fun id => String.eqb (f id) n) ids then Some v0 else dict_get d n.
Proof.
  revert d. induction ids as [| a ids IH]; intro d; simpl; [reflexivity |].
  rewrite IH, dict_get_set.
  destruct (existsb (fun id => String.eqb (f id) n) ids); [now rewrite orb_true_r |].
  now rewrite orb_false_r.
Qed.

Lemma existsb_named (f : string -> string) (ids : list string) (n : string) :
  existsb (fun id => String.eqb (f id) n) ids = true <-> In n (map f ids).
Proof.
  rewrite existsb_exists, in_map_iff.
  split; intros [id [H1 H2]]; exists id.
  - apply String.eqb_eq in H2. tauto.
  - split; [tauto | apply String.eqb_eq; tauto].
Qed.

(** A dictionary is determined by its keys, when they are distinct, and by
    the value found under each of them. *)
Lemma dict_ext (V : Type) (d : dict V) (ks : list string) (g : string -> V) :
  dict_keys d = ks -> NoDup ks ->
  (forall n, In n ks -> dict_get d n = Some (g n)) ->
  d = map (fun n => (n, g n)) ks.
Proof.
  revert ks. induction d as [| [k v] d IH]; intros ks Hk Hnd Hg; simpl in Hk; subst ks.
  - reflexivity.
  - simpl. inversion Hnd as [| ? ? Hnotin Hnd']; subst.
    f_equal.
    + specialize (Hg k (or_introl eq_refl)). simpl in Hg.
      rewrite String.eqb_refl in Hg. now injection Hg as ->.
    + apply IH; [reflexivity | assumption |].
      intros n Hn. specialize (Hg n (or_intror Hn)). simpl in Hg.
      destruct (String.eqb_spec k n); [subst; contradiction | assumption].
Qed.

(** ** Loops that update one entry per element *)

Lemma keys_of_updates (A V : Type) (key : A -> string) (g : A -> V -> V)
      (l : list A) (d : dict V) :
  dict_keys (fold_left (fun d a => dict_update d (key a) (g a)) l d) = dict_keys d.
Proof.
  revert d. induction l as [| a l IH]; intro d; simpl; [reflexivity |].
  now rewrite IH, dict_keys_update.
Qed.

Lemma values_of_updates (A V : Type) (key : A -> string) (g : A -> V -> V)
      (l : list A) (d : dict V) (n : string) :
  dict_get (fold_left (fun d a => dict_update d (key a) (g a)) l d) n
  = option_map
      (fun v => fold_left (fun v a => g a v)
                          (filter (fun a => String.eqb (key a) n) l) v)
      (dict_get d n).
Proof.
  revert d. induction l as [| a l IH]; intro d; simpl.
  - destruct (dict_get d n); reflexivity.
  - rewrite IH, dict_get_update.
    destruct (String.eqb (key a) n); simpl; destruct (dict_get d n); reflexivity.
Qed.

(** ** Success rate *)

Section SuccessRate.
Import SuccessRateService SuccessRateSpec.

Variable svc : TeamServiceProtocol.

Lemma initial_team_metrics_keys :
  dict_keys (initial_team_metrics svc) = display_names svc.
Proof.
  unfold initial_team_metrics. rewrite keys_of_comprehension. simpl.
  unfold display_names. induction (distinct _) as [| n l IH]; simpl; congruence.
Qed.

Lemma initial_team_metrics_get (name : string) :
  In name (display_names svc) ->
  dict_get (initial_team_metrics svc) name = Some no_requests.
Proof.
  unfold display_names, initial_team_metrics. rewrite In_distinct.
  intro H. rewrite values_of_comprehension.
  apply existsb_named in H. now rewrite H.
Qed.

Lemma success_rate_add_entry_spec (team_metrics : dict team_counters) (entry : DailySpendData) :
  add_entry svc team_metrics entry
  = if day_ok svc entry then Ok (add_day svc (day_entities entry) team_metrics)
    else Err AttributeError.
Proof.
  unfold add_entry, day_ok, day_entities, add_day.
  destruct (breakdown entry) as [b |]; simpl; [| reflexivity].
  destruct (entities b) as [es |]; simpl.
  - apply for_each_pure. reflexivity.
  - destruct (get_team_ids svc); reflexivity.
Qed.

Lemma add_counters_fold (m : string -> or_empty SpendMetrics) (l : list string)
      (c : team_counters) :
  let c' := fold_left (fun c id => add_counters (m id) c) l c in
  tc_total_requests c'
  = tc_total_requests c + sum_Z (map (fun id => get_int api_requests (m id)) l)
  /\ tc_successful_requests c'
     = tc_successful_requests c
       + sum_Z (map (fun id => get_int successful_requests (m id)) l)
  /\ tc_failed_requests c'
     = tc_failed_requests c + sum_Z (map (fun id => get_int failed_requests (m id)) l).
Proof.
  revert c. induction l as [| a l IH]; intro c; simpl.
  - repeat split; lia.
  - destruct (IH (add_counters (m a) c)) as (H1 & H2 & H3).
    simpl in H1, H2, H3. rewrite H1, H2, H3. simpl. repeat split; lia.
Qed.

Lemma add_day_keys (es : dict MetricWithMetadata) (tm : dict team_counters) :
  dict_keys (add_day svc es tm) = dict_keys tm.
Proof. apply keys_of_updates. Qed.

Lemma add_day_get (es : dict MetricWithMetadata) (tm : dict team_counters)
      (name : string) (c : team_counters) :
  dict_get tm name = Some c ->
  exists c',
    dict_get (add_day svc es tm) name = Some c'
    /\ tc_total_requests c'
       = tc_total_requests c
         + sum_Z (map (team_counter api_requests es) (ids_named svc name))
    /\ tc_successful_requests c'
       = tc_successful_requests c
         + sum_Z (map (team_counter successful_requests es) (ids_named svc name))
    /\ tc_failed_requests c'
       = tc_failed_requests c
         + sum_Z (map (team_counter failed_requests es) (ids_named svc name)).
Proof.
  intro H. unfold add_day.
  rewrite (values_of_updates _ _ (get_team_name svc)
             (fun team_id => add_counters (get_metrics (get_or_empty es team_id)))).
  rewrite H. simpl. eexists. split; [reflexivity |].
  apply (add_counters_fold (fun id => get_metrics (get_or_empty es id))).
Qed.

Lemma equal_counters (c c' : team_counters) :
  tc_total_requests c = tc_total_requests c' ->
  tc_successful_requests c = tc_successful_requests c' ->
  tc_failed_requests c = tc_failed_requests c' ->
  c = c'.
Proof. destruct c, c'; simpl; congruence. Qed.

(** Folding the days from [tm] on. *)
Lemma for_each_add_entry (days : list DailySpendData) (tm : dict team_counters) :
  for_each (add_entry svc) days tm
  = if forallb (day_ok svc) days
    then Ok (fold_left (fun tm entry => add_day svc (day_entities entry) tm) days tm)
    else Err AttributeError.
Proof.
  revert tm. induction days as [| entry days IH]; intro tm; simpl; [reflexivity |].
  rewrite success_rate_add_entry_spec. destruct (day_ok svc entry); simpl; [apply IH | reflexivity].
Qed.

Lemma fold_add_day_keys (days : list DailySpendData) (tm : dict team_counters) :
  dict_keys (fold_left (fun tm entry => add_day svc (day_entities entry) tm) days tm)
  = dict_keys tm.
Proof.
  revert tm. induction days as [| entry days IH]; intro tm; simpl; [reflexivity |].
  now rewrite IH, add_day_keys.
Qed.

Lemma fold_add_day_get (days : list DailySpendData) (tm : dict team_counters)
      (name : string) (c : team_counters) :
  dict_get tm name = Some c ->
  exists c',
    dict_get (fold_left (fun tm entry => add_day svc (day_entities entry) tm) days tm) name
    = Some c'
    /\ tc_total_requests c'
       = tc_total_requests c + requested_total api_requests svc days name
    /\ tc_successful_requests c'
       = tc_successful_requests c + requested_total successful_requests svc days name
    /\ tc_failed_requests c'
       = tc_failed_requests c + requested_total failed_requests svc days name.
Proof.
  revert tm c. induction days as [| entry days IH]; intros tm c H; simpl.
  - exists c. unfold requested_total. simpl. repeat split; auto; lia.
  - destruct (add_day_get (day_entities entry) tm name c H) as (c1 & G & H1 & H2 & H3).
    destruct (IH _ _ G) as (c' & G' & K1 & K2 & K3).
    exists c'. split; [exact G' |].
    unfold requested_total in *. simpl. repeat split; lia.
Qed.

(** The success-rate fold in closed form: it succeeds exactly on the
    documents all of whose days pass [day_ok], and then holds, for every
    display name, the sums of the three request counters. *)
Lemma aggregate_closed_form (data : SpendAnalyticsPaginatedResponse) :
  aggregate svc data
  = if forallb (day_ok svc) (results data)
    then Ok (folded svc (results data))
    else Err AttributeError.
Proof.
  unfold aggregate. rewrite for_each_add_entry.
  destruct (forallb (day_ok svc) (results data)); [| reflexivity].
  f_equal. unfold folded. apply dict_ext.
  - rewrite fold_add_day_keys. apply initial_team_metrics_keys.
  - apply NoDup_distinct.
  - intros name Hn.
    destruct (fold_add_day_get (results data) _ name _
                (initial_team_metrics_get name Hn)) as (c' & G & H1 & H2 & H3).
    rewrite G. f_equal. apply equal_counters; simpl; assumption.
Qed.

End SuccessRate.

Section SuccessRateFormula.
Import SuccessRateService SuccessRateSpec.

Variable svc : TeamServiceProtocol.

Lemma summarise_row (name : string) (c : team_counters) (row : team_summary) :
  summarise (name, c) = Ok row ->
  ts_name row = name
  /\ ts_total_requests row = tc_total_requests c
  /\ ts_successful_requests row = tc_successful_requests c
  /\ ts_failed_requests row = tc_failed_requests c
  /\ (0 < tc_total_requests c ->
      exists q, int_truediv (tc_successful_requests c) (tc_total_requests c) = Ok q
                /\ py_round (q * 100)%float 2 = Ok (ts_success_rate row))
  /\ (tc_total_requests c <= 0 -> ts_success_rate row = zero).
Proof.
  unfold summarise, success_rate_of.
  destruct (0 <? tc_total_requests c) eqn:Hpos.
  - apply Z.ltb_lt in Hpos.
    destruct (int_truediv (tc_successful_requests c) (tc_total_requests c))
      as [q |] eqn:Eq; simpl; [| discriminate].
    destruct (py_round (q * 100)%float 2) as [r |] eqn:Er; simpl; [| discriminate].
    intros [= <-]. simpl. repeat split; try reflexivity.
    + intros _. exists q. split; [reflexivity | exact Er].
    + lia.
  - apply Z.ltb_ge in Hpos. simpl.
    intros [= <-]. simpl. repeat split; try reflexivity. lia.
Qed.



End SuccessRateFormula.


(** ** Time series *)

Section TimeSeries.
Import TimeSeriesService TimeSeriesSpec.

Variable svc : TeamServiceProtocol.

Lemma for_each_append (A B : Type) (f : A -> B) (l : list A) (acc : list B) :
  for_each (fun acc a => Ok (acc ++ [f a])) l acc = Ok (acc ++ map f l).
Proof.
  revert acc. induction l as [| a l IH]; intro acc; simpl.
  - now rewrite app_nil_r.
  - rewrite IH, <- app_assoc. reflexivity.
Qed.

Lemma teams_for_day (entry : DailySpendData) :
  for_each (add_team svc (entities_of entry)) (get_team_ids svc) []
  = if day_ok svc entry then Ok (dp_teams (row_of svc entry)) else Err AttributeError.
Proof.
  unfold day_ok, row_of, day_entities, entities_of. simpl.
  destruct (breakdown entry) as [b |]; [destruct (entities b) as [es |] |].
  - destruct (get_team_ids svc); apply (for_each_append _ _ (point_of svc es)).
  - destruct (get_team_ids svc); reflexivity.
  - destruct (get_team_ids svc); apply (for_each_append _ _ (point_of svc [])).
Qed.

Lemma timeseries_add_entry_spec (daily_data : list day_point) (entry : DailySpendData) :
  add_entry svc daily_data entry
  = if day_ok svc entry then Ok (daily_data ++ [row_of svc entry])
    else Err AttributeError.
Proof.
  unfold add_entry. rewrite teams_for_day.
  destruct (day_ok svc entry); reflexivity.
Qed.

(** The time-series loop in closed form. *)
Lemma daily_timeseries_closed_form (days : list DailySpendData)
      (daily_data : list day_point) :
  for_each (add_entry svc) days daily_data
  = if forallb (day_ok svc) days then Ok (daily_data ++ map (row_of svc) days)
    else Err AttributeError.
Proof.
  revert daily_data. induction days as [| entry days IH]; intro daily_data; simpl.
  - now rewrite app_nil_r.
  - rewrite timeseries_add_entry_spec. destruct (day_ok svc entry); simpl; [| reflexivity].
    rewrite IH. destruct (forallb (day_ok svc) days); [| reflexivity].
    now rewrite <- app_assoc.
Qed.


End TimeSeries.


(** ** Model usage *)

Section ModelUsage.
Import ModelUsageService ModelUsageSpec.

Variable get_display_name : string -> string.

Lemma add_models_tally (ms : dict MetricWithMetadata) (d : dict Z) :
  fold_left (add_model get_display_name) ms d
  = fold_left tally
      (map (fun item : string * MetricWithMetadata =>
              (get_display_name (fst item), total_tokens (mm_metrics (snd item))))
           ms)
      d.
Proof.
  revert d. induction ms as [| [m md] ms IH]; intro d; simpl; [reflexivity |].
  rewrite <- IH. reflexivity.
Qed.

Lemma model_usage_add_entry_spec (d : dict Z) (entry : DailySpendData) :
  add_entry get_display_name d entry
  = if has_models entry
    then Ok (fold_left tally (seen get_display_name [entry]) d)
    else Err AttributeError.
Proof.
  unfold add_entry, has_models, seen, day_models. simpl.
  destruct (breakdown entry) as [b |]; simpl; [| reflexivity].
  destruct (models b) as [ms |]; simpl; [| reflexivity].
  now rewrite app_nil_r, add_models_tally.
Qed.

Lemma for_each_model_entries (days : list DailySpendData) (d : dict Z) :
  for_each (add_entry get_display_name) days d
  = if forallb has_models days
    then Ok (fold_left tally (seen get_display_name days) d)
    else Err AttributeError.
Proof.
  revert d. induction days as [| entry days IH]; intro d; simpl; [reflexivity |].
  rewrite model_usage_add_entry_spec.
  destruct (has_models entry); simpl; [| reflexivity].
  rewrite IH. destruct (forallb has_models days); [| reflexivity].
  unfold seen. simpl. rewrite app_nil_r, fold_left_app. reflexivity.
Qed.

Lemma tally_keys (items : list (string * Z)) (d : dict Z) :
  dict_keys (fold_left tally items d)
  = dict_keys d ++ filter (fun n => negb (dict_mem d n)) (distinct (map fst items)).
Proof.
  revert d. induction items as [| [n t] items IH]; intro d; simpl.
  - now rewrite app_nil_r.
  - rewrite IH. unfold tally at 1 2. simpl. rewrite dict_keys_set, filter_filter.
    destruct (dict_mem d n) eqn:Hm; simpl.
    + f_equal. apply filter_ext_in. intros x _. rewrite dict_mem_set.
      destruct (String.eqb_spec n x); simpl; subst; rewrite ?Hm; reflexivity.
    + rewrite <- app_assoc. simpl. do 2 f_equal. apply filter_ext_in. intros x _.
      rewrite dict_mem_set. now rewrite negb_orb.
Qed.

Lemma tally_get (items : list (string * Z)) (d : dict Z) (name : string) :
  dict_get (fold_left tally items d) name
  = if dict_mem d name || existsb (fun item => String.eqb (fst item) name) items
    then Some (match dict_get d name with Some n => n | None => 0 end
               + sum_Z (map snd (filter (fun item => String.eqb (fst item) name) items)))
    else None.
Proof.
  revert d. induction items as [| [n t] items IH]; intro d; simpl.
  - unfold dict_mem. destruct (dict_get d name); simpl; [f_equal; lia | reflexivity].
  - rewrite IH. unfold tally. simpl. rewrite dict_mem_set, dict_get_set.
    destruct (String.eqb_spec n name) as [-> | Hne]; simpl.
    + rewrite orb_true_r. f_equal. lia.
    + rewrite (orb_comm (dict_mem d name)). simpl. rewrite orb_comm. reflexivity.
Qed.

(** The model-usage fold in closed form. *)
Lemma model_usage_aggregate_closed_form (data : SpendAnalyticsPaginatedResponse) :
  aggregate get_display_name data
  = if forallb has_models (results data)
    then Ok (folded get_display_name (results data))
    else Err AttributeError.
Proof.
  unfold aggregate. rewrite for_each_model_entries.
  destruct (forallb has_models (results data)); [| reflexivity].
  f_equal. unfold folded. apply dict_ext.
  - rewrite tally_keys. simpl.
    induction (distinct _) as [| n l IH]; simpl; congruence.
  - apply NoDup_distinct.
  - intros name Hn. rewrite tally_get. simpl.
    rewrite In_distinct in Hn.
    assert (H : existsb (fun item : string * Z => String.eqb (fst item) name)
                        (seen get_display_name (results data)) = true).
    { apply existsb_exists. apply in_map_iff in Hn. destruct Hn as [item [H1 H2]].
      exists item. split; [exact H2 | now apply String.eqb_eq]. }
    rewrite H. reflexivity.
Qed.

(** *** The stable descending sort *)

Lemma insert_desc_perm (x : string * Z) (l : list (string * Z)) :
  Permutation (insert_desc x l) (x :: l).
Proof.
  induction l as [| y l IH]; simpl; [reflexivity |].
  destruct (snd x <? snd y); [| reflexivity].
  rewrite IH. apply perm_swap.
Qed.

Lemma sorted_desc_perm (l : list (string * Z)) : Permutation (sorted_desc l) l.
Proof.
  induction l as [| x l IH]; simpl; [reflexivity |].
  rewrite insert_desc_perm. now constructor.
Qed.

Lemma insert_desc_sorted (x : string * Z) (l : list (string * Z)) :
  StronglySorted (fun a b => snd b <= snd a) l ->
  StronglySorted (fun a b => snd b <= snd a) (insert_desc x l).
Proof.
  induction 1 as [| y l Hs IH Hall]; simpl.
  - constructor; constructor.
  - destruct (snd x <? snd y) eqn:E.
    + apply Z.ltb_lt in E. constructor; [exact IH |].
      rewrite Forall_forall in *. intros z Hz.
      apply (Permutation_in _ (insert_desc_perm x l)) in Hz.
      destruct Hz as [<- | Hz]; [lia | now apply Hall].
    + apply Z.ltb_ge in E. constructor; [now constructor |].
      constructor; [exact E |].
      rewrite Forall_forall in *. intros z Hz. specialize (Hall z Hz). lia.
Qed.

Lemma sorted_desc_sorted (l : list (string * Z)) :
  StronglySorted (fun a b => snd b <= snd a) (sorted_desc l).
Proof.
  induction l as [| x l IH]; simpl; [constructor | now apply insert_desc_sorted].
Qed.

Lemma insert_desc_stable (t : Z) (x : string * Z) (l : list (string * Z)) :
  filter (fun item => snd item =? t) (insert_desc x l)
  = filter (fun item => snd item =? t) (x :: l).
Proof.
  induction l as [| y l IH]; simpl; [reflexivity |].
  destruct (snd x <? snd y) eqn:E; [| reflexivity].
  apply Z.ltb_lt in E. simpl in *. rewrite IH.
  destruct (Z.eqb_spec (snd x) t), (Z.eqb_spec (snd y) t); try reflexivity. lia.
Qed.

Lemma sorted_desc_stable (t : Z) (l : list (string * Z)) :
  filter (fun item => snd item =? t) (sorted_desc l)
  = filter (fun item => snd item =? t) l.
Proof.
  induction l as [| x l IH]; simpl; [reflexivity |].
  rewrite insert_desc_stable. simpl. now rewrite IH.
Qed.

End ModelUsage.

Section ModelUsageClaims.
Import ModelUsageService ModelUsageSpec.

Variable get_display_name : string -> string.

Lemma fetch_model_usage_closed_form (data : SpendAnalyticsPaginatedResponse) :
  fetch_model_usage get_display_name (Ok data)
  = if forallb has_models (results data)
    then Ok (sorted_desc (filter positive_total (folded get_display_name (results data))))
    else Err AttributeError.
Proof.
  unfold fetch_model_usage. simpl. rewrite model_usage_aggregate_closed_form.
  destruct (forallb has_models (results data)); simpl; [| reflexivity].
  do 2 f_equal. apply filter_ext. intros [name tokens]. reflexivity.
Qed.

(** C8. Whatever the model-usage service answers is the accumulator of the
    fold (display names in first-seen order) without the totals that are not
    positive, sorted by a stable descending sort: no entry has a zero total,
    the totals never increase along the answer, and the entries that share a
    total [t] are in the order they have in the accumulator.  The service
    answers whenever every day has a [models] map. *)
Theorem model_usage_sorted_without_zeros
        (data : SpendAnalyticsPaginatedResponse) (out : dict Z) :
  fetch_model_usage get_display_name (Ok data) = Ok out ->
  Forall (fun item => snd item <> 0) out
  /\ StronglySorted (fun a b => snd b <= snd a) out
  /\ (forall t,
         0 < t ->
         filter (fun item => snd item =? t) out
         = filter (fun item => snd item =? t) (folded get_display_name (results data)))
  /\ dict_keys (folded get_display_name (results data))
     = distinct (map fst (seen get_display_name (results data))).
Proof.
  rewrite fetch_model_usage_closed_form.
  destruct (forallb has_models (results data)); [| discriminate].
  intros [= <-]. split; [| split; [| split]].
  - rewrite Forall_forall. intros item Hin.
    apply (Permutation_in _ (sorted_desc_perm _)) in Hin.
    apply filter_In in Hin. destruct Hin as [_ Hpos].
    unfold positive_total in Hpos. apply Z.ltb_lt in Hpos. lia.
  - apply sorted_desc_sorted.
  - intros t Ht. rewrite sorted_desc_stable, filter_filter.
    apply filter_ext. intros [name tokens]. unfold positive_total. simpl.
    destruct (Z.eqb_spec tokens t); [| now rewrite andb_false_r].
    subst. rewrite andb_true_r. now apply Z.ltb_lt.
  - unfold folded, dict_keys. rewrite map_map. simpl. apply map_id.
Qed.

Lemma NoDup_keys_filter (V : Type) (p : string * V -> bool) (d : dict V) :
  NoDup (dict_keys d) -> NoDup (dict_keys (filter p d)).
Proof.
  unfold dict_keys. induction d as [| [k v] d IH]; simpl; intro H; [constructor |].
  inversion H as [| ? ? Hnotin Hnd]; subst.
  destruct (p (k, v)); simpl; [| now apply IH].
  constructor; [| now apply IH].
  intro Hin. apply Hnotin. apply in_map_iff in Hin. destruct Hin as [x [Hx Hin]].
  apply filter_In in Hin. apply in_map_iff. exists x. tauto.
Qed.

Lemma display_total_unseen (data : SpendAnalyticsPaginatedResponse) (name : string) :
  ~ In name (map fst (seen get_display_name (results data))) ->
  display_total get_display_name (results data) name = 0.
Proof.
  unfold display_total. intro H.
  induction (seen get_display_name (results data)) as [| [n t] l IH]; simpl in *;
    [reflexivity |].
  destruct (String.eqb_spec n name); [tauto |]. apply IH. tauto.
Qed.

(** C5, as the code has it.  When every day has a [models] map, the
    model-usage service answers with a dictionary that holds, for every
    display name, the [total_tokens] of the records under [models] summed
    over all days and over all records resolving to that name, provided the
    sum is positive, and that does not hold the name otherwise.  Teams play
    no part. *)
Theorem model_usage_totals_by_display_name (data : SpendAnalyticsPaginatedResponse) :
  forallb has_models (results data) = true ->
  exists out,
    fetch_model_usage get_display_name (Ok data) = Ok out
    /\ NoDup (dict_keys out)
    /\ forall name,
        (0 < display_total get_display_name (results data) name ->
         dict_get out name = Some (display_total get_display_name (results data) name))
        /\ (display_total get_display_name (results data) name <= 0 ->
            dict_get out name = None).
Proof.
  intro Hok. rewrite fetch_model_usage_closed_form, Hok.
  eexists. split; [reflexivity |].
  set (acc := folded get_display_name (results data)).
  assert (Hkeys : NoDup (dict_keys (sorted_desc (filter positive_total acc)))).
  { apply (Permutation_NoDup
             (Permutation_sym (Permutation_map fst (sorted_desc_perm _)))).
    apply NoDup_keys_filter. unfold acc, folded, dict_keys.
    rewrite map_map. simpl. rewrite map_id. apply NoDup_distinct. }
  assert (Hin : forall name v,
             In (name, v) (sorted_desc (filter positive_total acc))
             <-> In name (map fst (seen get_display_name (results data)))
                 /\ v = display_total get_display_name (results data) name
                 /\ 0 < v).
  { intros name v. split.
    - intro H. apply (Permutation_in _ (sorted_desc_perm _)) in H.
      apply filter_In in H. destruct H as [H Hpos].
      unfold acc, folded in H. apply in_map_iff in H.
      destruct H as [n [[= -> <-] Hn]]. rewrite In_distinct in Hn.
      unfold positive_total in Hpos. apply Z.ltb_lt in Hpos. simpl in Hpos. tauto.
    - intros (Hn & -> & Hpos).
      apply (Permutation_in _ (Permutation_sym (sorted_desc_perm _))).
      apply filter_In. split.
      + unfold acc, folded. apply in_map_iff. exists name.
        split; [reflexivity | now apply In_distinct].
      + unfold positive_total. now apply Z.ltb_lt. }
  split; [exact Hkeys |]. intro name. split.
  - intro Hpos. apply in_dict_get; [exact Hkeys |]. apply Hin.
    split; [| split; [reflexivity | exact Hpos]].
    destruct (in_dec string_dec name (map fst (seen get_display_name (results data))))
      as [H | H]; [exact H |].
    apply display_total_unseen in H. lia.
  - intro Hle.
    destruct (dict_get (sorted_desc (filter positive_total acc)) name) as [v |] eqn:E;
      [| reflexivity].
    apply dict_get_in in E. apply Hin in E. lia.
Qed.

End ModelUsageClaims.

Lemma model_usage_sorted_without_zeros_witness :
  ModelUsageService.fetch_model_usage (fun name => name) (Ok model_days)
  = Ok [("mistral", 900); ("claude", 500); ("gpt-4", 500)]
  /\ Forall (fun item : string * Z => snd item <> 0)
            [("mistral", 900); ("claude", 500); ("gpt-4", 500)].
Proof.
  split; [reflexivity |].
  exact (proj1 (model_usage_sorted_without_zeros (fun name => name) model_days
                  [("mistral", 900); ("claude", 500); ("gpt-4", 500)] eq_refl)).
Defined.

Lemma model_usage_totals_by_display_name_witness :
  forallb ModelUsageSpec.has_models (results model_days) = true
  /\ exists out,
      ModelUsageService.fetch_model_usage (fun name => name) (Ok model_days) = Ok out
      /\ dict_get out "claude" = Some 500
      /\ dict_get out "idle" = None.
Proof.
  split; [reflexivity |].
  destruct (model_usage_totals_by_display_name (fun name => name) model_days eq_refl)
    as (out & Hout & _ & Hget).
  exists out. split; [exact Hout |]. split.
  - apply (proj1 (Hget "claude")). reflexivity.
  - apply (proj2 (Hget "idle")). discriminate.
Defined.

(** C5 as the specification words it fails on a day in the upstream shape:
    the service reads [models], which that day does not have, and raises. *)
Lemma model_groups_are_not_read :
  ~ ModelUsageSpec.totals_of_model_groups (fun name => name) upstream_document.
Proof. intros [out [H _]]. vm_compute in H. discriminate H. Qed.

(** ** Loops whose success does not depend on the accumulator *)

Lemma for_each_ok_rel (A S : Type) (R : S -> S -> Prop) (body : S -> A -> result S)
      (l : list A) :
  (forall a s s', In a l -> R s s' -> is_ok (body s a) = is_ok (body s' a)) ->
  (forall a s s' t t',
      In a l -> R s s' -> body s a = Ok t -> body s' a = Ok t' -> R t t') ->
  forall s s', R s s' -> is_ok (for_each body l s) = is_ok (for_each body l s').
Proof.
  induction l as [| a l IH]; intros Hok Hstep s s' HR; simpl; [reflexivity |].
  pose proof (Hok a s s' (or_introl eq_refl) HR) as Ha.
  destruct (body s a) as [t |] eqn:Et, (body s' a) as [t' |] eqn:Et';
    simpl in *; try discriminate; [| reflexivity].
  apply IH.
  - intros; apply Hok; [now right | assumption].
  - intros b u u' v v' Hb; apply (Hstep b u u' v v'); now right.
  - apply (Hstep a s s' t t'); [now left | assumption ..].
Qed.

Lemma for_each_ok_forallb (A S : Type) (R : S -> S -> Prop) (body : S -> A -> result S)
      (l : list A) (s0 : S) :
  (forall a s s', In a l -> R s s' -> is_ok (body s a) = is_ok (body s' a)) ->
  (forall a s t, In a l -> R s0 s -> body s a = Ok t -> R s0 t) ->
  forall s, R s0 s ->
            is_ok (for_each body l s) = forallb (fun a => is_ok (body s0 a)) l.
Proof.
  induction l as [| a l IH]; intros Hok Hstep s HR; simpl; [reflexivity |].
  rewrite (Hok a s0 s (or_introl eq_refl) HR).
  destruct (body s a) as [t |] eqn:Et; simpl.
  - apply IH.
    + intros; apply Hok; [now right | assumption].
    + intros b u v Hb; apply Hstep; now right.
    + apply (Hstep a s t); [now left | assumption ..].
  - reflexivity.
Qed.

Lemma forallb_perm (A : Type) (p : A -> bool) (l l' : list A) :
  Permutation l l' -> forallb p l = forallb p l'.
Proof.
  induction 1; simpl; try congruence.
  - now rewrite !andb_assoc, (andb_comm (p y)).
Qed.

Lemma is_ok_true (A : Type) (r : result A) : is_ok r = true -> exists a, r = Ok a.
Proof. destruct r; simpl; [eauto | discriminate]. Qed.

(** ** Cost efficiency *)

Section CostEfficiency.
Import CostEfficiencyService CostEfficiencySpec.

Variable svc : TeamServiceProtocol.

Lemma dict_get_set_default (V : Type) (d : dict V) (k k' : string) (v : V) :
  dict_get (set_default d k v) k'
  = if dict_mem d k then dict_get d k'
    else if String.eqb k k' then Some v else dict_get d k'.
Proof.
  unfold set_default. destruct (dict_mem d k); [reflexivity | apply dict_get_set].
Qed.

Lemma dict_mem_set_default (V : Type) (d : dict V) (k k' : string) (v : V) :
  dict_mem (set_default d k v) k' = String.eqb k k' || dict_mem d k'.
Proof.
  unfold set_default. destruct (dict_mem d k) eqn:E.
  - destruct (String.eqb_spec k k'); [subst; now rewrite E | reflexivity].
  - apply dict_mem_set.
Qed.

Lemma accumulate_app (u1 u2 : list (Z * float)) (o : option pair_totals) :
  accumulate (u1 ++ u2) o = accumulate u2 (accumulate u1 o).
Proof.
  destruct u1 as [| a u1]; [reflexivity |].
  destruct u2 as [| b u2]; [now rewrite app_nil_r |].
  simpl. now rewrite fold_left_app.
Qed.

Lemma accumulate_cons (u : Z * float) (us : list (Z * float)) (o : option pair_totals) :
  accumulate (u :: us) o = accumulate us (accumulate [u] o).
Proof. destruct us; reflexivity. Qed.

(** One observation reaches the pair it is for, and no other. *)
Lemma get2_use (tmd : dict (dict pair_totals)) (team model : string)
      (tokens : Z) (cost : float) (n m : string) :
  dict_mem tmd team = true ->
  get2 (dict_update tmd team
          (fun models =>
             dict_update (set_default models model no_usage) model
                         (add_usage tokens cost)))
       n m
  = if String.eqb team n && String.eqb model m
    then accumulate [(tokens, cost)] (get2 tmd n m)
    else get2 tmd n m.
Proof.
  intro Hmem. unfold get2. rewrite dict_get_update.
  destruct (String.eqb_spec team n) as [-> | Hn]; simpl; [| reflexivity].
  unfold dict_mem in Hmem. destruct (dict_get tmd n) as [models |]; [| discriminate].
  simpl. rewrite dict_get_update, dict_get_set_default.
  destruct (String.eqb_spec model m) as [-> | Hm]; simpl.
  - unfold dict_mem. destruct (dict_get models m); reflexivity.
  - destruct (dict_mem models model); [reflexivity |].
    destruct (String.eqb_spec model m); [contradiction | reflexivity].
Qed.

Lemma key_uses_cons (d : dict KeyMetricWithMetadata) (k : string) (keys : list string) :
  key_uses d (k :: keys)
  = match dict_get d k with
    | Some data => [(total_tokens (km_metrics data), spend (km_metrics data))]
    | None => []
    end ++ key_uses d keys.
Proof. reflexivity. Qed.

Lemma visit_keys_spec (team model : string) (d : dict KeyMetricWithMetadata)
      (keys : list string) (tmd : dict (dict pair_totals)) :
  dict_mem tmd team = true ->
  exists tmd',
    for_each (visit_key team model (Some d)) keys tmd = Ok tmd'
    /\ (forall n, dict_mem tmd' n = dict_mem tmd n)
    /\ forall n m,
        get2 tmd' n m
        = if String.eqb team n && String.eqb model m
          then accumulate (key_uses d keys) (get2 tmd n m)
          else get2 tmd n m.
Proof.
  revert tmd. induction keys as [| k keys IH]; intros tmd Hmem.
  - exists tmd. repeat split. intros n m. now destruct (_ && _).
  - rewrite key_uses_cons. simpl for_each. unfold visit_key at 1. simpl.
    destruct (dict_get d k) as [data |]; simpl.
    + set (tmd1 := dict_update tmd team _).
      assert (Hmem1 : forall n, dict_mem tmd1 n = dict_mem tmd n)
        by (intro n; apply dict_mem_update).
      destruct (IH tmd1) as (tmd' & Hrun & Hm' & Hget); [now rewrite Hmem1 |].
      exists tmd'. split; [exact Hrun |]. split; [intro n; rewrite Hm'; apply Hmem1 |].
      intros n m. rewrite Hget. unfold tmd1. rewrite get2_use by exact Hmem.
      destruct (String.eqb team n && String.eqb model m); [| reflexivity].
      exact (eq_sym (accumulate_cons _ _ _)).
    + destruct (IH tmd Hmem) as (tmd' & Hrun & Hm' & Hget).
      exists tmd'. split; [exact Hrun |]. split; [exact Hm' |].
      intros n m. rewrite Hget. reflexivity.
Qed.

Lemma visit_model_spec (team : string) (entity : or_empty MetricWithMetadata)
      (tmd tmd' : dict (dict pair_totals)) (item : string * MetricWithMetadata) :
  dict_mem tmd team = true ->
  visit_model team entity tmd item = Ok tmd' ->
  (forall n, dict_mem tmd' n = dict_mem tmd n)
  /\ forall n m,
      get2 tmd' n m
      = if String.eqb team n
        then accumulate
               (model_uses (match get_api_key_breakdown entity with
                            | Some keys => dict_keys keys
                            | None => []
                            end) [item] m)
               (get2 tmd n m)
        else get2 tmd n m.
Proof.
  intros Hmem. destruct item as [model md]. unfold visit_model, model_uses. simpl.
  destruct (get_api_key_breakdown entity) as [keys |]; simpl; [| discriminate].
  destruct (api_key_breakdown md) as [d |].
  - destruct (visit_keys_spec team model d (dict_keys keys) tmd Hmem)
      as (t & Hrun & Hm & Hget).
    rewrite Hrun. intros [= <-]. split; [exact Hm |].
    intros n m. rewrite Hget.
    destruct (String.eqb team n); simpl; [| reflexivity].
    destruct (String.eqb model m); [now rewrite app_nil_r | reflexivity].
  - destruct (dict_keys keys) as [| k ks]; simpl; [| discriminate].
    intros [= <-]. split; [reflexivity |].
    intros n m. destruct (String.eqb team n), (String.eqb model m); reflexivity.
Qed.

Lemma model_uses_cons (keys : list string) (item : string * MetricWithMetadata)
      (ms : dict MetricWithMetadata) (m : string) :
  model_uses keys (item :: ms) m = model_uses keys [item] m ++ model_uses keys ms m.
Proof. unfold model_uses. simpl. now rewrite app_nil_r. Qed.

Lemma visit_models_spec (team : string) (entity : or_empty MetricWithMetadata)
      (ms : dict MetricWithMetadata) (tmd tmd' : dict (dict pair_totals)) :
  dict_mem tmd team = true ->
  for_each (visit_model team entity) ms tmd = Ok tmd' ->
  (forall n, dict_mem tmd' n = dict_mem tmd n)
  /\ forall n m,
      get2 tmd' n m
      = if String.eqb team n
        then accumulate
               (model_uses (match get_api_key_breakdown entity with
                            | Some keys => dict_keys keys
                            | None => []
                            end) ms m)
               (get2 tmd n m)
        else get2 tmd n m.
Proof.
  revert tmd. induction ms as [| item ms IH]; intros tmd Hmem.
  - simpl. intros [= <-]. split; [reflexivity |].
    intros n m. now destruct (String.eqb team n).
  - simpl for_each.
    destruct (visit_model team entity tmd item) as [t |] eqn:Et; simpl bind;
      [| discriminate].
    intro Hrun. destruct (visit_model_spec _ _ _ _ _ Hmem Et) as [Hm1 Hg1].
    destruct (IH t) as [Hm2 Hg2]; [now rewrite Hm1 | exact Hrun |].
    split; [intro n; now rewrite Hm2, Hm1 |].
    intros n m. rewrite Hg2, Hg1, (model_uses_cons _ item ms).
    destruct (String.eqb team n); [now rewrite accumulate_app | reflexivity].
Qed.

Lemma get2_set_default_team (tmd : dict (dict pair_totals)) (team n m : string) :
  get2 (set_default tmd team []) n m = get2 tmd n m.
Proof.
  unfold get2. rewrite dict_get_set_default.
  destruct (dict_mem tmd team) eqn:E; [reflexivity |].
  destruct (String.eqb_spec team n) as [-> | Hn]; [| reflexivity].
  unfold dict_mem in E. destruct (dict_get tmd n); [discriminate | reflexivity].
Qed.

Lemma visit_team_spec (entities models_breakdown : option (dict MetricWithMetadata))
      (tmd tmd' : dict (dict pair_totals)) (team_id : string) :
  visit_team svc entities models_breakdown tmd team_id = Ok tmd' ->
  (forall n, dict_mem tmd' n
             = String.eqb (get_team_name svc team_id) n || dict_mem tmd n)
  /\ forall n m,
      get2 tmd' n m
      = if String.eqb (get_team_name svc team_id) n
        then accumulate
               (model_uses
                  (team_keys (match entities with Some es => es | None => [] end)
                             team_id)
                  (match models_breakdown with Some ms => ms | None => [] end) m)
               (get2 tmd n m)
        else get2 tmd n m.
Proof.
  unfold visit_team, team_keys.
  destruct entities as [es |]; simpl; [| discriminate].
  destruct models_breakdown as [ms |]; simpl; [| discriminate].
  intro Hrun. apply visit_models_spec in Hrun.
  - destruct Hrun as [Hm Hg]. split.
    + intro n. rewrite Hm. apply dict_mem_set_default.
    + intros n m. rewrite Hg, get2_set_default_team. reflexivity.
  - rewrite dict_mem_set_default, String.eqb_refl. reflexivity.
Qed.


Lemma visit_teams_spec (entities models_breakdown : option (dict MetricWithMetadata))
      (ids : list string) (tmd tmd' : dict (dict pair_totals)) :
  for_each (visit_team svc entities models_breakdown) ids tmd = Ok tmd' ->
  forall n m,
    get2 tmd' n m
    = accumulate
        (flat_map
           (fun team_id =>
              model_uses
                (team_keys (match entities with Some es => es | None => [] end)
                           team_id)
                (match models_breakdown with Some ms => ms | None => [] end) m)
           (filter (fun team_id => String.eqb (get_team_name svc team_id) n) ids))
        (get2 tmd n m).
Proof.
  revert tmd. induction ids as [| team_id ids IH]; intros tmd.
  - simpl. intros [= <-]. reflexivity.
  - simpl for_each.
    destruct (visit_team svc entities models_breakdown tmd team_id) as [t |] eqn:Et;
      simpl bind; [| discriminate].
    intros Hrun n m. rewrite (IH t Hrun).
    destruct (visit_team_spec _ _ _ _ _ Et) as [_ Hg]. rewrite Hg. simpl filter.
    destruct (String.eqb (get_team_name svc team_id) n); [| reflexivity].
    simpl flat_map. now rewrite accumulate_app.
Qed.

Lemma cost_add_entry_spec (tmd tmd' : dict (dict pair_totals)) (entry : DailySpendData) :
  add_entry svc tmd entry = Ok tmd' ->
  forall n m, get2 tmd' n m = accumulate (day_uses svc entry n m) (get2 tmd n m).
Proof.
  unfold add_entry, day_uses, day_entities, day_model_groups, ids_named.
  destruct (breakdown entry) as [b |]; simpl; [| discriminate].
  apply visit_teams_spec.
Qed.

Lemma cost_for_each_spec (days : list DailySpendData) (tmd tmd' : dict (dict pair_totals)) :
  for_each (add_entry svc) days tmd = Ok tmd' ->
  forall n m, get2 tmd' n m = accumulate (all_uses svc days n m) (get2 tmd n m).
Proof.
  revert tmd. induction days as [| entry days IH]; intro tmd.
  - simpl. intros [= <-]. reflexivity.
  - simpl for_each. destruct (add_entry svc tmd entry) as [t |] eqn:Et; simpl bind;
      [| discriminate].
    intros Hrun n m. rewrite (IH t Hrun), (cost_add_entry_spec _ _ _ Et).
    unfold all_uses. simpl flat_map. now rewrite accumulate_app.
Qed.

(** The cost-efficiency fold: what a pair has accumulated. *)
Lemma cost_aggregate_spec (data : SpendAnalyticsPaginatedResponse)
      (tmd : dict (dict pair_totals)) :
  aggregate svc data = Ok tmd ->
  forall team model,
    get2 tmd team model = accumulate (all_uses svc (results data) team model) None.
Proof. intros H team model. apply (cost_for_each_spec _ _ _ H). Qed.

Lemma accumulate_totals (uses : list (Z * float)) (p : pair_totals) :
  pt_total_tokens (fold_left (fun p u => add_usage (fst u) (snd u) p) uses p)
  = pt_total_tokens p + sum_Z (map fst uses)
  /\ pt_total_cost (fold_left (fun p u => add_usage (fst u) (snd u) p) uses p)
     = fold_left PrimFloat.add (map snd uses) (pt_total_cost p).
Proof.
  revert p. induction uses as [| u uses IH]; intro p; simpl.
  - split; [lia | reflexivity].
  - destruct (IH (add_usage (fst u) (snd u) p)) as [H1 H2].
    rewrite H1, H2. simpl. split; [lia | reflexivity].
Qed.

(** Whether the loops raise does not depend on what they have accumulated. *)
Lemma cost_add_entry_ok (tmd tmd0 : dict (dict pair_totals)) (entry : DailySpendData) :
  is_ok (add_entry svc tmd entry) = is_ok (add_entry svc tmd0 entry).
Proof.
  unfold add_entry. destruct (breakdown entry) as [b |]; simpl; [| reflexivity].
  apply (for_each_ok_rel _ _ (fun _ _ => True)); auto.
  intros team_id s s' _ _. unfold visit_team.
  destruct (entities b) as [es |]; simpl; [| reflexivity].
  destruct (model_groups b) as [ms |]; simpl; [| reflexivity].
  apply (for_each_ok_rel _ _ (fun _ _ => True)); auto.
  intros [model md] u u' _ _. unfold visit_model.
  destruct (get_api_key_breakdown (get_or_empty es team_id)) as [keys |]; simpl;
    [| reflexivity].
  apply (for_each_ok_rel _ _ (fun _ _ => True)); auto.
  intros k v v' _ _. unfold visit_key.
  destruct (api_key_breakdown md) as [d |]; simpl; [| reflexivity].
  destruct (dict_get d k); reflexivity.
Qed.

Lemma cost_aggregate_ok (data : SpendAnalyticsPaginatedResponse) :
  is_ok (aggregate svc data) = forallb (day_ok svc) (results data).
Proof.
  unfold aggregate, day_ok.
  apply (for_each_ok_forallb _ _ (fun _ _ => True)); auto.
  intros entry s s' _ _. apply cost_add_entry_ok.
Qed.

End CostEfficiency.

Section CostEfficiencyCells.
Import CostEfficiencyService CostEfficiencySpec.

Variable svc : TeamServiceProtocol.

Lemma for_each_invariant (A S : Type) (P : S -> Prop) (body : S -> A -> result S)
      (l : list A) :
  (forall s a s', P s -> body s a = Ok s' -> P s') ->
  forall s s', P s -> for_each body l s = Ok s' -> P s'.
Proof.
  intro Hbody. induction l as [| a l IH]; intros s s' HP; simpl.
  - now intros [= <-].
  - destruct (body s a) as [t |] eqn:Et; simpl; [| discriminate].
    apply IH. eapply Hbody; eassumption.
Qed.

Lemma in_dict_update (V : Type) (d : dict V) (k k0 : string) (f : V -> V) (v : V) :
  In (k, v) (dict_update d k0 f) ->
  In (k, v) d \/ exists v0, In (k, v0) d /\ v = f v0.
Proof.
  induction d as [| [k1 v1] d IH]; simpl; [tauto |].
  destruct (String.eqb k1 k0); simpl.
  - intros [[= <- <-] | H]; [right; exists v1; tauto | tauto].
  - intros [H | H]; [tauto |].
    destruct (IH H) as [H' | [v0 [H1 H2]]]; [tauto | right; exists v0; tauto].
Qed.

Lemma NoDup_keys_set_default (V : Type) (d : dict V) (k : string) (v : V) :
  NoDup (dict_keys d) -> NoDup (dict_keys (set_default d k v)).
Proof.
  unfold set_default. destruct (dict_mem d k) eqn:E; [tauto |].
  intro H. rewrite dict_keys_set, E.
  apply NoDup_app; [exact H | repeat constructor; simpl; tauto |].
  intros x Hx [<- | []]. apply dict_mem_keys in Hx. congruence.
Qed.

Lemma distinct_keys_use (tmd : dict (dict pair_totals)) (team model : string)
      (g : pair_totals -> pair_totals) :
  distinct_keys tmd ->
  distinct_keys
    (dict_update tmd team
       (fun models => dict_update (set_default models model no_usage) model g)).
Proof.
  intros [H1 H2]. split; [now rewrite dict_keys_update |].
  intros n ms Hin. apply in_dict_update in Hin.
  destruct Hin as [Hin | [ms0 [Hin ->]]]; [now apply (H2 n) |].
  rewrite dict_keys_update. apply NoDup_keys_set_default. now apply (H2 n).
Qed.

Lemma distinct_keys_touch (tmd : dict (dict pair_totals)) (team : string) :
  distinct_keys tmd -> distinct_keys (set_default tmd team []).
Proof.
  intros [H1 H2]. split; [now apply NoDup_keys_set_default |].
  unfold set_default. destruct (dict_mem tmd team); [exact H2 |].
  intros n ms Hin.
  assert (H : In (n, ms) tmd \/ ms = []).
  { clear -Hin. induction tmd as [| [k v] d IH]; simpl in Hin.
    - destruct Hin as [[= _ <-] | []]. now right.
    - destruct (String.eqb k team); simpl in Hin.
      + destruct Hin as [[= _ <-] | Hin]; [now right | left; now right].
      + destruct Hin as [Hin | Hin]; [left; now left |].
        destruct (IH Hin); [left; now right | now right]. }
  destruct H as [H | ->]; [now apply (H2 n) | constructor].
Qed.

Lemma cost_add_entry_distinct (tmd tmd' : dict (dict pair_totals))
      (entry : DailySpendData) :
  distinct_keys tmd -> add_entry svc tmd entry = Ok tmd' -> distinct_keys tmd'.
Proof.
  unfold add_entry. destruct (breakdown entry) as [b |]; simpl; [| discriminate].
  intros H Hrun.
  apply (for_each_invariant _ _ distinct_keys _ _) with (3 := Hrun); [| exact H].
  clear. intros s team_id s' Hs. unfold visit_team.
  destruct (entities b) as [es |]; simpl; [| discriminate].
  destruct (model_groups b) as [ms |]; simpl; [| discriminate].
  intro Hrun.
  apply (for_each_invariant _ _ distinct_keys _ _) with (3 := Hrun);
    [| now apply distinct_keys_touch].
  clear. intros s [model md] s' Hs. unfold visit_model.
  destruct (get_api_key_breakdown _) as [keys |]; simpl; [| discriminate].
  intro Hrun.
  apply (for_each_invariant _ _ distinct_keys _ _) with (3 := Hrun); [| exact Hs].
  clear. intros s k s' Hs. unfold visit_key.
  destruct (api_key_breakdown md) as [d |]; simpl; [| discriminate].
  destruct (dict_get d k); intros [= <-]; [now apply distinct_keys_use | exact Hs].
Qed.

Lemma cost_aggregate_distinct (data : SpendAnalyticsPaginatedResponse)
      (tmd : dict (dict pair_totals)) :
  aggregate svc data = Ok tmd -> distinct_keys tmd.
Proof.
  unfold aggregate. intro Hrun.
  apply (for_each_invariant _ _ distinct_keys _ _) with (3 := Hrun).
  - intros s entry s'. apply cost_add_entry_distinct.
  - split; [constructor | intros ? ? []].
Qed.

Lemma pairs_get2 (tmd : dict (dict pair_totals)) (team model : string)
      (p : pair_totals) :
  distinct_keys tmd -> In (team, (model, p)) (pairs tmd) -> get2 tmd team model = Some p.
Proof.
  intros [H1 H2] Hin. unfold pairs in Hin. apply in_flat_map in Hin.
  destruct Hin as [[n ms] [Hin Hp]]. apply in_map_iff in Hp.
  destruct Hp as [[m q] [[= -> -> ->] Hq]].
  unfold get2. rewrite (in_dict_get _ _ _ _ H1 Hin).
  apply in_dict_get; [now apply (H2 team) | exact Hq].
Qed.

Lemma Forall2_impl_in (A B : Type) (R Q : A -> B -> Prop) (l : list A) (l' : list B) :
  Forall2 R l l' -> (forall a b, In a l -> R a b -> Q a b) -> Forall2 Q l l'.
Proof.
  induction 1 as [| a b l l' Hab Hrest IH]; intro H; constructor.
  - apply H; [now left | exact Hab].
  - apply IH. intros; apply H; [now right | assumption].
Qed.

Lemma cell_of_spec (team model : string) (p : pair_totals) (c : cell) :
  cell_of team (model, p) = Ok c ->
  c_team c = team /\ c_model c = model
  /\ c_total_tokens c = pt_total_tokens p
  /\ py_round (pt_total_cost p) 4 = Ok (c_total_cost c)
  /\ (0 < pt_total_tokens p ->
      exists t, float_of_int (pt_total_tokens p) = Ok t
                /\ py_round (pt_total_cost p / t * 1000)%float 4
                   = Ok (c_cost_per_1k_tokens c))
  /\ (pt_total_tokens p <= 0 -> c_cost_per_1k_tokens c = zero).
Proof.
  unfold cell_of, cost_per_1k_of.
  destruct (0 <? pt_total_tokens p) eqn:Hpos.
  - apply Z.ltb_lt in Hpos.
    destruct (float_of_int (pt_total_tokens p)) as [t |] eqn:Et; simpl; [| discriminate].
    destruct (py_round (pt_total_cost p / t * 1000)%float 4) as [r |] eqn:Er; simpl;
      [| discriminate].
    destruct (py_round (pt_total_cost p) 4) as [r' |] eqn:Er'; simpl; [| discriminate].
    intros [= <-]. simpl. repeat split; try reflexivity.
    + intros _. exists t. split; [reflexivity | exact Er].
    + lia.
  - apply Z.ltb_ge in Hpos. simpl.
    destruct (py_round (pt_total_cost p) 4) as [r' |] eqn:Er'; simpl; [| discriminate].
    intros [= <-]. simpl. repeat split; try reflexivity. lia.
Qed.

(** C4. Every cell that the cost-efficiency service emits belongs to one
    (team, model) pair of the accumulator that the fold has built; the
    pair's [total_tokens] is the sum, and its [total_cost] the float sum in
    fold order from 0.0, of the observations of that pair.  The cell's
    [cost_per_1k_tokens] is [total_cost / total_tokens * 1000] rounded to 4
    decimals when [total_tokens] is positive and [0.0] when it is zero.
    A cost of 9.999999 over 333333 tokens gives 0.03. *)
Theorem cost_per_1k_is_rounded_ratio
        (data : SpendAnalyticsPaginatedResponse) (cells : list cell) :
  fetch_cost_efficiency svc (Ok data) = Ok cells ->
  (exists team_model_data,
      aggregate svc data = Ok team_model_data
      /\ Forall2
           (fun (pair : string * (string * pair_totals)) (c : cell) =>
              let team := fst pair in
              let model := fst (snd pair) in
              let folded := snd (snd pair) in
              let uses := all_uses svc (results data) team model in
              c_team c = team /\ c_model c = model
              /\ c_total_tokens c = pt_total_tokens folded
              /\ pt_total_tokens folded = sum_Z (map fst uses)
              /\ pt_total_cost folded = fold_left PrimFloat.add (map snd uses) zero
              /\ (0 < pt_total_tokens folded ->
                  exists t, float_of_int (pt_total_tokens folded) = Ok t
                            /\ py_round (pt_total_cost folded / t * 1000)%float 4
                               = Ok (c_cost_per_1k_tokens c))
              /\ (pt_total_tokens folded = 0 -> c_cost_per_1k_tokens c = zero))
           (pairs team_model_data) cells)
  /\ (c <- cost_per_1k_of 9.999999%float 333333 ;; py_round c 4) = Ok 0.03%float
  /\ forall cost, (c <- cost_per_1k_of cost 0 ;; py_round c 4) = Ok zero.
Proof.
  intro Hfetch. split; [| split; [vm_compute; reflexivity | reflexivity]].
  unfold fetch_cost_efficiency in Hfetch.
  destruct (aggregate svc data) as [tmd |] eqn:Hagg; simpl in Hfetch; [| discriminate].
  exists tmd. split; [reflexivity |].
  pose proof (cost_aggregate_distinct _ _ Hagg) as Hdistinct.
  pose proof (cost_aggregate_spec svc _ _ Hagg) as Hget.
  unfold build_cells in Hfetch. apply map_result_Forall2 in Hfetch.
  apply (Forall2_impl_in _ _ _ _ _ _ Hfetch).
  intros [team [model p]] c Hin Hc. simpl.
  apply cell_of_spec in Hc. destruct Hc as (H1 & H2 & H3 & _ & H5 & H6).
  assert (Hp : get2 tmd team model = Some p) by now apply pairs_get2.
  rewrite Hget in Hp. unfold accumulate in Hp.
  destruct (all_uses svc (results data) team model) as [| u uses] eqn:Eu;
    [discriminate |].
  assert (Hp' : fold_left (fun p u => add_usage (fst u) (snd u) p) (u :: uses) no_usage
                = p) by congruence.
  destruct (accumulate_totals (u :: uses) no_usage) as [T1 T2].
  rewrite Hp' in T1, T2. simpl in T1, T2.
  split; [exact H1 |]. split; [exact H2 |]. split; [exact H3 |].
  split; [exact T1 |]. split; [exact T2 |]. split; [exact H5 |].
  intro H0. apply H6. lia.
Qed.

End CostEfficiencyCells.

Lemma cost_per_1k_is_rounded_ratio_witness :
  CostEfficiencyService.fetch_cost_efficiency one_team (Ok priced_document)
  = Ok [{| CostEfficiencyService.c_team := "Alpha Team";
           CostEfficiencyService.c_model := "gpt-4";
           CostEfficiencyService.c_cost_per_1k_tokens := 0.03%float;
           CostEfficiencyService.c_total_cost := 10%float;
           CostEfficiencyService.c_total_tokens := 333333 |}]
  /\ exists team_model_data,
      CostEfficiencyService.aggregate one_team priced_document = Ok team_model_data.
Proof.
  assert (H : CostEfficiencyService.fetch_cost_efficiency one_team (Ok priced_document)
              = Ok [{| CostEfficiencyService.c_team := "Alpha Team";
                       CostEfficiencyService.c_model := "gpt-4";
                       CostEfficiencyService.c_cost_per_1k_tokens := 0.03%float;
                       CostEfficiencyService.c_total_cost := 10%float;
                       CostEfficiencyService.c_total_tokens := 333333 |}])
    by (vm_compute; reflexivity).
  split; [exact H |].
  destruct (cost_per_1k_is_rounded_ratio one_team priced_document _ H)
    as [[tmd [Hagg _]] _].
  exists tmd. exact Hagg.
Defined.

(** ** Merging by key *)

Section MergeByKey.
Import TokenAggregationService.

Context {A : Type}.
Variable key : A -> string.
Variable combine : A -> A -> A.
Hypothesis combine_key : forall x a, key (combine x a) = key a.

Lemma distinctb_NoDup (l : list string) : distinctb l = true -> NoDup l.
Proof.
  induction l as [| x l IH]; simpl; [constructor |].
  intro H. apply andb_true_iff in H. destruct H as [H1 H2].
  constructor; [| now apply IH].
  intro Hin. apply negb_true_iff in H1.
  assert (existsb (String.eqb x) l = true); [| congruence].
  apply existsb_exists. exists x. split; [exact Hin | apply String.eqb_refl].
Qed.

Lemma existsb_keyed (k : string) (l : list A) :
  existsb (keyed key k) l = true <-> In k (map key l).
Proof.
  rewrite existsb_exists, in_map_iff. unfold keyed.
  split; intros [a [H1 H2]]; exists a.
  - apply String.eqb_eq in H2. tauto.
  - split; [tauto | apply String.eqb_eq; tauto].
Qed.

Lemma lookup_none (k : string) (l : list A) :
  lookup key k l = None <-> ~ In k (map key l).
Proof.
  unfold lookup, keyed. induction l as [| a l IH]; simpl; [tauto |].
  destruct (String.eqb_spec (key a) k); [split; [discriminate | tauto] |].
  rewrite IH. tauto.
Qed.

Lemma lookup_some_key (k : string) (l : list A) (a : A) :
  lookup key k l = Some a -> key a = k /\ In a l.
Proof.
  unfold lookup. intro H. apply find_some in H. unfold keyed in H.
  destruct H as [H1 H2]. apply String.eqb_eq in H2. tauto.
Qed.

Lemma lookup_app (k : string) (l1 l2 : list A) :
  lookup key k (l1 ++ l2)
  = match lookup key k l1 with Some a => Some a | None => lookup key k l2 end.
Proof.
  unfold lookup. induction l1 as [| a l1 IH]; simpl; [reflexivity |].
  destruct (keyed key k a); [reflexivity | exact IH].
Qed.

(** With distinct keys the entry that a lookup table holds for a key is the
    only entry of that key. *)
Lemma update_last_distinct (k : string) (f : A -> A) (l : list A) :
  NoDup (map key l) ->
  update_last (keyed key k) f l = map (fun a => if keyed key k a then f a else a) l.
Proof.
  induction l as [| a l IH]; simpl; [reflexivity |].
  intro H. inversion H as [| ? ? Hnotin Hnd]; subst.
  destruct (existsb (keyed key k) l) eqn:E.
  - rewrite IH by exact Hnd. f_equal.
    apply existsb_keyed in E. unfold keyed.
    destruct (String.eqb_spec (key a) k); [subst; contradiction | reflexivity].
  - assert (Hl : map (fun a0 => if keyed key k a0 then f a0 else a0) l = l).
    { rewrite <- (map_id l) at 2. apply map_ext_in. intros b Hb.
      destruct (keyed key k b) eqn:Eb; [| reflexivity].
      assert (existsb (keyed key k) l = true); [| congruence].
      apply existsb_exists. now exists b. }
    rewrite Hl. destruct (keyed key k a); reflexivity.
Qed.

Lemma lookup_map (k : string) (g : A -> A) (l : list A) :
  (forall a, key (g a) = key a) ->
  lookup key k (map g l) = option_map g (lookup key k l).
Proof.
  intro Hg. unfold lookup, keyed. induction l as [| a l IH]; simpl; [reflexivity |].
  rewrite Hg. destruct (String.eqb (key a) k); [reflexivity | exact IH].
Qed.

Lemma keys_update (k : string) (l : list A) (x : A) :
  map key (map (fun a => if keyed key k a then combine x a else a) l) = map key l.
Proof.
  rewrite map_map. apply map_ext. intro a.
  destruct (keyed key k a); [apply combine_key | reflexivity].
Qed.

Lemma lookup_cons (k : string) (x : A) (l : list A) :
  lookup key k (x :: l) = if String.eqb (key x) k then Some x else lookup key k l.
Proof. reflexivity. Qed.

Lemma lookup_nil (k : string) : lookup key k [] = None.
Proof. reflexivity. Qed.

(** One step of the merge, when the lookup table is still right about the
    current list. *)
Lemma merge_step_lookup (current : list A) (x : A) (k : string) :
  NoDup (map key current) ->
  lookup key k (merge_step key combine current current x)
  = merged combine (lookup key k current) (lookup key k [x]).
Proof.
  intro Hnd. unfold merge_step. rewrite lookup_cons, lookup_nil.
  destruct (existsb (keyed key (key x)) current) eqn:E.
  - rewrite update_last_distinct by exact Hnd.
    rewrite lookup_map
      by (intro a; destruct (keyed key (key x) a); [apply combine_key | reflexivity]).
    destruct (lookup key k current) as [a |] eqn:Ea; simpl.
    + apply lookup_some_key in Ea. destruct Ea as [Ea _]. unfold keyed. rewrite Ea.
      rewrite (String.eqb_sym k). destruct (String.eqb (key x) k); reflexivity.
    + destruct (String.eqb_spec (key x) k) as [Hk | Hk]; [| reflexivity].
      apply existsb_keyed in E. apply lookup_none in Ea. subst. contradiction.
  - rewrite lookup_app, lookup_cons, lookup_nil.
    destruct (lookup key k current) as [a |] eqn:Ea; [| reflexivity].
    destruct (String.eqb_spec (key x) k) as [Hk | Hk]; [| reflexivity].
    apply lookup_some_key in Ea. destruct Ea as [Ea Hin].
    assert (existsb (keyed key (key x)) current = true); [| congruence].
    apply existsb_keyed. rewrite Hk, <- Ea. now apply in_map.
Qed.

Lemma merge_step_keys (current : list A) (x : A) :
  NoDup (map key current) ->
  map key (merge_step key combine current current x)
  = if existsb (keyed key (key x)) current then map key current
    else map key current ++ [key x].
Proof.
  intro Hnd. unfold merge_step.
  destruct (existsb (keyed key (key x)) current).
  - rewrite update_last_distinct by exact Hnd. apply keys_update.
  - now rewrite map_app.
Qed.

Lemma merge_step_distinct (current : list A) (x : A) :
  NoDup (map key current) -> NoDup (map key (merge_step key combine current current x)).
Proof.
  intro Hnd. rewrite merge_step_keys by exact Hnd.
  destruct (existsb (keyed key (key x)) current) eqn:E; [exact Hnd |].
  apply NoDup_app; [exact Hnd | repeat constructor; simpl; tauto |].
  intros k Hk [<- | []]. apply existsb_keyed in Hk. congruence.
Qed.

(** The lookup table built before the loop stays right while the loop runs
    over a source with distinct keys. *)
Lemma merge_fold_current (existing source current : list A) :
  NoDup (map key source) ->
  (forall x, In x source ->
             existsb (keyed key (key x)) existing
             = existsb (keyed key (key x)) current) ->
  NoDup (map key current) ->
  fold_left (merge_step key combine existing) source current
  = fold_left (fun cur x => merge_step key combine cur cur x) source current.
Proof.
  revert current. induction source as [| x source IH]; intros current Hs Hex Hc; simpl;
    [reflexivity |].
  inversion Hs as [| ? ? Hnotin Hs']; subst.
  assert (Hx : merge_step key combine existing current x
               = merge_step key combine current current x).
  { unfold merge_step. now rewrite (Hex x (or_introl eq_refl)). }
  rewrite Hx. apply IH; [exact Hs' | | now apply merge_step_distinct].
  intros y Hy. rewrite (Hex y (or_intror Hy)).
  destruct (existsb (keyed key (key y)) current) eqn:Ey.
  - symmetry. apply existsb_keyed. apply existsb_keyed in Ey.
    rewrite merge_step_keys by exact Hc.
    destruct (existsb (keyed key (key x)) current); [exact Ey |].
    apply in_or_app. now left.
  - destruct (existsb (keyed key (key y)) (merge_step key combine current current x))
      eqn:Ey'; [| reflexivity].
    exfalso. apply existsb_keyed in Ey'. rewrite merge_step_keys in Ey' by exact Hc.
    destruct (existsb (keyed key (key x)) current).
    + apply existsb_keyed in Ey'. congruence.
    + apply in_app_or in Ey'. destruct Ey' as [Ey' | [Ey' | []]].
      * apply existsb_keyed in Ey'. congruence.
      * apply Hnotin. rewrite Ey'. now apply in_map.
Qed.

Lemma merge_fold_lookup (source current : list A) (k : string) :
  NoDup (map key source) -> NoDup (map key current) ->
  lookup key k (fold_left (fun cur x => merge_step key combine cur cur x) source current)
  = merged combine (lookup key k current) (lookup key k source)
  /\ NoDup (map key (fold_left (fun cur x => merge_step key combine cur cur x)
                               source current)).
Proof.
  revert current. induction source as [| x source IH]; intros current Hs Hc;
    simpl fold_left.
  - split; [| exact Hc]. rewrite lookup_nil.
    destruct (lookup key k current); reflexivity.
  - inversion Hs as [| ? ? Hnotin Hs']; subst.
    destruct (IH (merge_step key combine current current x) Hs'
                 (merge_step_distinct _ _ Hc)) as [H1 H2].
    split; [| exact H2]. rewrite H1, merge_step_lookup by exact Hc.
    rewrite !lookup_cons, lookup_nil.
    destruct (String.eqb_spec (key x) k) as [Hk | Hk].
    + assert (Hn : lookup key k source = None)
        by (apply lookup_none; now rewrite <- Hk).
      rewrite Hn. destruct (lookup key k current); reflexivity.
    + destruct (lookup key k current), (lookup key k source); reflexivity.
Qed.

(** A merge of two lists with distinct keys holds under every key what the
    two lists held, combined, and has distinct keys again. *)
Lemma merge_by_lookup (target source : list A) (k : string) :
  NoDup (map key target) -> NoDup (map key source) ->
  lookup key k (merge_by key combine target source)
  = merged combine (lookup key k target) (lookup key k source)
  /\ NoDup (map key (merge_by key combine target source)).
Proof.
  intros Ht Hs. unfold merge_by.
  rewrite merge_fold_current by auto. now apply merge_fold_lookup.
Qed.

End MergeByKey.

(** ** Merging breakdowns *)

Section MergeBreakdown.
Import TokenAggregationService TeamTotalsSpec.

Lemma merge_models_by_name (ms source : list model_entry) :
  merge_models ms source = merge_by model_name combine_models ms source.
Proof. reflexivity. Qed.

Lemma merge_breakdown_by_key (target source : list key_entry) :
  _merge_breakdown target source = merge_by api_key combine_keys target source.
Proof. reflexivity. Qed.

Lemma combine_models_name (x m : model_entry) :
  model_name (combine_models x m) = model_name m.
Proof. reflexivity. Qed.

Lemma combine_keys_key (x k : key_entry) : api_key (combine_keys x k) = api_key k.
Proof. reflexivity. Qed.

Lemma lookup_in_distinct (A : Type) (key : A -> string) (l : list A) (a : A) :
  NoDup (map key l) -> In a l -> lookup key (key a) l = Some a.
Proof.
  induction l as [| b l IH]; [intros _ [] |].
  intros Hnd [-> | Hin]; rewrite lookup_cons.
  - now rewrite String.eqb_refl.
  - inversion Hnd as [| ? ? Hnotin Hnd']; subst.
    destruct (String.eqb_spec (key b) (key a)) as [E | E]; [| now apply IH].
    exfalso. apply Hnotin. rewrite E. now apply in_map.
Qed.

Lemma plus_assoc (a b c : option (Z * Z * Z)) : plus (plus a b) c = plus a (plus b c).
Proof.
  destruct a as [[[? ?] ?] |], b as [[[? ?] ?] |], c as [[[? ?] ?] |]; simpl;
    try reflexivity.
  do 2 f_equal; [f_equal |]; lia.
Qed.

Lemma plus_comm (a b : option (Z * Z * Z)) : plus a b = plus b a.
Proof.
  destruct a as [[[? ?] ?] |], b as [[[? ?] ?] |]; simpl; try reflexivity.
  do 2 f_equal; [f_equal |]; lia.
Qed.

Lemma plus_none_r (a : option (Z * Z * Z)) : plus a None = a.
Proof. destruct a; reflexivity. Qed.

Lemma merged_models_counts (m s : option model_entry) :
  option_map token_counts (merged combine_models m s)
  = plus (option_map token_counts m) (option_map token_counts s).
Proof. destruct m, s; reflexivity. Qed.

(** Merging adds, pair by pair, what the source holds to what the target
    holds, and keeps keys and model names distinct. *)
Lemma merge_breakdown_totals (target source : list key_entry) :
  well_keyed target -> well_keyed source ->
  well_keyed (_merge_breakdown target source)
  /\ forall key model,
      key_model_totals (_merge_breakdown target source) key model
      = plus (key_model_totals target key model) (key_model_totals source key model).
Proof.
  intros [Ht Htm] [Hs Hsm]. rewrite merge_breakdown_by_key.
  assert (Hl : forall k,
             lookup api_key k (merge_by api_key combine_keys target source)
             = merged combine_keys (lookup api_key k target) (lookup api_key k source))
    by (intro k; now apply (merge_by_lookup api_key combine_keys combine_keys_key)).
  assert (Hd : NoDup (map api_key (merge_by api_key combine_keys target source)))
    by now apply (merge_by_lookup api_key combine_keys combine_keys_key _ _ "").
  split; [split; [exact Hd |] |].
  - intros e He. pose proof (lookup_in_distinct _ api_key _ _ Hd He) as Hfind.
    rewrite Hl in Hfind.
    destruct (lookup api_key (api_key e) target) as [a |] eqn:Ea;
      [destruct (lookup api_key (api_key e) source) as [x |] eqn:Ex |];
      simpl in Hfind.
    + injection Hfind as <-. simpl. rewrite merge_models_by_name.
      apply lookup_some_key in Ea, Ex.
      apply (merge_by_lookup model_name combine_models combine_models_name _ _ "");
        [apply Htm | apply Hsm]; tauto.
    + injection Hfind as <-. apply lookup_some_key in Ea. apply Htm. tauto.
    + apply lookup_some_key in Hfind. apply Hsm. tauto.
  - intros key model. unfold key_model_totals. rewrite Hl.
    destruct (lookup api_key key target) as [a |] eqn:Ea;
      [destruct (lookup api_key key source) as [x |] eqn:Ex |]; simpl.
    + rewrite merge_models_by_name.
      apply lookup_some_key in Ea, Ex.
      rewrite (proj1 (merge_by_lookup model_name combine_models combine_models_name
                        _ _ model (Htm a (proj2 Ea)) (Hsm x (proj2 Ex)))).
      apply merged_models_counts.
    + now rewrite plus_none_r.
    + destruct (lookup api_key key source); reflexivity.
Qed.

(** Merging never changes the alias of a key that the target has; a key
    that only the source has comes with the source's alias. *)
Lemma merge_breakdown_alias (target source : list key_entry) (key : string) :
  well_keyed target -> well_keyed source ->
  option_map key_alias (lookup api_key key (_merge_breakdown target source))
  = match lookup api_key key target with
    | Some e => Some (key_alias e)
    | None => option_map key_alias (lookup api_key key source)
    end.
Proof.
  intros [Ht _] [Hs _]. rewrite merge_breakdown_by_key.
  rewrite (proj1 (merge_by_lookup api_key combine_keys combine_keys_key _ _ key Ht Hs)).
  destruct (lookup api_key key target), (lookup api_key key source); reflexivity.
Qed.

Lemma well_keyed_nil : well_keyed [].
Proof. split; [constructor | intros ? []]. Qed.

(** Folding a list of source breakdowns into a target. *)
Lemma merge_all_totals (sources : list (list key_entry)) (target : list key_entry) :
  well_keyed target -> Forall well_keyed sources ->
  well_keyed (fold_left _merge_breakdown sources target)
  /\ forall key model,
      key_model_totals (fold_left _merge_breakdown sources target) key model
      = fold_left plus (map (fun s => key_model_totals s key model) sources)
                  (key_model_totals target key model).
Proof.
  revert target. induction sources as [| s sources IH]; intros target Ht Hs; simpl.
  - split; [exact Ht | reflexivity].
  - inversion Hs as [| ? ? Hs1 Hs2]; subst.
    destruct (merge_breakdown_totals target s Ht Hs1) as [Hw Hk].
    destruct (IH _ Hw Hs2) as [Hw' Hk'].
    split; [exact Hw' |]. intros key model. now rewrite Hk', Hk.
Qed.

Lemma merge_all_alias (sources : list (list key_entry)) (target : list key_entry)
      (key : string) :
  well_keyed target -> Forall well_keyed sources ->
  option_map key_alias (lookup api_key key (fold_left _merge_breakdown sources target))
  = match lookup api_key key target with
    | Some e => Some (key_alias e)
    | None => first_alias key sources
    end.
Proof.
  revert target. induction sources as [| s sources IH]; intros target Ht Hs; simpl.
  - destruct (lookup api_key key target); reflexivity.
  - inversion Hs as [| ? ? Hs1 Hs2]; subst.
    destruct (merge_breakdown_totals target s Ht Hs1) as [Hw _].
    rewrite (IH _ Hw Hs2).
    pose proof (merge_breakdown_alias target s key Ht Hs1) as Ha.
    destruct (lookup api_key key (_merge_breakdown target s)) as [e |];
      destruct (lookup api_key key target) as [a |];
      destruct (lookup api_key key s) as [x |]; simpl in Ha; congruence.
Qed.

Lemma fold_plus_perm (l l' : list (option (Z * Z * Z))) (a : option (Z * Z * Z)) :
  Permutation l l' -> fold_left plus l a = fold_left plus l' a.
Proof.
  intro H. revert a. induction H as [| x l l' H IH | x y l | l l' l'' H1 IH1 H2 IH2];
    intro a; simpl.
  - reflexivity.
  - apply IH.
  - f_equal. rewrite !plus_assoc. f_equal. apply plus_comm.
  - now rewrite IH1, IH2.
Qed.

End MergeBreakdown.

(** ** Extraction of one entity's breakdown *)

Section Extract.
Import TokenAggregationService TeamTotalsSpec ExtractSpec.

Variable set_iter : list string -> list string.
Hypothesis set_iter_perm : forall l, NoDup l -> Permutation (set_iter l) l.

Lemma in_dict_update_key (V : Type) (d : dict V) (k k0 : string) (f : V -> V) (v : V) :
  In (k, v) (dict_update d k0 f) ->
  In (k, v) d \/ (k = k0 /\ exists v0, In (k, v0) d /\ v = f v0).
Proof.
  induction d as [| [k1 v1] d IH]; simpl; [tauto |].
  destruct (String.eqb_spec k1 k0); simpl.
  - intros [[= <- <-] | H]; [right; split; [assumption | exists v1; tauto] | tauto].
  - intros [H | H]; [tauto |].
    destruct (IH H) as [H' | [Hk [v0 [H1 H2]]]];
      [tauto | right; split; [assumption | exists v0; tauto]].
Qed.

Lemma comprehension_of_distinct (V : Type) (v0 : V) (keys : list string) (d : dict V) :
  NoDup (dict_keys d ++ keys) ->
  fold_left (fun d key => dict_set d key v0) keys d
  = d ++ map (fun key => (key, v0)) keys.
Proof.
  revert d. induction keys as [| k keys IH]; intros d H; simpl.
  - now rewrite app_nil_r.
  - assert (Hset : dict_set d k v0 = d ++ [(k, v0)]).
    { assert (Hk : ~ In k (dict_keys d)).
      { apply NoDup_remove_2 in H. intro Hin. apply H. apply in_or_app. now left. }
      clear -Hk. induction d as [| [k1 v1] d IHd]; simpl; [reflexivity |].
      simpl in Hk. destruct (String.eqb_spec k1 k); [subst; tauto |].
      rewrite IHd by tauto. reflexivity. }
    rewrite Hset, IH.
    + rewrite <- app_assoc. reflexivity.
    + unfold dict_keys in *. rewrite map_app. simpl. rewrite <- app_assoc. exact H.
Qed.

(** The loop over the keys for one model group. *)
Lemma visit_keys_within (model : string) (makb : option (dict KeyMetricWithMetadata))
      (earlier : list string) (keys visited : list string)
      (akm akm' : dict (list model_entry)) :
  ~ In model earlier ->
  NoDup (visited ++ keys) ->
  models_within (model :: earlier) earlier visited akm ->
  for_each (visit_key model makb) keys akm = Ok akm' ->
  dict_keys akm' = dict_keys akm
  /\ models_within (model :: earlier) earlier (visited ++ keys) akm'.
Proof.
  intro Hfresh. revert visited akm.
  induction keys as [| k keys IH]; intros visited akm Hnd Hin; simpl.
  - intros [= <-]. rewrite app_nil_r. tauto.
  - unfold visit_key at 1. destruct makb as [d |]; simpl; [| discriminate].
    assert (Hnd' : NoDup ((visited ++ [k]) ++ keys))
      by (rewrite <- app_assoc; exact Hnd).
    assert (Hk : ~ In k visited).
    { intro H. apply NoDup_remove_2 in Hnd. apply Hnd. apply in_or_app. now left. }
    destruct (dict_get d k) as [data |].
    + intro Hrun. apply (IH (visited ++ [k])) in Hrun; [| exact Hnd' |].
      * rewrite dict_keys_update, <- app_assoc in Hrun. exact Hrun.
      * intros key ms Hms. apply in_dict_update_key in Hms.
        destruct Hms as [Hms | [-> [ms0 [Hms ->]]]].
        -- destruct (Hin key ms Hms) as (H1 & H2 & H3).
           split; [exact H1 |]. split; [exact H2 |].
           intro Hv. apply H3. intro Hv'. apply Hv. apply in_or_app. now left.
        -- destruct (Hin k ms0 Hms) as (H1 & H2 & H3). specialize (H3 Hk).
           rewrite map_app. simpl. split; [| split].
           ++ apply NoDup_app; [exact H1 | repeat constructor; simpl; tauto |].
              intros x Hx [<- | []]. apply Hfresh. now apply H3.
           ++ intros x Hx. apply in_app_or in Hx.
              destruct Hx as [Hx | [<- | []]]; [now apply H2 | now left].
           ++ intro Hv. exfalso. apply Hv. apply in_or_app. right. now left.
    + intro Hrun. apply (IH (visited ++ [k])) in Hrun; [| exact Hnd' |].
      * rewrite <- app_assoc in Hrun. exact Hrun.
      * intros key ms Hms. destruct (Hin key ms Hms) as (H1 & H2 & H3).
        split; [exact H1 |]. split; [exact H2 |].
        intro Hv. apply H3. intro Hv'. apply Hv. apply in_or_app. now left.
Qed.

(** The loop over the model groups. *)
Lemma visit_models_within (keys : list string) (models : dict MetricWithMetadata)
      (earlier : list string) (akm akm' : dict (list model_entry)) :
  NoDup keys ->
  NoDup (earlier ++ dict_keys models) ->
  models_within earlier earlier [] akm ->
  for_each (visit_model keys) models akm = Ok akm' ->
  dict_keys akm' = dict_keys akm
  /\ models_within (earlier ++ dict_keys models) (earlier ++ dict_keys models) [] akm'.
Proof.
  intro Hkeys. revert earlier akm.
  induction models as [| [model md] models IH]; intros earlier akm Hnd Hin; simpl.
  - intros [= <-]. rewrite app_nil_r. tauto.
  - destruct (for_each (visit_key model (api_key_breakdown md)) keys akm)
      as [akm1 |] eqn:E1; simpl; [| discriminate].
    assert (Hfresh : ~ In model earlier).
    { intro H. apply NoDup_remove_2 in Hnd. apply Hnd. apply in_or_app. now left. }
    assert (Hin0 : models_within (model :: earlier) earlier [] akm).
    { intros key ms Hms. destruct (Hin key ms Hms) as (H1 & H2 & H3).
      split; [exact H1 |]. split; [| exact H3].
      intros x Hx. right. now apply H2. }
    destruct (visit_keys_within model _ earlier keys [] akm akm1 Hfresh Hkeys Hin0 E1)
      as [Hk1 Hw1].
    intro Hrun. apply (IH (earlier ++ [model])) in Hrun.
    + rewrite <- app_assoc in Hrun. simpl in Hrun. rewrite Hk1 in Hrun. exact Hrun.
    + rewrite <- app_assoc. exact Hnd.
    + intros key ms Hms. destruct (Hw1 key ms Hms) as (H1 & H2 & _).
      assert (H2' : incl (map model_name ms) (earlier ++ [model])).
      { intros x Hx. apply H2 in Hx. apply in_or_app.
        destruct Hx as [<- | Hx]; [right; now left | now left]. }
      tauto.
Qed.

Lemma lookup_alias_spec (top : BreakdownMetrics) (key : string) (alias : option json) :
  lookup_alias (api_keys top) key = Ok alias -> alias_field alias = day_alias top key.
Proof.
  unfold lookup_alias, day_alias, get_or_empty.
  destruct (api_keys top) as [keys |]; simpl; [| discriminate].
  destruct (dict_get keys key) as [data |]; [| now intros [= <-]].
  destruct (km_metadata data) as [metadata |]; simpl; [| discriminate].
  now intros [= <-].
Qed.

(** The loop that builds the entries. *)
Lemma build_keys_spec (entity_keys : dict KeyMetricWithMetadata) (top : BreakdownMetrics)
      (akm : dict (list model_entry)) (acc out : list key_entry) :
  for_each (build_key entity_keys (api_keys top)) akm acc = Ok out ->
  out = acc ++ map (entry_of entity_keys top) akm.
Proof.
  revert acc. induction akm as [| [key ms] akm IH]; intro acc; simpl.
  - intros [= <-]. now rewrite app_nil_r.
  - destruct (lookup_alias (api_keys top) key) as [alias |] eqn:Ea; simpl;
      [| discriminate].
    apply lookup_alias_spec in Ea.
    destruct ms as [| m ms]; simpl; intro Hrun; apply IH in Hrun; subst out;
      rewrite <- app_assoc; simpl; unfold entry_of; simpl; rewrite Ea; reflexivity.
Qed.

(** What [_extract_breakdown] returns: one entry per API key of the entity,
    in the iteration order of the set of keys, each with the alias of that
    day and with models of distinct names. *)
Lemma extract_breakdown_spec (entity : MetricWithMetadata) (top : BreakdownMetrics)
      (out : list key_entry) :
  (forall keys, api_key_breakdown entity = Some keys -> NoDup (dict_keys keys)) ->
  (forall ms, model_groups top = Some ms -> NoDup (dict_keys ms)) ->
  _extract_breakdown set_iter entity top = Ok out ->
  exists keys,
    api_key_breakdown entity = Some keys
    /\ map api_key out = set_iter (dict_keys keys)
    /\ (forall e, In e out -> key_alias e = day_alias top (api_key e))
    /\ well_keyed out.
Proof.
  intros Hek Hms. unfold _extract_breakdown.
  destruct (api_key_breakdown entity) as [keys |]; simpl; [| discriminate].
  specialize (Hek keys eq_refl).
  destruct (model_groups top) as [ms |]; simpl; [| discriminate].
  specialize (Hms ms eq_refl).
  assert (Hnd : NoDup (set_iter (dict_keys keys)))
    by (apply (Permutation_NoDup (Permutation_sym (set_iter_perm _ Hek))); exact Hek).
  rewrite (comprehension_of_distinct _ [] _ []) by exact Hnd. simpl.
  destruct (for_each (visit_model (set_iter (dict_keys keys))) ms _)
    as [akm |] eqn:Eakm; simpl; [| discriminate].
  intro Hout. apply build_keys_spec in Hout. simpl in Hout. subst out.
  apply (visit_models_within _ _ []) in Eakm; [| exact Hnd | exact Hms |].
  - destruct Eakm as [Hkeys Hwithin]. simpl in Hwithin.
    assert (Hk : map api_key (map (entry_of keys top) akm) = set_iter (dict_keys keys)).
    { rewrite map_map. change (dict_keys akm = set_iter (dict_keys keys)).
      rewrite Hkeys. unfold dict_keys. rewrite map_map. simpl. apply map_id. }
    exists keys. split; [reflexivity |]. split; [exact Hk |]. split; [| split].
    + intros e He. apply in_map_iff in He. destruct He as [item [<- _]]. reflexivity.
    + rewrite Hk. exact Hnd.
    + intros e He. apply in_map_iff in He. destruct He as [[key models] [<- Hitem]].
      simpl. destruct models as [| m models]; [repeat constructor; simpl; tauto |].
      apply (Hwithin key (m :: models) Hitem).
  - intros key models Hitem. apply in_map_iff in Hitem.
    destruct Hitem as [k [[= <- <-] _]]. simpl.
    split; [constructor |]. split; intros; intros x [].
Qed.

End Extract.

(** ** The team-totals fold *)

Section TeamTotals.
Import TokenAggregationService TeamTotalsSpec TeamTotalsFold.

Variable set_iter : list string -> list string.
Variable svc : TeamServiceProtocol.

Lemma initial_team_data_keys : dict_keys (initial_team_data svc) = display_names svc.
Proof.
  unfold initial_team_data. rewrite keys_of_comprehension. simpl.
  unfold display_names. induction (distinct _) as [| n l IH]; simpl; congruence.
Qed.

Lemma initial_team_data_get (name : string) :
  In name (display_names svc) ->
  dict_get (initial_team_data svc) name = Some no_tokens.
Proof.
  unfold display_names, initial_team_data. rewrite In_distinct.
  intro H. rewrite values_of_comprehension.
  apply existsb_named in H. now rewrite H.
Qed.

Lemma add_entity_spec (top : BreakdownMetrics) (team_data team_data' : dict team_entry)
      (item : string * MetricWithMetadata) :
  add_entity set_iter svc top team_data item = Ok team_data' ->
  dict_keys team_data' = dict_keys team_data
  /\ forall name,
      dict_get team_data' name
      = if String.eqb (get_team_name svc (fst item)) name
        then option_map (add_source (source_of set_iter top (snd item)))
                        (dict_get team_data name)
        else dict_get team_data name.
Proof.
  destruct item as [team_id entity]. unfold add_entity, source_of. simpl.
  destruct (dict_mem team_data (get_team_name svc team_id)) eqn:Hmem.
  - destruct (_extract_breakdown set_iter entity top) as [bd |]; simpl; [| discriminate].
    intros [= <-]. split; [apply dict_keys_update |].
    intro name. rewrite dict_get_update. reflexivity.
  - intros [= <-]. split; [reflexivity |].
    intro name. destruct (String.eqb_spec (get_team_name svc team_id) name);
      [| reflexivity].
    subst. unfold dict_mem in Hmem.
    destruct (dict_get team_data (get_team_name svc team_id)); [discriminate | reflexivity].
Qed.

Lemma add_entities_spec (top : BreakdownMetrics) (es : dict MetricWithMetadata)
      (team_data team_data' : dict team_entry) :
  for_each (add_entity set_iter svc top) es team_data = Ok team_data' ->
  dict_keys team_data' = dict_keys team_data
  /\ forall name,
      dict_get team_data' name
      = option_map
          (fun t => fold_left (fun t s => add_source s t)
                              (map (fun item => source_of set_iter top (snd item))
                                   (entities_named svc name es))
                              t)
          (dict_get team_data name).
Proof.
  revert team_data. induction es as [| item es IH]; intro team_data; simpl.
  - intros [= <-]. split; [reflexivity |].
    intro name. destruct (dict_get team_data name); reflexivity.
  - destruct (add_entity set_iter svc top team_data item) as [td |] eqn:E; simpl;
      [| discriminate].
    intro Hrun. destruct (add_entity_spec _ _ _ _ E) as [K1 G1].
    destruct (IH _ Hrun) as [K2 G2].
    split; [congruence |]. intro name. rewrite G2, G1.
    destruct (String.eqb (get_team_name svc (fst item)) name); simpl;
      destruct (dict_get team_data name); reflexivity.
Qed.

Lemma team_totals_add_entry_spec (entry : DailySpendData)
      (team_data team_data' : dict team_entry) :
  add_entry set_iter svc team_data entry = Ok team_data' ->
  dict_keys team_data' = dict_keys team_data
  /\ forall name,
      dict_get team_data' name
      = option_map
          (fun t => fold_left (fun t s => add_source s t)
                              (day_sources set_iter svc name entry) t)
          (dict_get team_data name).
Proof.
  unfold add_entry, day_sources, day_entities.
  destruct (breakdown entry) as [b |]; simpl; [| discriminate].
  destruct (entities b) as [es |]; simpl; [| discriminate].
  apply add_entities_spec.
Qed.

Lemma team_totals_for_each_spec (days : list DailySpendData)
      (team_data team_data' : dict team_entry) :
  for_each (add_entry set_iter svc) days team_data = Ok team_data' ->
  dict_keys team_data' = dict_keys team_data
  /\ forall name,
      dict_get team_data' name
      = option_map
          (fun t => fold_left (fun t s => add_source s t)
                              (sources set_iter svc name days) t)
          (dict_get team_data name).
Proof.
  revert team_data. induction days as [| entry days IH]; intro team_data; simpl.
  - intros [= <-]. split; [reflexivity |].
    intro name. destruct (dict_get team_data name); reflexivity.
  - destruct (add_entry set_iter svc team_data entry) as [td |] eqn:E; simpl;
      [| discriminate].
    intro Hrun. destruct (team_totals_add_entry_spec _ _ _ E) as [K1 G1].
    destruct (IH _ Hrun) as [K2 G2].
    split; [congruence |]. intro name. rewrite G2, G1.
    unfold sources. simpl.
    destruct (dict_get team_data name); simpl; [| reflexivity].
    now rewrite fold_left_app.
Qed.

(** The team-totals fold: one entry per display name, holding the
    contributions of the entities that resolve to the name. *)
Lemma team_totals_spec (data : SpendAnalyticsPaginatedResponse)
      (out : dict team_entry) :
  fetch_total_tokens_per_team set_iter svc (Ok data) = Ok out ->
  dict_keys out = display_names svc
  /\ forall name,
      In name (display_names svc) ->
      dict_get out name
      = Some (fold_left (fun t s => add_source s t)
                        (sources set_iter svc name (results data)) no_tokens).
Proof.
  unfold fetch_total_tokens_per_team. intro Hrun.
  destruct (team_totals_for_each_spec _ _ _ Hrun) as [K G].
  split; [now rewrite K, initial_team_data_keys |].
  intros name Hn. now rewrite G, initial_team_data_get.
Qed.

Lemma add_sources_totals (l : list (Z * list key_entry)) (t : team_entry) :
  te_total_tokens (fold_left (fun t s => add_source s t) l t)
  = te_total_tokens t + sum_Z (map fst l)
  /\ te_api_keys (fold_left (fun t s => add_source s t) l t)
     = fold_left _merge_breakdown (map snd l) (te_api_keys t).
Proof.
  revert t. induction l as [| s l IH]; intro t; simpl.
  - split; [lia | reflexivity].
  - destruct (IH (add_source s t)) as [H1 H2]. rewrite H1, H2. simpl.
    split; [lia | reflexivity].
Qed.

Lemma sources_tokens (name : string) (days : list DailySpendData) :
  sum_Z (map fst (sources set_iter svc name days)) = entity_total svc days name.
Proof.
  unfold sources, entity_total.
  induction days as [| entry days IH]; simpl; [reflexivity |].
  rewrite map_app, sum_Z_app, IH. f_equal.
  unfold day_sources, day_entities.
  destruct (breakdown entry) as [b |]; [| reflexivity].
  rewrite map_map. reflexivity.
Qed.

(** Whether the loops raise depends on the accumulator through its team
    names only, and the loops do not change them. *)
Lemma add_entity_same_teams (top : BreakdownMetrics) (td td' : dict team_entry)
      (item : string * MetricWithMetadata) :
  same_teams td td' ->
  is_ok (add_entity set_iter svc top td item)
  = is_ok (add_entity set_iter svc top td' item)
  /\ forall t t',
      add_entity set_iter svc top td item = Ok t ->
      add_entity set_iter svc top td' item = Ok t' -> same_teams t t'.
Proof.
  intro H. destruct item as [team_id entity]. unfold add_entity.
  rewrite <- (H (get_team_name svc team_id)).
  destruct (dict_mem td (get_team_name svc team_id)).
  - destruct (_extract_breakdown set_iter entity top); simpl.
    + split; [reflexivity |]. intros t t' [= <-] [= <-] name.
      now rewrite !dict_mem_update.
    + split; [reflexivity | discriminate].
  - split; [reflexivity |]. now intros t t' [= <-] [= <-].
Qed.

Lemma add_entities_same_teams (top : BreakdownMetrics) (es : dict MetricWithMetadata)
      (td td' : dict team_entry) :
  same_teams td td' ->
  is_ok (for_each (add_entity set_iter svc top) es td)
  = is_ok (for_each (add_entity set_iter svc top) es td')
  /\ forall t t',
      for_each (add_entity set_iter svc top) es td = Ok t ->
      for_each (add_entity set_iter svc top) es td' = Ok t' -> same_teams t t'.
Proof.
  revert td td'. induction es as [| item es IH]; intros td td' H; simpl.
  - split; [reflexivity |]. now intros t t' [= <-] [= <-].
  - destruct (add_entity_same_teams top td td' item H) as [Hok Hstep].
    destruct (add_entity set_iter svc top td item) as [u |],
             (add_entity set_iter svc top td' item) as [u' |];
      simpl in *; try discriminate.
    + apply IH. now apply Hstep.
    + split; [reflexivity | discriminate].
Qed.

Lemma add_entry_same_teams (entry : DailySpendData) (td td' : dict team_entry) :
  same_teams td td' ->
  is_ok (add_entry set_iter svc td entry) = is_ok (add_entry set_iter svc td' entry)
  /\ forall t t',
      add_entry set_iter svc td entry = Ok t ->
      add_entry set_iter svc td' entry = Ok t' -> same_teams t t'.
Proof.
  intro H. unfold add_entry.
  destruct (breakdown entry) as [b |]; simpl; [| split; [reflexivity | discriminate]].
  destruct (entities b) as [es |]; simpl; [| split; [reflexivity | discriminate]].
  now apply add_entities_same_teams.
Qed.

Lemma team_totals_ok (data : SpendAnalyticsPaginatedResponse) :
  is_ok (fetch_total_tokens_per_team set_iter svc (Ok data))
  = forallb (day_ok set_iter svc) (results data).
Proof.
  unfold fetch_total_tokens_per_team, day_ok.
  apply (for_each_ok_forallb _ _ same_teams).
  - intros entry s s' _ H. now apply add_entry_same_teams.
  - intros entry s t _ H Hrun name. rewrite (H name).
    destruct (team_totals_add_entry_spec _ _ _ Hrun) as [K _].
    destruct (dict_mem s name) eqn:E1, (dict_mem t name) eqn:E2; try reflexivity.
    + apply dict_mem_keys in E1. rewrite <- K in E1. apply dict_mem_keys in E1. congruence.
    + apply dict_mem_keys in E2. rewrite K in E2. apply dict_mem_keys in E2. congruence.
  - intro name. reflexivity.
Qed.

End TeamTotals.

(** ** Teams that share a display name *)

Section SharedNames.
Import TokenAggregationService TeamTotalsSpec TeamTotalsFold.
Import SuccessRateService SuccessRateSpec.

Variable set_iter : list string -> list string.
Variable svc : TeamServiceProtocol.

Lemma success_rate_rows_spec (data : SpendAnalyticsPaginatedResponse)
      (rows : list team_summary) :
  fetch_team_success_rate_summary svc (Ok data) = Ok rows ->
  Forall2 (fun name row => summarise (name, totals svc (results data) name) = Ok row)
          (display_names svc) rows.
Proof.
  unfold fetch_team_success_rate_summary. rewrite aggregate_closed_form.
  destruct (forallb (SuccessRateSpec.day_ok svc) (results data)); simpl; [| discriminate].
  intro H. apply map_result_Forall2 in H. unfold folded in H.
  revert rows H. induction (display_names svc) as [| name names IH]; intros rows H;
    inversion H; subst; constructor; auto.
Qed.

Lemma success_rate_rows_sums (data : SpendAnalyticsPaginatedResponse)
      (rows : list team_summary) :
  fetch_team_success_rate_summary svc (Ok data) = Ok rows ->
  map ts_name rows = display_names svc
  /\ Forall (fun row =>
               ts_total_requests row
               = requested_total api_requests svc (results data) (ts_name row)
               /\ ts_successful_requests row
                  = requested_total successful_requests svc (results data) (ts_name row)
               /\ ts_failed_requests row
                  = requested_total failed_requests svc (results data) (ts_name row))
            rows.
Proof.
  intro Hrows. apply success_rate_rows_spec in Hrows.
  revert Hrows. generalize (display_names svc). intros names H.
  induction H as [| name row names rows Hrow Hrest IH]; [split; constructor |].
  destruct IH as [IH1 IH2]. apply summarise_row in Hrow.
  destruct Hrow as (Hn & H1 & H2 & H3 & _). simpl in Hn, H1, H2, H3.
  split; [simpl; now rewrite Hn, IH1 |].
  constructor; [| exact IH2]. rewrite Hn.
  split; [exact H1 |]. split; [exact H2 | exact H3].
Qed.

Lemma display_names_length :
  List.length (display_names svc)
  = List.length (nodup string_dec (map (get_team_name svc) (get_team_ids svc))).
Proof.
  apply Permutation_length. apply NoDup_Permutation.
  - apply NoDup_distinct.
  - apply NoDup_nodup.
  - intro x. unfold display_names. rewrite In_distinct, nodup_In. tauto.
Qed.

Lemma requested_id_is_named (team_id : string) :
  In team_id (get_team_ids svc) ->
  In (get_team_name svc team_id) (display_names svc)
  /\ In team_id (ids_named svc (get_team_name svc team_id)).
Proof.
  intro Hid. split.
  - unfold display_names. rewrite In_distinct. now apply in_map.
  - unfold ids_named. apply filter_In. split; [exact Hid | apply String.eqb_refl].
Qed.

Lemma team_entry_tokens (data : SpendAnalyticsPaginatedResponse)
      (out : dict team_entry) (name : string) (t : team_entry) :
  fetch_total_tokens_per_team set_iter svc (Ok data) = Ok out ->
  dict_get out name = Some t ->
  te_total_tokens t = entity_total svc (results data) name.
Proof.
  intros Hout Ht.
  destruct (team_totals_spec set_iter svc data out Hout) as [Hkeys Hget].
  assert (Hn : In name (display_names svc)).
  { rewrite <- Hkeys. apply dict_mem_keys. unfold dict_mem. now rewrite Ht. }
  rewrite (Hget name Hn) in Ht. injection Ht as <-.
  rewrite (proj1 (add_sources_totals _ _)), sources_tokens. reflexivity.
Qed.

End SharedNames.

(** ** The sources merged into one team's breakdown *)

Section Sources.
Import TokenAggregationService TeamTotalsSpec TeamTotalsFold ExtractSpec.
Import AliasSpec SourcesSpec.

Variable set_iter : list string -> list string.
Hypothesis set_iter_perm : forall l, NoDup l -> Permutation (set_iter l) l.
Variable svc : TeamServiceProtocol.

Lemma for_each_steps (A S : Type) (P : S -> Prop) (body : S -> A -> result S)
      (l : list A) :
  (forall s a s', P s -> body s a = Ok s' -> P s') ->
  forall s s',
    P s -> for_each body l s = Ok s' ->
    forall a, In a l -> exists s1 s2, P s1 /\ body s1 a = Ok s2.
Proof.
  intro Hbody. induction l as [| b l IH]; intros s s' HP Hrun a Hin; [destruct Hin |].
  simpl in Hrun. destruct (body s b) as [t |] eqn:Et; simpl in Hrun; [| discriminate].
  destruct Hin as [<- | Hin]; [now exists s, t |].
  apply (IH t s'); [eapply Hbody; eassumption | exact Hrun | exact Hin].
Qed.

Lemma sources_of_team_entities (name : string) (days : list DailySpendData) :
  sources set_iter svc name days
  = map (fun be => source_of set_iter (fst be) (snd be)) (team_entities svc name days).
Proof.
  unfold sources, team_entities.
  induction days as [| entry days IH]; simpl; [reflexivity |].
  rewrite map_app, IH. f_equal. unfold day_sources.
  destruct (breakdown entry) as [b |]; [| reflexivity].
  rewrite map_map. reflexivity.
Qed.

Lemma in_team_entities (name : string) (days : list DailySpendData)
      (be : BreakdownMetrics * MetricWithMetadata) :
  In be (team_entities svc name days) ->
  exists entry team_id,
    In entry days /\ breakdown entry = Some (fst be)
    /\ In (team_id, snd be) (day_entities entry)
    /\ get_team_name svc team_id = name.
Proof.
  unfold team_entities. intro H. apply in_flat_map in H.
  destruct H as [entry [Hentry H]].
  destruct (breakdown entry) as [b |] eqn:Eb; [| destruct H].
  apply in_map_iff in H. destruct H as [[team_id entity] [<- H]].
  unfold entities_named in H. apply filter_In in H. destruct H as [H1 H2].
  apply String.eqb_eq in H2. exists entry, team_id. simpl. tauto.
Qed.

(** When the team-totals service answers, every entity that resolves to a
    requested display name has been extracted. *)
Lemma team_entities_extractable (data : SpendAnalyticsPaginatedResponse)
      (out : dict team_entry) (name : string) :
  fetch_total_tokens_per_team set_iter svc (Ok data) = Ok out ->
  forallb distinct_day (results data) = true ->
  In name (display_names svc) ->
  Forall (extractable set_iter) (team_entities svc name (results data)).
Proof.
  unfold fetch_total_tokens_per_team. intros Hrun Hdistinct Hname.
  apply Forall_forall. intros be Hbe.
  destruct (in_team_entities _ _ _ Hbe) as (entry & team_id & Hentry & Hb & Hitem & Hn).
  rewrite forallb_forall in Hdistinct. specialize (Hdistinct entry Hentry).
  unfold distinct_day in Hdistinct.
  apply andb_true_iff in Hdistinct. destruct Hdistinct as [Hd He].
  apply andb_true_iff in Hd. destruct Hd as [_ Hm].
  rewrite forallb_forall in He. specialize (He _ Hitem). simpl in He.
  split; [| split].
  - destruct (for_each_steps _ _ (fun td => dict_keys td = display_names svc)
                _ (results data)
                (fun s a s' Hs Ha =>
                   eq_trans (proj1 (team_totals_add_entry_spec set_iter svc a s s' Ha)) Hs)
                _ _ (initial_team_data_keys svc) Hrun entry Hentry)
      as (td1 & td2 & Hk1 & Hday).
    unfold add_entry in Hday. rewrite Hb in Hday. simpl in Hday.
    unfold day_entities in Hitem. rewrite Hb in Hitem.
    destruct (entities (fst be)) as [es |]; simpl in Hday; [| discriminate].
    destruct (for_each_steps _ _ (fun td => dict_keys td = display_names svc)
                _ es
                (fun s a s' Hs Ha =>
                   eq_trans (proj1 (add_entity_spec set_iter svc (fst be) s s' a Ha)) Hs)
                _ _ Hk1 Hday _ Hitem)
      as (s1 & s2 & Hk & Hstep).
    unfold add_entity in Hstep. rewrite Hn in Hstep.
    assert (Hmem : dict_mem s1 name = true)
      by (apply dict_mem_keys; now rewrite Hk).
    rewrite Hmem in Hstep.
    destruct (_extract_breakdown set_iter (snd be) (fst be)) as [bd |];
      [now exists bd | discriminate].
  - intros keys Hkeys. rewrite Hkeys in He. now apply distinctb_NoDup.
  - intros ms Hms. unfold day_model_groups in Hm. rewrite Hb, Hms in Hm.
    now apply distinctb_NoDup.
Qed.

Lemma extractable_well_keyed (l : list (BreakdownMetrics * MetricWithMetadata)) :
  Forall (extractable set_iter) l ->
  Forall well_keyed (map (fun be => snd (source_of set_iter (fst be) (snd be))) l).
Proof.
  intro H. apply Forall_map. apply (Forall_impl _ (P := extractable set_iter)); [| exact H].
  intros [b entity] ([bd Hbd] & Hk & Hm). simpl in *. unfold source_of. simpl.
  destruct (extract_breakdown_spec set_iter set_iter_perm entity b bd Hk Hm Hbd)
    as (keys & _ & _ & _ & Hw).
  now rewrite Hbd.
Qed.

(** The first source that has the key is the first entity that uses it, and
    the alias it brings is the alias of that day. *)
Lemma first_alias_of_key_days (key : string)
      (l : list (BreakdownMetrics * MetricWithMetadata)) :
  Forall (extractable set_iter) l ->
  first_alias key (map (fun be => snd (source_of set_iter (fst be) (snd be))) l)
  = match map fst (filter (fun be => uses_key key (snd be)) l) with
    | b :: _ => Some (day_alias b key)
    | [] => None
    end.
Proof.
  induction 1 as [| [b entity] l Hbe Hl IH]; simpl; [reflexivity |].
  destruct Hbe as ([bd Hbd] & Hk & Hm). simpl in *. unfold source_of. simpl.
  rewrite Hbd.
  destruct (extract_breakdown_spec set_iter set_iter_perm entity b bd Hk Hm Hbd)
    as (keys & Hkeys & Hbdkeys & Halias & Hw).
  unfold uses_key. rewrite Hkeys.
  assert (Hin : In key (map api_key bd) <-> dict_mem keys key = true).
  { rewrite Hbdkeys, dict_mem_keys.
    split; apply Permutation_in;
      [| apply Permutation_sym]; apply set_iter_perm; now apply Hk. }
  destruct (lookup api_key key bd) as [e |] eqn:Ee.
  - apply lookup_some_key in Ee. destruct Ee as [Ekey Ein].
    assert (Hmem : dict_mem keys key = true)
      by (apply Hin; rewrite <- Ekey; now apply in_map).
    rewrite Hmem. simpl. rewrite (Halias e Ein), Ekey. reflexivity.
  - apply lookup_none in Ee.
    destruct (dict_mem keys key) eqn:Hmem; [exfalso; apply Ee; now apply Hin |].
    exact IH.
Qed.

(** C6, as the code has it.  When the team-totals service answers on a
    document whose dictionaries have distinct keys, the entry of an API key
    in a team's breakdown carries the alias that the [api_keys] map records
    for the key on the first day, in document order, on which the key is
    among the API keys of an entity of that team: the alias of that day if
    it has one, none if it has none.  Later days neither overwrite, nor
    remove, nor add an alias.  A key that no such day has is not in the
    breakdown. *)
Theorem alias_of_first_day
        (data : SpendAnalyticsPaginatedResponse) (out : dict team_entry)
        (name : string) (t : team_entry) (key : string) :
  fetch_total_tokens_per_team set_iter svc (Ok data) = Ok out ->
  forallb distinct_day (results data) = true ->
  dict_get out name = Some t ->
  match key_days svc name key (results data) with
  | b :: _ =>
      exists e, lookup api_key key (te_api_keys t) = Some e
                /\ key_alias e = day_alias b key
  | [] => lookup api_key key (te_api_keys t) = None
  end.
Proof.
  intros Hrun Hdistinct Ht.
  destruct (team_totals_spec set_iter svc data out Hrun) as [Hkeys Hget].
  assert (Hname : In name (display_names svc)).
  { rewrite <- Hkeys. apply dict_mem_keys. unfold dict_mem. now rewrite Ht. }
  rewrite (Hget name Hname) in Ht. injection Ht as <-.
  rewrite (proj2 (add_sources_totals _ _)). simpl te_api_keys.
  pose proof (team_entities_extractable data out name Hrun Hdistinct Hname) as Hgood.
  rewrite sources_of_team_entities, map_map.
  pose proof (merge_all_alias _ [] key well_keyed_nil
                (extractable_well_keyed _ Hgood)) as Halias.
  rewrite (first_alias_of_key_days key _ Hgood) in Halias.
  unfold key_days. simpl in Halias.
  destruct (map fst (filter (fun be => uses_key key (snd be))
                            (team_entities svc name (results data)))) as [| b bs].
  - destruct (lookup api_key key _); [discriminate | reflexivity].
  - destruct (lookup api_key key _) as [e |]; [| discriminate].
    exists e. split; [reflexivity |]. simpl in Halias. congruence.
Qed.

End Sources.

Lemma alias_of_first_day_witness :
  TokenAggregationService.fetch_total_tokens_per_team
    (fun keys => keys) one_team (Ok alias_on_first_day)
  = Ok [("Alpha Team", two_days_of_key (Some (JStr "DevBoost Key")))]
  /\ forallb distinct_day (results alias_on_first_day) = true
  /\ exists e,
      lookup TokenAggregationService.api_key "key1"
             (TokenAggregationService.te_api_keys
                (two_days_of_key (Some (JStr "DevBoost Key"))))
      = Some e
      /\ TokenAggregationService.key_alias e = Some (JStr "DevBoost Key").
Proof.
  split; [reflexivity |]. split; [reflexivity |].
  exact (alias_of_first_day
           (fun keys => keys) (fun l _ => Permutation_refl l) one_team
           alias_on_first_day
           [("Alpha Team", two_days_of_key (Some (JStr "DevBoost Key")))]
           "Alpha Team" (two_days_of_key (Some (JStr "DevBoost Key"))) "key1"
           eq_refl eq_refl eq_refl).
Defined.

(** C6 as the specification words it fails when the first day of a key
    records no alias and a later day does: the entry of the key stays
    without alias. *)
Lemma alias_of_later_day_is_lost :
  ~ AliasSpec.alias_of_any_day (fun keys => keys) one_team alias_on_second_day.
Proof.
  intro H.
  destruct (H [("Alpha Team", two_days_of_key None)] "Alpha Team"
              (two_days_of_key None) "key1"
              (breakdown_with_alias [("key_alias", JStr "DevBoost Key")])
              (JStr "DevBoost Key") eq_refl eq_refl
              (or_intror (or_introl eq_refl)) eq_refl)
    as [e [He Ha]].
  vm_compute in He. injection He as <-. discriminate Ha.
Qed.

(** ** Reordering the days *)

Section Reordering.
Import TokenAggregationService TeamTotalsSpec TeamTotalsFold ExtractSpec.
Import AliasSpec SourcesSpec.

Variable set_iter : list string -> list string.
Hypothesis set_iter_perm : forall l, NoDup l -> Permutation (set_iter l) l.
Variable svc : TeamServiceProtocol.

Lemma requested_total_perm (counter : SpendMetrics -> Z) (days days' : list DailySpendData)
      (name : string) :
  Permutation days days' ->
  requested_total counter svc days name = requested_total counter svc days' name.
Proof. intro H. unfold requested_total. apply sum_Z_perm. now apply Permutation_map. Qed.

Lemma success_rate_perm (days days' : list DailySpendData) :
  Permutation days days' ->
  SuccessRateService.fetch_team_success_rate_summary svc (Ok {| results := days' |})
  = SuccessRateService.fetch_team_success_rate_summary svc (Ok {| results := days |}).
Proof.
  intro H. unfold SuccessRateService.fetch_team_success_rate_summary.
  rewrite !aggregate_closed_form. simpl.
  rewrite (forallb_perm _ _ _ _ H).
  replace (SuccessRateSpec.folded svc days') with (SuccessRateSpec.folded svc days);
    [reflexivity |].
  unfold SuccessRateSpec.folded. apply map_ext. intro name. f_equal.
  unfold SuccessRateSpec.totals.
  now rewrite !(requested_total_perm _ _ _ name H).
Qed.

Lemma entity_total_perm (days days' : list DailySpendData) (name : string) :
  Permutation days days' -> entity_total svc days name = entity_total svc days' name.
Proof. intro H. unfold entity_total. apply sum_Z_perm. now apply Permutation_map. Qed.

Lemma team_totals_perm (days days' : list DailySpendData) (out : dict team_entry) :
  Permutation days days' ->
  forallb distinct_day days = true ->
  fetch_total_tokens_per_team set_iter svc (Ok {| results := days |}) = Ok out ->
  exists out',
    fetch_total_tokens_per_team set_iter svc (Ok {| results := days' |}) = Ok out'
    /\ dict_keys out' = dict_keys out
    /\ forall name t,
        dict_get out name = Some t ->
        exists t',
          dict_get out' name = Some t'
          /\ te_total_tokens t' = te_total_tokens t
          /\ forall key model,
              key_model_totals (te_api_keys t') key model
              = key_model_totals (te_api_keys t) key model.
Proof.
  intros Hperm Hdistinct Hrun.
  assert (Hok : is_ok (fetch_total_tokens_per_team set_iter svc (Ok {| results := days' |}))
                = true).
  { pose proof (team_totals_ok set_iter svc {| results := days |}) as H0.
    rewrite Hrun in H0. simpl in H0.
    rewrite team_totals_ok. simpl. now rewrite <- (forallb_perm _ _ _ _ Hperm). }
  apply is_ok_true in Hok. destruct Hok as [out' Hrun'].
  assert (Hdistinct' : forallb distinct_day days' = true)
    by now rewrite <- (forallb_perm _ _ _ _ Hperm).
  destruct (team_totals_spec set_iter svc _ out Hrun) as [K G].
  destruct (team_totals_spec set_iter svc _ out' Hrun') as [K' G'].
  exists out'. split; [exact Hrun' |]. split; [congruence |].
  intros name t Ht.
  assert (Hname : In name (display_names svc)).
  { rewrite <- K. apply dict_mem_keys. unfold dict_mem. now rewrite Ht. }
  rewrite (G name Hname) in Ht. injection Ht as <-.
  eexists. split; [apply (G' name Hname) |]. simpl results.
  split.
  - rewrite !(proj1 (add_sources_totals _ _)), !sources_tokens.
    now rewrite (entity_total_perm _ _ name Hperm).
  - intros key model. rewrite !(proj2 (add_sources_totals _ _)). simpl te_api_keys.
    pose proof (team_entities_extractable set_iter svc _ out name Hrun Hdistinct Hname)
      as Hgood.
    pose proof (team_entities_extractable set_iter svc _ out' name Hrun' Hdistinct' Hname)
      as Hgood'.
    simpl results in Hgood, Hgood'.
    rewrite !sources_of_team_entities, !map_map.
    rewrite (proj2 (merge_all_totals _ [] well_keyed_nil
                      (extractable_well_keyed set_iter set_iter_perm _ Hgood'))).
    rewrite (proj2 (merge_all_totals _ [] well_keyed_nil
                      (extractable_well_keyed set_iter set_iter_perm _ Hgood))).
    apply fold_plus_perm. apply Permutation_map. apply Permutation_map.
    unfold team_entities. apply Permutation_flat_map. now apply Permutation_sym.
Qed.

Lemma accumulate_tokens (uses : list (Z * float)) :
  option_map CostEfficiencyService.pt_total_tokens
             (CostEfficiencySpec.accumulate uses None)
  = match uses with
    | [] => None
    | _ :: _ => Some (sum_Z (map fst uses))
    end.
Proof.
  destruct uses as [| u uses]; [reflexivity |].
  unfold CostEfficiencySpec.accumulate, option_map.
  rewrite (proj1 (accumulate_totals _ _)). reflexivity.
Qed.

Lemma cost_tokens_perm (days days' : list DailySpendData)
      (tmd : dict (dict CostEfficiencyService.pair_totals)) :
  Permutation days days' ->
  CostEfficiencyService.aggregate svc {| results := days |} = Ok tmd ->
  exists tmd',
    CostEfficiencyService.aggregate svc {| results := days' |} = Ok tmd'
    /\ forall team model,
        option_map CostEfficiencyService.pt_total_tokens
                   (CostEfficiencySpec.get2 tmd' team model)
        = option_map CostEfficiencyService.pt_total_tokens
                     (CostEfficiencySpec.get2 tmd team model).
Proof.
  intros Hperm Hrun.
  assert (Hok : is_ok (CostEfficiencyService.aggregate svc {| results := days' |}) = true).
  { pose proof (cost_aggregate_ok svc {| results := days |}) as H0.
    rewrite Hrun in H0. simpl in H0.
    rewrite cost_aggregate_ok. simpl. now rewrite <- (forallb_perm _ _ _ _ Hperm). }
  apply is_ok_true in Hok. destruct Hok as [tmd' Hrun'].
  exists tmd'. split; [exact Hrun' |]. intros team model.
  rewrite (cost_aggregate_spec svc _ _ Hrun), (cost_aggregate_spec svc _ _ Hrun').
  rewrite !accumulate_tokens. simpl results.
  assert (Hp : Permutation (CostEfficiencySpec.all_uses svc days team model)
                           (CostEfficiencySpec.all_uses svc days' team model))
    by (unfold CostEfficiencySpec.all_uses; now apply Permutation_flat_map).
  destruct (CostEfficiencySpec.all_uses svc days team model) as [| u us] eqn:E,
           (CostEfficiencySpec.all_uses svc days' team model) as [| u' us'] eqn:E'.
  - reflexivity.
  - apply Permutation_nil in Hp. discriminate.
  - apply Permutation_sym, Permutation_nil in Hp. discriminate.
  - f_equal. apply sum_Z_perm. apply Permutation_map. now apply Permutation_sym.
Qed.

(** C1, as the code has it.  Let [days'] be a reordering of [days], all
    dictionaries of which have distinct keys.  The success-rate service
    gives the same answer on both.  When the team-totals service answers on
    [days] it answers on [days'], with the same team names, the same
    [total_tokens] per team, and the same [total_tokens], [prompt_tokens]
    and [completion_tokens] per (api_key, model_name) pair of every team.
    When the cost-efficiency fold ends on [days] it ends on [days'], with
    the same (team, model) pairs and the same [total_tokens] per pair.
    Nothing is said of the floating-point [total_cost] of a pair. *)
Theorem integer_totals_do_not_depend_on_order (days days' : list DailySpendData) :
  Permutation days days' ->
  forallb distinct_day days = true ->
  SuccessRateService.fetch_team_success_rate_summary svc (Ok {| results := days' |})
  = SuccessRateService.fetch_team_success_rate_summary svc (Ok {| results := days |})
  /\ (forall out,
         fetch_total_tokens_per_team set_iter svc (Ok {| results := days |}) = Ok out ->
         exists out',
           fetch_total_tokens_per_team set_iter svc (Ok {| results := days' |}) = Ok out'
           /\ dict_keys out' = dict_keys out
           /\ forall name t,
               dict_get out name = Some t ->
               exists t',
                 dict_get out' name = Some t'
                 /\ te_total_tokens t' = te_total_tokens t
                 /\ forall key model,
                     key_model_totals (te_api_keys t') key model
                     = key_model_totals (te_api_keys t) key model)
  /\ (forall tmd,
         CostEfficiencyService.aggregate svc {| results := days |} = Ok tmd ->
         exists tmd',
           CostEfficiencyService.aggregate svc {| results := days' |} = Ok tmd'
           /\ forall team model,
               option_map CostEfficiencyService.pt_total_tokens
                          (CostEfficiencySpec.get2 tmd' team model)
               = option_map CostEfficiencyService.pt_total_tokens
                            (CostEfficiencySpec.get2 tmd team model)).
Proof.
  intros Hperm Hdistinct. split; [now apply success_rate_perm |]. split.
  - intros out. now apply team_totals_perm.
  - intros tmd. now apply cost_tokens_perm.
Qed.

End Reordering.

Lemma integer_totals_do_not_depend_on_order_witness :
  Permutation (results spend_days) (results spend_days_reversed)
  /\ forallb distinct_day (results spend_days) = true
  /\ SuccessRateService.fetch_team_success_rate_summary one_team (Ok spend_days_reversed)
     = SuccessRateService.fetch_team_success_rate_summary one_team (Ok spend_days).
Proof.
  split; [apply Permutation_rev |]. split; [reflexivity |].
  exact (proj1 (integer_totals_do_not_depend_on_order
                  (fun keys => keys) (fun l _ => Permutation_refl l) one_team
                  (results spend_days) (results spend_days_reversed)
                  (Permutation_rev _) eq_refl)).
Defined.

(** C1 as the specification words it fails for the cost of a (team, model)
    pair: the same three days, folded in the two orders, leave two different
    cost totals, and the service reports 0.0003 for one and 0.0004 for the
    other. *)
Lemma spend_total_depends_on_order :
  Permutation (results spend_days) (results spend_days_reversed)
  /\ CostEfficiencyService.fetch_cost_efficiency one_team (Ok spend_days)
     = Ok [{| CostEfficiencyService.c_team := "Alpha Team";
              CostEfficiencyService.c_model := "gpt-4";
              CostEfficiencyService.c_cost_per_1k_tokens := 0.001%float;
              CostEfficiencyService.c_total_cost := 0.0003%float;
              CostEfficiencyService.c_total_tokens := 350 |}]
  /\ CostEfficiencyService.fetch_cost_efficiency one_team (Ok spend_days_reversed)
     = Ok [{| CostEfficiencyService.c_team := "Alpha Team";
              CostEfficiencyService.c_model := "gpt-4";
              CostEfficiencyService.c_cost_per_1k_tokens := 0.001%float;
              CostEfficiencyService.c_total_cost := 0.0004%float;
              CostEfficiencyService.c_total_tokens := 350 |}]
  /\ ~ same_pair_totals one_team spend_days spend_days_reversed.
Proof.
  split; [apply Permutation_rev |].
  split; [vm_compute; reflexivity |]. split; [vm_compute; reflexivity |].
  intro H.
  specialize (H [("Alpha Team",
                   [("gpt-4", {| CostEfficiencyService.pt_total_tokens := 350;
                                 CostEfficiencyService.pt_total_cost :=
                                   (0 + 0.00001 + 0.00009 + 0.00025)%float |})])]
                [("Alpha Team",
                   [("gpt-4", {| CostEfficiencyService.pt_total_tokens := 350;
                                 CostEfficiencyService.pt_total_cost :=
                                   (0 + 0.00025 + 0.00009 + 0.00001)%float |})])]
                "Alpha Team" "gpt-4" eq_refl eq_refl).
  apply (f_equal (fun o => match o with
                           | Some p =>
                               PrimFloat.eqb (CostEfficiencyService.pt_total_cost p)
                                             (0 + 0.00001 + 0.00009 + 0.00025)%float
                           | None => false
                           end)) in H.
  vm_compute in H. discriminate H.
Qed.

(** ** The team directory *)

Section TeamDirectory.
Import TeamService.

Lemma team_id_to_name_snoc (teams : list TeamResponse) (t : TeamResponse) (id : string) :
  dict_get (_team_id_to_name (teams ++ [t])) id
  = if String.eqb (team_id t) id then Some (alias_or_id t)
    else dict_get (_team_id_to_name teams) id.
Proof.
  unfold _team_id_to_name. rewrite fold_left_app. simpl. apply dict_get_set.
Qed.

Lemma team_id_to_name_listed (teams : list TeamResponse) (id name : string) :
  dict_get (_team_id_to_name teams) id = Some name ->
  exists t, In t teams /\ team_id t = id /\ name = alias_or_id t.
Proof.
  induction teams as [| t teams IH] using rev_ind; [discriminate |].
  rewrite team_id_to_name_snoc.
  destruct (String.eqb_spec (team_id t) id) as [E | _].
  - intros [= <-]. exists t. split; [apply in_or_app; right; now left | now split].
  - intro H. destruct (IH H) as (t' & Hin & Hid & Hname).
    exists t'. split; [apply in_or_app; now left | now split].
Qed.

Lemma team_id_to_name_unlisted (teams : list TeamResponse) (id : string) :
  ~ In id (map team_id teams) -> dict_get (_team_id_to_name teams) id = None.
Proof.
  intro Hnot. destruct (dict_get (_team_id_to_name teams) id) as [name |] eqn:E;
    [| reflexivity].
  destruct (team_id_to_name_listed _ _ _ E) as (t & Hin & Hid & _).
  exfalso. apply Hnot. rewrite <- Hid. now apply in_map.
Qed.

(** X1. The name of a team id that is not among the fetched teams is the
    id itself. *)
Theorem unknown_team_id_is_its_own_name (teams : list TeamResponse) (id : string) :
  ~ In id (map team_id teams) ->
  get_team_name teams id = id.
Proof.
  intro Hnot. unfold get_team_name.
  now rewrite (team_id_to_name_unlisted _ _ Hnot).
Qed.

(** X2. When several fetched teams carry the same id, the last of them
    gives the name: its alias, or its id when the alias is missing or empty. *)
Theorem last_team_of_an_id_names_it
        (before after : list TeamResponse) (t : TeamResponse) :
  ~ In (team_id t) (map team_id after) ->
  get_team_name (before ++ t :: after) (team_id t) = alias_or_id t.
Proof.
  induction after as [| t' after IH] using rev_ind; intro Hnot.
  - unfold get_team_name. rewrite team_id_to_name_snoc, String.eqb_refl. reflexivity.
  - rewrite map_app, in_app_iff in Hnot. simpl in Hnot.
    unfold get_team_name in *.
    change (before ++ t :: after ++ [t']) with (before ++ (t :: after) ++ [t']).
    rewrite app_assoc, team_id_to_name_snoc.
    destruct (String.eqb_spec (team_id t') (team_id t)) as [E | _].
    + exfalso. apply Hnot. right. now left.
    + apply IH. intro H. apply Hnot. now left.
Qed.

(** X3. A fetched team whose id is not empty never has the empty name. *)
Theorem listed_team_has_a_name (teams : list TeamResponse) (t : TeamResponse) :
  In t teams ->
  team_id t <> EmptyString ->
  get_team_name teams (team_id t) <> EmptyString.
Proof.
  intros Hin Hid. unfold get_team_name.
  destruct (dict_get (_team_id_to_name teams) (team_id t)) as [name |] eqn:E;
    [| exact Hid].
  destruct (team_id_to_name_listed _ _ _ E) as (t' & _ & Hsame & ->).
  unfold alias_or_id. destruct (team_alias t') as [a |].
  - destruct (String.eqb_spec a EmptyString) as [_ | Ha]; [congruence | exact Ha].
  - congruence.
Qed.

End TeamDirectory.

Lemma unknown_team_id_is_its_own_name_witness :
  ~ In "team9" (map team_id [{| team_id := "team1"; team_alias := Some "Alpha Team" |}])
  /\ TeamService.get_team_name
       [{| team_id := "team1"; team_alias := Some "Alpha Team" |}] "team9"
     = "team9".
Proof.
  assert (H : ~ In "team9"
                (map team_id [{| team_id := "team1"; team_alias := Some "Alpha Team" |}])).
  { simpl. intros [E | []]. discriminate E. }
  split; [exact H |].
  exact (unknown_team_id_is_its_own_name _ "team9" H).
Defined.

Lemma last_team_of_an_id_names_it_witness :
  ~ In "team1" (map team_id [{| team_id := "team2"; team_alias := None |}])
  /\ TeamService.get_team_name
       ([{| team_id := "team1"; team_alias := Some "Old Name" |}]
          ++ {| team_id := "team1"; team_alias := Some "" |}
          :: [{| team_id := "team2"; team_alias := None |}])
       "team1"
     = "team1".
Proof.
  assert (H : ~ In "team1" (map team_id [{| team_id := "team2"; team_alias := None |}])).
  { simpl. intros [E | []]. discriminate E. }
  split; [exact H |].
  exact (last_team_of_an_id_names_it
           [{| team_id := "team1"; team_alias := Some "Old Name" |}]
           [{| team_id := "team2"; team_alias := None |}]
           {| team_id := "team1"; team_alias := Some "" |} H).
Defined.

Lemma listed_team_has_a_name_witness :
  In {| team_id := "team1"; team_alias := Some "" |}
     [{| team_id := "team1"; team_alias := Some "" |}]
  /\ TeamService.get_team_name
       [{| team_id := "team1"; team_alias := Some "" |}] "team1" <> EmptyString.
Proof.
  split; [now left |].
  apply (listed_team_has_a_name
           [{| team_id := "team1"; team_alias := Some "" |}]
           {| team_id := "team1"; team_alias := Some "" |}).
  - now left.
  - discriminate.
Defined.

(** ** The handler of a failed fetch *)

Lemma split_without_separator (sep s : string) :
  occurs sep s = false -> py_split1 sep s = [s].
Proof.
  induction s as [| c s IH]; intro H.
  - destruct sep; [discriminate H | reflexivity].
  - cbn [occurs] in H. cbn [py_split1].
    destruct (String.prefix sep (String c s)); [discriminate H |].
    now rewrite (IH H).
Qed.

Lemma prefix_separator (c : ascii) (s : string) :
  String.prefix ": " (String c s)
  = if ascii_dec ":" c
    then match s with
         | String d _ => if ascii_dec " " d then true else false
         | EmptyString => false
         end
    else false.
Proof.
  cbn [String.prefix]. destruct (ascii_dec ":" c); [| reflexivity].
  destruct s as [| d s]; [reflexivity |].
  cbn [String.prefix]. destruct (ascii_dec " " d); [| reflexivity].
  destruct s; reflexivity.
Qed.

Lemma split_at_first_separator (a b : string) :
  occurs ": " a = false -> py_split1 ": " (a ++ ": " ++ b) = [a; b].
Proof.
  induction a as [| c a IH].
  - intros _. simpl. destruct b; reflexivity.
  - intro H. cbn [occurs] in H. rewrite prefix_separator in H.
    cbn [append py_split1]. rewrite prefix_separator.
    assert (Hp : (if ascii_dec ":" c
                  then match (a ++ String ":" (String " " b))%string with
                       | String d _ => if ascii_dec " " d then true else false
                       | EmptyString => false
                       end
                  else false) = false).
    { destruct (ascii_dec ":" c); [| reflexivity].
      destruct a as [| d a]; cbn [append].
      - destruct (ascii_dec " " ":") as [E | _]; [discriminate E | reflexivity].
      - destruct (ascii_dec " " d); [discriminate H | reflexivity]. }
    cbn [append] in Hp |- *. rewrite Hp.
    assert (Ha : occurs ": " a = false).
    { destruct (ascii_dec ":" c); [| exact H].
      destruct a as [| d a]; [exact H |].
      destruct (ascii_dec " " d); [discriminate H | exact H]. }
    specialize (IH Ha). cbn [append] in IH. rewrite IH. reflexivity.
Qed.

Section FailedFetch.
Import TokenAggregationService TimeSeriesService SuccessRateService
       CostEfficiencyService.

Variable set_iter : list string -> list string.
Variable svc : TeamServiceProtocol.

(** X4. A [RuntimeError] of the fetch whose message is [a ++ ": " ++ b],
    with no [": "] inside [a], leaves the four services that call the client
    themselves as a [RuntimeError] made of the service's own prefix and of
    [b]: whatever stands before the first [": "] is dropped, and a [": "]
    inside [b] stays. *)
Theorem text_before_first_separator_is_replaced (a b : string) :
  occurs ": " a = false ->
  fetch_total_tokens_per_team set_iter svc (Err (RuntimeError (a ++ ": " ++ b)))
  = Err (RuntimeError ("Error fetching team token usage: " ++ b))
  /\ fetch_daily_timeseries_per_team svc (Err (RuntimeError (a ++ ": " ++ b)))
     = Err (RuntimeError ("Error fetching team token usage: " ++ b))
  /\ fetch_team_success_rate_summary svc (Err (RuntimeError (a ++ ": " ++ b)))
     = Err (RuntimeError ("Error fetching team token usage: " ++ b))
  /\ fetch_cost_efficiency svc (Err (RuntimeError (a ++ ": " ++ b)))
     = Err (RuntimeError ("Error fetching team data: " ++ b)).
Proof.
  intro H.
  unfold fetch_total_tokens_per_team, fetch_daily_timeseries_per_team,
    fetch_team_success_rate_summary, fetch_cost_efficiency, reraise.
  rewrite (split_at_first_separator a b H). simpl. repeat split.
Qed.

(** X5. A [RuntimeError] of the fetch whose message holds no [": "] leaves
    the same four services as an [IndexError]: the handler indexes the
    second part of a split that has only one. *)
Theorem message_without_separator_raises_index_error (msg : string) :
  occurs ": " msg = false ->
  fetch_total_tokens_per_team set_iter svc (Err (RuntimeError msg)) = Err IndexError
  /\ fetch_daily_timeseries_per_team svc (Err (RuntimeError msg)) = Err IndexError
  /\ fetch_team_success_rate_summary svc (Err (RuntimeError msg)) = Err IndexError
  /\ fetch_cost_efficiency svc (Err (RuntimeError msg)) = Err IndexError.
Proof.
  intro H.
  unfold fetch_total_tokens_per_team, fetch_daily_timeseries_per_team,
    fetch_team_success_rate_summary, fetch_cost_efficiency, reraise.
  rewrite (split_without_separator ": " msg H). simpl. repeat split.
Qed.

End FailedFetch.

Lemma text_before_first_separator_is_replaced_witness :
  occurs ": " "Error fetching activity for team1" = false
  /\ TimeSeriesService.fetch_daily_timeseries_per_team one_team
       (Err (RuntimeError
               ("Error fetching activity for team1" ++ ": " ++ "HTTP 503: busy")))
     = Err (RuntimeError "Error fetching team token usage: HTTP 503: busy").
Proof.
  split; [reflexivity |].
  exact (proj1 (proj2 (text_before_first_separator_is_replaced
                         (fun keys => keys) one_team
                         "Error fetching activity for team1" "HTTP 503: busy"
                         eq_refl))).
Defined.

Lemma message_without_separator_raises_index_error_witness :
  occurs ": " "Unexpected response from /team/daily/activity." = false
  /\ CostEfficiencyService.fetch_cost_efficiency one_team
       (Err (RuntimeError "Unexpected response from /team/daily/activity."))
     = Err IndexError.
Proof.
  split; [reflexivity |].
  exact (proj2 (proj2 (proj2 (message_without_separator_raises_index_error
                                (fun keys => keys) one_team
                                "Unexpected response from /team/daily/activity."
                                eq_refl)))).
Defined.

(** ** When the services raise on a fetched document *)

Lemma forallb_false_in (A : Type) (p : A -> bool) (l : list A) (x : A) :
  In x l -> p x = false -> forallb p l = false.
Proof.
  intros Hin Hp. destruct (forallb p l) eqn:E; [| reflexivity].
  rewrite forallb_forall in E. rewrite (E x Hin) in Hp. discriminate Hp.
Qed.

Lemma forallb_false_exists (A : Type) (p : A -> bool) (l : list A) :
  forallb p l = false -> exists x, In x l /\ p x = false.
Proof.
  induction l as [| a l IH]; simpl; [discriminate |].
  destruct (p a) eqn:E; simpl.
  - intro H. destruct (IH H) as (x & Hin & Hx). exists x. split; [now right | exact Hx].
  - intros _. exists a. split; [now left | exact E].
Qed.

Section RaisingDays.

Variable set_iter : list string -> list string.
Variable svc : TeamServiceProtocol.
Variable get_display_name : string -> string.

(** X6. One day without breakdown, anywhere in the document, is enough for
    four services not to answer: the success-rate and the model-usage
    service raise [AttributeError], the team-totals and the cost-efficiency
    service raise as well. *)
Theorem day_without_breakdown_stops_four_services
        (data : SpendAnalyticsPaginatedResponse) (entry : DailySpendData) :
  In entry (results data) ->
  breakdown entry = None ->
  SuccessRateService.fetch_team_success_rate_summary svc (Ok data)
  = Err AttributeError
  /\ ModelUsageService.fetch_model_usage get_display_name (Ok data)
     = Err AttributeError
  /\ is_ok (TokenAggregationService.fetch_total_tokens_per_team set_iter svc (Ok data))
     = false
  /\ is_ok (CostEfficiencyService.fetch_cost_efficiency svc (Ok data)) = false.
Proof.
  intros Hin Hnone. split; [| split; [| split]].
  - unfold SuccessRateService.fetch_team_success_rate_summary.
    rewrite aggregate_closed_form.
    rewrite (forallb_false_in _ _ _ entry Hin); [reflexivity |].
    unfold SuccessRateSpec.day_ok. now rewrite Hnone.
  - rewrite fetch_model_usage_closed_form.
    rewrite (forallb_false_in _ _ _ entry Hin); [reflexivity |].
    unfold ModelUsageSpec.has_models. now rewrite Hnone.
  - rewrite team_totals_ok. apply (forallb_false_in _ _ _ entry Hin).
    unfold TeamTotalsFold.day_ok, TokenAggregationService.add_entry.
    now rewrite Hnone.
  - unfold CostEfficiencyService.fetch_cost_efficiency.
    pose proof (cost_aggregate_ok svc data) as Hok.
    rewrite (forallb_false_in _ _ _ entry Hin) in Hok.
    + destruct (CostEfficiencyService.aggregate svc data); [discriminate Hok | reflexivity].
    + unfold CostEfficiencySpec.day_ok, CostEfficiencyService.add_entry.
      now rewrite Hnone.
Qed.

(** X7. The time-series service raises on a fetched document in one case
    only: some day has a breakdown whose [entities] map is missing while at
    least one team is requested; the exception is then [AttributeError].  A
    day without breakdown never makes it raise. *)
Theorem timeseries_raises_only_on_missing_entities
        (data : SpendAnalyticsPaginatedResponse) (e : exn) :
  TimeSeriesService.fetch_daily_timeseries_per_team svc (Ok data) = Err e ->
  e = AttributeError
  /\ get_team_ids svc <> []
  /\ exists entry b,
      In entry (results data) /\ breakdown entry = Some b /\ entities b = None.
Proof.
  unfold TimeSeriesService.fetch_daily_timeseries_per_team.
  rewrite daily_timeseries_closed_form.
  destruct (forallb (TimeSeriesSpec.day_ok svc) (results data)) eqn:E; [discriminate |].
  intros [= <-]. split; [reflexivity |].
  destruct (forallb_false_exists _ _ _ E) as (entry & Hin & Hbad).
  unfold TimeSeriesSpec.day_ok, TimeSeriesService.entities_of in Hbad.
  destruct (breakdown entry) as [b |] eqn:Hb; [| discriminate Hbad].
  destruct (entities b) eqn:He; [discriminate Hbad |].
  destruct (get_team_ids svc); [discriminate Hbad |].
  split; [discriminate |]. exists entry, b. now repeat split.
Qed.

End RaisingDays.

Lemma day_without_breakdown_stops_four_services_witness :
  In day_without_breakdown (results document_without_breakdown)
  /\ breakdown day_without_breakdown = None
  /\ SuccessRateService.fetch_team_success_rate_summary
       one_team (Ok document_without_breakdown)
     = Err AttributeError.
Proof.
  split; [now left |]. split; [reflexivity |].
  exact (proj1 (day_without_breakdown_stops_four_services
                  (fun keys => keys) one_team (fun name => name)
                  document_without_breakdown day_without_breakdown
                  (or_introl eq_refl) eq_refl)).
Defined.

Lemma timeseries_raises_only_on_missing_entities_witness :
  TimeSeriesService.fetch_daily_timeseries_per_team one_team (Ok model_days)
  = Err AttributeError
  /\ exists entry b,
      In entry (results model_days) /\ breakdown entry = Some b /\ entities b = None.
Proof.
  split; [reflexivity |].
  exact (proj2 (proj2 (timeseries_raises_only_on_missing_entities
                         one_team model_days AttributeError eq_refl))).
Defined.

(** ** Shape of a merged breakdown *)

Section MergeShape.
Import TokenAggregationService TeamTotalsSpec.

Lemma update_last_names (A : Type) (key : A -> string) (p : A -> bool) (f : A -> A)
      (l : list A) :
  (forall a, key (f a) = key a) ->
  map key (update_last p f l) = map key l.
Proof.
  intro Hf. induction l as [| a l IH]; simpl; [reflexivity |].
  destruct (existsb p l); simpl; [now rewrite IH |].
  destruct (p a); simpl; [now rewrite Hf | reflexivity].
Qed.

Lemma update_last_Forall (A : Type) (P : A -> Prop) (p : A -> bool) (f : A -> A)
      (l : list A) :
  (forall a, P a -> P (f a)) -> Forall P l -> Forall P (update_last p f l).
Proof.
  intros Hf H. induction H as [| a l Ha Hl IH]; simpl; [constructor |].
  destruct (existsb p l); [now constructor |].
  destruct (p a); constructor; auto.
Qed.

Lemma existsb_has (A : Type) (key : A -> string) (k : string) (l : list A) :
  existsb (fun a => String.eqb (key a) k) l = existsb (String.eqb k) (map key l).
Proof.
  induction l as [| a l IH]; simpl; [reflexivity |].
  now rewrite IH, (String.eqb_sym (key a) k).
Qed.

Lemma merge_models_names (existing current source : list model_entry) :
  map model_name (fold_left (merge_model existing) source current)
  = map model_name current
    ++ new_names (map model_name existing) (map model_name source).
Proof.
  revert current. induction source as [| m source IH]; intro current; simpl.
  - now rewrite app_nil_r.
  - rewrite IH. unfold merge_model, has_name.
    rewrite (existsb_has _ model_name).
    destruct (existsb (String.eqb (model_name m)) (map model_name existing)); simpl.
    + now rewrite update_last_names.
    + now rewrite map_app, <- app_assoc.
Qed.

Lemma merge_keys_names (existing current source : list key_entry) :
  map api_key (fold_left (merge_key existing) source current)
  = map api_key current ++ new_names (map api_key existing) (map api_key source).
Proof.
  revert current. induction source as [| k source IH]; intro current; simpl.
  - now rewrite app_nil_r.
  - rewrite IH. unfold merge_key, has_key.
    rewrite (existsb_has _ api_key).
    destruct (existsb (String.eqb (api_key k)) (map api_key existing)); simpl.
    + now rewrite update_last_names.
    + now rewrite map_app, <- app_assoc.
Qed.

(** X8. Merging never drops or reorders what the target holds: the API
    keys of the merged breakdown are those of the target, in their order,
    followed by the keys of the source that the target did not hold, in the
    order of the source; and the model names under one key are merged in the
    same way. *)
Theorem merge_keeps_order_and_appends (target source : list key_entry)
        (models source_models : list model_entry) :
  map api_key (_merge_breakdown target source)
  = map api_key target ++ new_names (map api_key target) (map api_key source)
  /\ map model_name (merge_models models source_models)
     = map model_name models
       ++ new_names (map model_name models) (map model_name source_models).
Proof.
  split; [apply merge_keys_names | apply merge_models_names].
Qed.

Lemma merge_into_nothing (current source : list key_entry) :
  fold_left (merge_key []) source current = current ++ source.
Proof.
  revert current. induction source as [| k source IH]; intro current; simpl.
  - now rewrite app_nil_r.
  - rewrite IH. unfold merge_key. simpl. rewrite <- app_assoc. reflexivity.
Qed.

(** X9. The empty breakdown is neutral for the merge: merging an empty
    source changes nothing, and merging into an empty target yields the
    source as it is, repeated keys included. *)
Theorem merge_with_empty_breakdown (breakdown : list key_entry) :
  _merge_breakdown breakdown [] = breakdown
  /\ _merge_breakdown [] breakdown = breakdown.
Proof.
  split; [reflexivity |]. unfold _merge_breakdown. apply merge_into_nothing.
Qed.

(** X10. The merge adds token counts pair by pair.  For a target and a
    source with distinct API keys and distinct model names under each key,
    the counts that the merged breakdown holds for a pair (api_key,
    model_name) are the sums of the counts of the two sides; a pair that only
    one side has keeps the counts of that side; and the merged breakdown has
    distinct keys and model names again. *)
Theorem merge_adds_token_counts (target source : list key_entry) :
  well_keyed target ->
  well_keyed source ->
  well_keyed (_merge_breakdown target source)
  /\ forall key model,
      key_model_totals (_merge_breakdown target source) key model
      = match key_model_totals target key model,
              key_model_totals source key model with
        | Some (t, p, c), Some (t', p', c') => Some (t + t', p + p', c + c')
        | Some counts, None => Some counts
        | None, counts => counts
        end.
Proof.
  intros Ht Hs. destruct (merge_breakdown_totals target source Ht Hs) as [Hw Hsum].
  split; [exact Hw |]. intros key model. rewrite Hsum.
  unfold plus, add_counts.
  destruct (key_model_totals target key model) as [[[t p] c] |],
           (key_model_totals source key model) as [[[t' p'] c'] |]; reflexivity.
Qed.

End MergeShape.

Lemma merge_adds_token_counts_witness :
  TeamTotalsSpec.well_keyed
    (TokenAggregationService.te_api_keys (two_days_of_key None))
  /\ TeamTotalsSpec.key_model_totals
       (TokenAggregationService._merge_breakdown
          (TokenAggregationService.te_api_keys (two_days_of_key None))
          (TokenAggregationService.te_api_keys (two_days_of_key None)))
       "key1" "gpt-4"
     = Some (4000, 2400, 1600).
Proof.
  assert (H : TeamTotalsSpec.well_keyed
                (TokenAggregationService.te_api_keys (two_days_of_key None))).
  { split.
    - apply distinctb_NoDup. reflexivity.
    - intros e [<- | []]. apply distinctb_NoDup. reflexivity. }
  split; [exact H |].
  exact (proj2 (merge_adds_token_counts _ _ H H) "key1" "gpt-4").
Defined.

(** ** What the extraction of one entity yields *)

Section ExtractClosedForm.
Import TokenAggregationService TeamTotalsSpec ExtractSpec.

Variable set_iter : list string -> list string.
Hypothesis set_iter_perm : forall l, NoDup l -> Permutation (set_iter l) l.

Lemma dict_update_same (V : Type) (d : dict V) (k : string) (f : V -> V) :
  (forall v, f v = v) -> dict_update d k f = d.
Proof.
  intro Hf. induction d as [| [k' v] d IH]; simpl; [reflexivity |].
  destruct (String.eqb k' k); [now rewrite Hf | now rewrite IH].
Qed.

Lemma filter_one_name (keys : list string) (k : string) :
  NoDup keys ->
  filter (fun a => String.eqb a k) keys
  = if existsb (String.eqb k) keys then [k] else [].
Proof.
  intro Hnd. induction Hnd as [| a keys Hnot Hnd IH]; simpl; [reflexivity |].
  rewrite (String.eqb_sym k a).
  destruct (String.eqb_spec a k) as [-> | Hne]; simpl.
  - rewrite IH. destruct (existsb (String.eqb k) keys) eqn:E; [| reflexivity].
    exfalso. apply Hnot. apply existsb_exists in E. destruct E as (x & Hin & Hx).
    apply String.eqb_eq in Hx. now subst.
  - exact IH.
Qed.

Lemma visit_keys_closed (model : string) (d : dict KeyMetricWithMetadata)
      (keys : list string) (akm : dict (list model_entry)) :
  for_each (visit_key model (Some d)) keys akm
  = Ok (fold_left (fun akm key => dict_update akm key
                                    (fun l => l ++ key_models model d key))
                  keys akm).
Proof.
  apply for_each_pure. intros s key _. unfold visit_key, key_models. simpl.
  destruct (dict_get d key); [reflexivity |].
  rewrite dict_update_same; [reflexivity | intro v; apply app_nil_r].
Qed.

Lemma gathered_cons (item : string * MetricWithMetadata)
      (models : dict MetricWithMetadata) (key : string) :
  gathered (item :: models) key
  = match api_key_breakdown (snd item) with
    | Some d => key_models (fst item) d key
    | None => []
    end ++ gathered models key.
Proof. reflexivity. Qed.

Lemma visit_models_closed (keys : list string) (models : dict MetricWithMetadata)
      (akm akm' : dict (list model_entry)) :
  NoDup keys ->
  for_each (visit_model keys) models akm = Ok akm' ->
  dict_keys akm' = dict_keys akm
  /\ forall k,
      dict_get akm' k
      = option_map
          (fun l => l ++ if existsb (String.eqb k) keys then gathered models k else [])
          (dict_get akm k).
Proof.
  intro Hnd. revert akm. induction models as [| [name md] models IH]; intros akm Hrun.
  - injection Hrun as <-. split; [reflexivity |]. intro k.
    destruct (dict_get akm k); simpl; [| reflexivity].
    destruct (existsb (String.eqb k) keys); now rewrite app_nil_r.
  - change (for_each (visit_model keys) ((name, md) :: models) akm)
      with (s' <- visit_model keys akm (name, md) ;;
            for_each (visit_model keys) models s') in Hrun.
    destruct (visit_model keys akm (name, md)) as [akm1 | e] eqn:E1;
      [| discriminate Hrun].
    simpl bind in Hrun. destruct (IH akm1 Hrun) as [Hkeys Hget]. clear IH Hrun.
    unfold visit_model in E1.
    assert (Hstep : dict_keys akm1 = dict_keys akm
                    /\ forall k,
                        dict_get akm1 k
                        = option_map
                            (fun l => l ++ if existsb (String.eqb k) keys
                                           then match api_key_breakdown md with
                                                | Some d => key_models name d k
                                                | None => []
                                                end
                                           else [])
                            (dict_get akm k)).
    { destruct (api_key_breakdown md) as [d |].
      - rewrite visit_keys_closed in E1. injection E1 as <-.
        split; [apply keys_of_updates |]. intro k.
        rewrite (values_of_updates _ _ (fun key => key)
                   (fun key l => l ++ key_models name d key)).
        rewrite (filter_one_name keys k Hnd).
        destruct (dict_get akm k); simpl; [| reflexivity].
        destruct (existsb (String.eqb k) keys); simpl; [reflexivity |].
        now rewrite app_nil_r.
      - destruct keys as [| key keys]; [| discriminate E1].
        injection E1 as <-. split; [reflexivity |]. intro k.
        destruct (dict_get akm k); simpl; [| reflexivity]. now rewrite app_nil_r. }
    destruct Hstep as [Hkeys1 Hget1]. split; [congruence |]. intro k.
    rewrite Hget, Hget1, gathered_cons. simpl snd. simpl fst.
    destruct (dict_get akm k); simpl; [| reflexivity].
    destruct (existsb (String.eqb k) keys); rewrite <- app_assoc; reflexivity.
Qed.

Lemma dict_get_constant (V : Type) (v0 : V) (keys : list string) (k : string) :
  In k keys -> dict_get (map (fun key => (key, v0)) keys) k = Some v0.
Proof.
  induction keys as [| a keys IH]; simpl; [intros [] |].
  destruct (String.eqb_spec a k) as [_ | Hne]; [reflexivity |].
  intros [E | Hin]; [contradiction | now apply IH].
Qed.

Lemma extract_breakdown_closed_form
      (entity : MetricWithMetadata) (top : BreakdownMetrics)
      (out : list key_entry) :
  (forall keys, api_key_breakdown entity = Some keys -> NoDup (dict_keys keys)) ->
  _extract_breakdown set_iter entity top = Ok out ->
  exists keys models,
    api_key_breakdown entity = Some keys
    /\ model_groups top = Some models
    /\ out = map (fun key => entry_of keys top (key, gathered models key))
                 (set_iter (dict_keys keys)).
Proof.
  intros Hdistinct Hrun. unfold _extract_breakdown in Hrun.
  destruct (api_key_breakdown entity) as [keys |] eqn:Hkeys; [| discriminate Hrun].
  simpl in Hrun.
  destruct (model_groups top) as [models |] eqn:Hmodels; [| discriminate Hrun].
  simpl in Hrun.
  assert (Hnd : NoDup (set_iter (dict_keys keys))).
  { apply (Permutation_NoDup (Permutation_sym (set_iter_perm _ (Hdistinct _ eq_refl)))).
    now apply Hdistinct. }
  rewrite (comprehension_of_distinct _ [] (set_iter (dict_keys keys)) []) in Hrun
    by exact Hnd.
  simpl app in Hrun.
  destruct (for_each (visit_model (set_iter (dict_keys keys))) models _)
    as [akm | e] eqn:Hvisit; [| discriminate Hrun].
  simpl in Hrun. apply build_keys_spec in Hrun. simpl in Hrun.
  exists keys, models. split; [reflexivity |]. split; [reflexivity |].
  destruct (visit_models_closed _ _ _ _ Hnd Hvisit) as [Hk Hget].
  rewrite (dict_ext _ akm (set_iter (dict_keys keys)) (gathered models)) in Hrun.
  - now rewrite map_map in Hrun.
  - rewrite Hk. unfold dict_keys. rewrite map_map. simpl. apply map_id.
  - exact Hnd.
  - intros k Hin. rewrite Hget, (dict_get_constant _ [] _ _ Hin). simpl.
    replace (existsb (String.eqb k) (set_iter (dict_keys keys))) with true;
      [reflexivity |].
    symmetry. apply existsb_exists. exists k. split; [exact Hin | apply String.eqb_refl].
Qed.

(** X11. What [_extract_breakdown] yields for an entity whose API keys are
    distinct: one entry per API key of the entity, in the order in which the
    set of keys is iterated.  The entry of a key carries the key's alias of
    that day and the models gathered for the key: one per model group whose
    key breakdown lists the key, in the order of the model groups, with the
    key's token counts in that group; and, for a key that no model group
    lists, the single model ["All Models"] with the key's token counts in
    the entity's own key breakdown.  An extraction that does not raise found
    both the entity's key breakdown and the [model_groups] map. *)
Theorem extracted_breakdown_lists_every_key
        (entity : MetricWithMetadata) (top : BreakdownMetrics)
        (out : list key_entry) :
  (forall keys, api_key_breakdown entity = Some keys -> NoDup (dict_keys keys)) ->
  _extract_breakdown set_iter entity top = Ok out ->
  exists keys models,
    api_key_breakdown entity = Some keys
    /\ model_groups top = Some models
    /\ out = map (fun key => entry_of keys top (key, gathered models key))
                 (set_iter (dict_keys keys)).
Proof. exact (extract_breakdown_closed_form entity top out). Qed.

End ExtractClosedForm.

Lemma extracted_breakdown_lists_every_key_witness :
  TokenAggregationService._extract_breakdown
    (fun keys => keys) two_key_entity one_model_breakdown
  = Ok [{| TokenAggregationService.api_key := "key1";
           TokenAggregationService.key_alias := Some (JStr "DevBoost Key");
           TokenAggregationService.ke_models :=
             [{| TokenAggregationService.model_name := "gpt-4";
                 TokenAggregationService.me_total_tokens := 1000;
                 TokenAggregationService.me_prompt_tokens := 600;
                 TokenAggregationService.me_completion_tokens := 400 |}] |};
        {| TokenAggregationService.api_key := "key2";
           TokenAggregationService.key_alias := None;
           TokenAggregationService.ke_models :=
             [{| TokenAggregationService.model_name := "All Models";
                 TokenAggregationService.me_total_tokens := 500;
                 TokenAggregationService.me_prompt_tokens := 300;
                 TokenAggregationService.me_completion_tokens := 200 |}] |}]
  /\ exists keys models,
      api_key_breakdown two_key_entity = Some keys
      /\ model_groups one_model_breakdown = Some models
      /\ gathered models "key2" = [].
Proof.
  split; [reflexivity |].
  destruct (extracted_breakdown_lists_every_key
              (fun keys => keys) (fun l _ => Permutation_refl l)
              two_key_entity one_model_breakdown _
              (fun keys H => distinctb_NoDup (dict_keys keys)
                               (match H in _ = o
                                      return match o with
                                             | Some ks => distinctb (dict_keys ks) = true
                                             | None => True
                                             end
                                with eq_refl => eq_refl end))
              eq_refl)
    as (keys & models & Hk & Hm & _).
  exists keys, models. split; [exact Hk |]. split; [exact Hm |].
  injection Hm as <-. reflexivity.
Defined.

(** ** Shape of the breakdown in the team-totals answer *)

Section AnswerShape.
Import TokenAggregationService TeamTotalsSpec TeamTotalsFold ExtractSpec.
Import AliasSpec SourcesSpec.

Variable set_iter : list string -> list string.
Variable svc : TeamServiceProtocol.

Lemma extract_lists_models (entity : MetricWithMetadata) (top : BreakdownMetrics)
      (out : list key_entry) :
  _extract_breakdown set_iter entity top = Ok out -> Forall lists_a_model out.
Proof.
  unfold _extract_breakdown.
  destruct (api_key_breakdown entity) as [keys |]; [| discriminate]. simpl.
  destruct (model_groups top) as [models |]; [| discriminate]. simpl.
  destruct (for_each _ models _) as [akm | e]; [| discriminate]. simpl.
  intro Hrun. apply build_keys_spec in Hrun. subst out. simpl.
  apply Forall_forall. intros e Hin. apply in_map_iff in Hin.
  destruct Hin as (item & <- & _). unfold lists_a_model, entry_of. simpl.
  destruct (snd item); discriminate.
Qed.

Lemma source_lists_models (top : BreakdownMetrics) (entity : MetricWithMetadata) :
  Forall lists_a_model (snd (source_of set_iter top entity)).
Proof.
  unfold source_of. simpl.
  destruct (_extract_breakdown set_iter entity top) eqn:E; [| constructor].
  exact (extract_lists_models _ _ _ E).
Qed.

Lemma merge_models_not_nil (models source_models : list model_entry) :
  models <> [] -> merge_models models source_models <> [].
Proof.
  intros Hne Hnil.
  pose proof (merge_models_names models models source_models) as Hnames.
  fold (merge_models models source_models) in Hnames. rewrite Hnil in Hnames.
  destruct models; [now apply Hne | discriminate Hnames].
Qed.

Lemma merge_lists_models (target source : list key_entry) :
  Forall lists_a_model target -> Forall lists_a_model source ->
  Forall lists_a_model (_merge_breakdown target source).
Proof.
  intros Ht Hs. unfold _merge_breakdown.
  assert (H : forall current,
             Forall lists_a_model current ->
             Forall lists_a_model (fold_left (merge_key target) source current)).
  { induction Hs as [| k source Hk Hs IH]; intros current Hc; simpl; [exact Hc |].
    apply IH. unfold merge_key.
    destruct (existsb (has_key (api_key k)) target).
    - apply update_last_Forall; [| exact Hc].
      intros a Ha. unfold lists_a_model in *. simpl.
      now apply merge_models_not_nil.
    - apply Forall_app. split; [exact Hc | now constructor]. }
  now apply H.
Qed.

Lemma merge_all_list_models (sources : list (list key_entry)) (target : list key_entry) :
  Forall lists_a_model target -> Forall (Forall lists_a_model) sources ->
  Forall lists_a_model (fold_left _merge_breakdown sources target).
Proof.
  intros Ht Hs. revert target Ht.
  induction Hs as [| s sources Hs _ IH]; intros target Ht; simpl; [exact Ht |].
  apply IH. now apply merge_lists_models.
Qed.

(** X12. In the answer of the team-totals service every API key that a
    team's breakdown lists has at least one model entry, whatever the
    document. *)
Theorem every_listed_key_has_a_model
        (data : SpendAnalyticsPaginatedResponse) (out : dict team_entry)
        (name : string) (t : team_entry) :
  fetch_total_tokens_per_team set_iter svc (Ok data) = Ok out ->
  dict_get out name = Some t ->
  Forall (fun k => ke_models k <> []) (te_api_keys t).
Proof.
  intros Hrun Ht.
  destruct (team_totals_spec set_iter svc data out Hrun) as [Hkeys Hget].
  assert (Hname : In name (display_names svc)).
  { rewrite <- Hkeys. apply dict_mem_keys. unfold dict_mem. now rewrite Ht. }
  rewrite (Hget name Hname) in Ht. injection Ht as <-.
  rewrite (proj2 (add_sources_totals _ _)). simpl te_api_keys.
  apply (merge_all_list_models _ []); [constructor |].
  rewrite sources_of_team_entities, map_map.
  apply Forall_forall. intros s Hin. apply in_map_iff in Hin.
  destruct Hin as (be & <- & _). apply source_lists_models.
Qed.

Hypothesis set_iter_perm : forall l, NoDup l -> Permutation (set_iter l) l.

(** X13. When the dictionaries of the document have distinct keys, the
    breakdown of every team in the answer of the team-totals service lists
    every API key once and, under each key, every model name once, however
    many days and entities were merged into it. *)
Theorem answer_lists_keys_and_models_once
        (data : SpendAnalyticsPaginatedResponse) (out : dict team_entry)
        (name : string) (t : team_entry) :
  fetch_total_tokens_per_team set_iter svc (Ok data) = Ok out ->
  forallb distinct_day (results data) = true ->
  dict_get out name = Some t ->
  NoDup (map api_key (te_api_keys t))
  /\ forall k, In k (te_api_keys t) -> NoDup (map model_name (ke_models k)).
Proof.
  intros Hrun Hdistinct Ht.
  destruct (team_totals_spec set_iter svc data out Hrun) as [Hkeys Hget].
  assert (Hname : In name (display_names svc)).
  { rewrite <- Hkeys. apply dict_mem_keys. unfold dict_mem. now rewrite Ht. }
  rewrite (Hget name Hname) in Ht. injection Ht as <-.
  rewrite (proj2 (add_sources_totals _ _)). simpl te_api_keys.
  pose proof (team_entities_extractable set_iter svc data out name
                Hrun Hdistinct Hname) as Hgood.
  rewrite sources_of_team_entities, map_map.
  exact (proj1 (merge_all_totals _ [] well_keyed_nil
                  (extractable_well_keyed set_iter set_iter_perm _ Hgood))).
Qed.

End AnswerShape.

Lemma every_listed_key_has_a_model_witness :
  TokenAggregationService.fetch_total_tokens_per_team
    (fun keys => keys) one_team (Ok alias_on_first_day)
  = Ok [("Alpha Team", two_days_of_key (Some (JStr "DevBoost Key")))]
  /\ Forall (fun k => TokenAggregationService.ke_models k <> [])
            (TokenAggregationService.te_api_keys
               (two_days_of_key (Some (JStr "DevBoost Key")))).
Proof.
  split; [reflexivity |].
  exact (every_listed_key_has_a_model
           (fun keys => keys) one_team alias_on_first_day _ "Alpha Team" _
           eq_refl eq_refl).
Defined.

Lemma answer_lists_keys_and_models_once_witness :
  forallb distinct_day (results alias_on_first_day) = true
  /\ NoDup (map TokenAggregationService.api_key
                (TokenAggregationService.te_api_keys
                   (two_days_of_key (Some (JStr "DevBoost Key"))))).
Proof.
  split; [reflexivity |].
  exact (proj1 (answer_lists_keys_and_models_once
                  (fun keys => keys) one_team (fun l _ => Permutation_refl l)
                  alias_on_first_day _ "Alpha Team" _
                  eq_refl eq_refl eq_refl)).
Defined.

(** ** The cells of the cost-efficiency answer *)

Section CostCells.
Import CostEfficiencyService CostEfficiencySpec.

Variable svc : TeamServiceProtocol.

Lemma Forall2_in_right (A B : Type) (R : A -> B -> Prop) (l : list A) (l' : list B)
      (b : B) :
  Forall2 R l l' -> In b l' -> exists a, In a l /\ R a b.
Proof.
  induction 1 as [| a b' l l' Hab _ IH]; intros Hin; [destruct Hin |].
  destruct Hin as [<- | Hin].
  - exists a. split; [now left | exact Hab].
  - destruct (IH Hin) as (a' & Ha' & HR). exists a'. split; [now right | exact HR].
Qed.

Lemma Forall2_in_left (A B : Type) (R : A -> B -> Prop) (l : list A) (l' : list B)
      (a : A) :
  Forall2 R l l' -> In a l -> exists b, In b l' /\ R a b.
Proof.
  induction 1 as [| a' b l l' Hab _ IH]; intros Hin; [destruct Hin |].
  destruct Hin as [<- | Hin].
  - exists b. split; [now left | exact Hab].
  - destruct (IH Hin) as (b' & Hb' & HR). exists b'. split; [now right | exact HR].
Qed.

Lemma Forall2_map_eq (A B C : Type) (f : A -> C) (g : B -> C)
      (l : list A) (l' : list B) :
  Forall2 (fun a b => g b = f a) l l' -> map g l' = map f l.
Proof. induction 1; simpl; congruence. Qed.

Lemma in_pairs (tmd : dict (dict pair_totals)) (team model : string) (p : pair_totals) :
  In (team, (model, p)) (pairs tmd)
  <-> exists models, In (team, models) tmd /\ In (model, p) models.
Proof.
  unfold pairs. rewrite in_flat_map. split.
  - intros ([team' models] & Hin & Hp). apply in_map_iff in Hp.
    destruct Hp as (item & [= <- <-] & Hitem). now exists models.
  - intros (models & Hin & Hp). exists (team, models). split; [exact Hin |].
    apply in_map_iff. now exists (model, p).
Qed.

Lemma get2_in_pairs (tmd : dict (dict pair_totals)) (team model : string)
      (p : pair_totals) :
  get2 tmd team model = Some p -> In (team, (model, p)) (pairs tmd).
Proof.
  unfold get2. destruct (dict_get tmd team) as [models |] eqn:E; [| discriminate].
  intro H. apply in_pairs. exists models.
  split; now apply dict_get_in.
Qed.

Lemma pair_names_distinct (tmd : dict (dict pair_totals)) :
  distinct_keys tmd ->
  NoDup (map (fun pair : string * (string * pair_totals) =>
                (fst pair, fst (snd pair)))
             (pairs tmd)).
Proof.
  intros [Houter Hinner]. induction tmd as [| [team models] tmd IH]; [constructor |].
  unfold pairs. simpl. rewrite map_app, map_map. simpl.
  simpl in Houter. inversion Houter as [| ? ? Hnot Hrest]. subst.
  assert (Hmodels : NoDup (map (fun item : string * pair_totals => (team, fst item))
                               models)).
  { assert (Hnd : NoDup (dict_keys models)) by (apply (Hinner team); now left).
    unfold dict_keys in Hnd. clear - Hnd.
    induction models as [| [m p] models IH]; simpl; [constructor |].
    inversion Hnd as [| ? ? Hm Hms]. subst. constructor; [| apply IH; exact Hms].
    intro Hin. apply in_map_iff in Hin. destruct Hin as ([m' p'] & Heq & Hin).
    simpl in Heq. apply Hm. apply in_map_iff. exists (m', p').
    split; [simpl; congruence | exact Hin]. }
  assert (Htail : NoDup (map (fun pair : string * (string * pair_totals) =>
                                (fst pair, fst (snd pair)))
                             (pairs tmd))).
  { apply IH; [exact Hrest |]. intros t ms Hin. apply (Hinner t). now right. }
  clear IH Hinner Houter Hrest. revert Hmodels.
  induction models as [| [m p] models IHm]; simpl; intro Hmodels; [exact Htail |].
  inversion Hmodels as [| ? ? Hm Hms]. subst.
  constructor; [| now apply IHm].
  intro Hin. apply in_app_or in Hin. destruct Hin as [Hin | Hin]; [now apply Hm |].
  apply in_map_iff in Hin. destruct Hin as ([t [m' p']] & Heq & Hin).
  simpl in Heq. apply in_pairs in Hin. destruct Hin as (ms & Hin & _).
  apply Hnot. apply in_map_iff. exists (t, ms).
  split; [simpl; congruence | exact Hin].
Qed.

Lemma cells_of_pairs (data : SpendAnalyticsPaginatedResponse) (cells : list cell) :
  fetch_cost_efficiency svc (Ok data) = Ok cells ->
  exists tmd,
    aggregate svc data = Ok tmd
    /\ Forall2 (fun (pair : string * (string * pair_totals)) (c : cell) =>
                  (c_team c, c_model c) = (fst pair, fst (snd pair)))
               (pairs tmd) cells.
Proof.
  unfold fetch_cost_efficiency.
  destruct (aggregate svc data) as [tmd | e] eqn:Hagg; [| discriminate].
  simpl. unfold build_cells. intro Hcells. exists tmd. split; [reflexivity |].
  apply map_result_Forall2 in Hcells.
  apply (Forall2_impl_in _ _ _ _ _ _ Hcells).
  intros [team [model p]] c _ Hc. simpl in *.
  destruct (cell_of_spec team model p c Hc) as (-> & -> & _). reflexivity.
Qed.

(** X14. No two cells of the cost-efficiency answer share both team and
    model. *)
Theorem cells_are_distinct_pairs
        (data : SpendAnalyticsPaginatedResponse) (cells : list cell) :
  fetch_cost_efficiency svc (Ok data) = Ok cells ->
  NoDup (map (fun c => (c_team c, c_model c)) cells).
Proof.
  intro Hrun. destruct (cells_of_pairs data cells Hrun) as (tmd & Hagg & Hcells).
  rewrite (Forall2_map_eq _ _ _
             (fun pair : string * (string * pair_totals) => (fst pair, fst (snd pair)))
             (fun c => (c_team c, c_model c)) _ _ Hcells).
  apply pair_names_distinct. exact (cost_aggregate_distinct svc data tmd Hagg).
Qed.

(** X15. The cost-efficiency answer has a cell for the pair (team, model)
    exactly when the pair was observed: on some day, an API key of a
    requested team id behind that display name is listed in the key
    breakdown of that model group.  A team without such a key on any day has
    no cell, not a cell of zeros. *)
Theorem cell_exactly_for_observed_pairs
        (data : SpendAnalyticsPaginatedResponse) (cells : list cell)
        (team model : string) :
  fetch_cost_efficiency svc (Ok data) = Ok cells ->
  (exists c, In c cells /\ c_team c = team /\ c_model c = model)
  <-> all_uses svc (results data) team model <> [].
Proof.
  intro Hrun. destruct (cells_of_pairs data cells Hrun) as (tmd & Hagg & Hcells).
  pose proof (cost_aggregate_spec svc data tmd Hagg team model) as Hget.
  pose proof (cost_aggregate_distinct svc data tmd Hagg) as Hdistinct.
  split.
  - intros (c & Hin & Hteam & Hmodel) Hnone.
    destruct (Forall2_in_right _ _ _ _ _ c Hcells Hin) as ([t [m p]] & Hpair & Heq).
    simpl in Heq. injection Heq as Ht Hm.
    assert (Et : t = team) by congruence. assert (Em : m = model) by congruence.
    pose proof (pairs_get2 _ _ _ _ Hdistinct Hpair) as Hp. rewrite Et, Em in Hp.
    rewrite Hp, Hnone in Hget. discriminate Hget.
  - intro Hsome.
    destruct (all_uses svc (results data) team model) as [| u us] eqn:E;
      [now elim Hsome |].
    simpl in Hget. apply get2_in_pairs in Hget.
    destruct (Forall2_in_left _ _ _ _ _ _ Hcells Hget) as (c & Hin & Heq).
    simpl in Heq. injection Heq as Ht Hm. exists c. now repeat split.
Qed.

End CostCells.

Lemma cells_are_distinct_pairs_witness :
  CostEfficiencyService.fetch_cost_efficiency one_team (Ok priced_document)
  = Ok [{| CostEfficiencyService.c_team := "Alpha Team";
           CostEfficiencyService.c_model := "gpt-4";
           CostEfficiencyService.c_cost_per_1k_tokens := 0.03%float;
           CostEfficiencyService.c_total_cost := 10%float;
           CostEfficiencyService.c_total_tokens := 333333 |}]
  /\ NoDup [("Alpha Team", "gpt-4")].
Proof.
  split; [vm_compute; reflexivity |].
  exact (cells_are_distinct_pairs one_team priced_document
           [{| CostEfficiencyService.c_team := "Alpha Team";
               CostEfficiencyService.c_model := "gpt-4";
               CostEfficiencyService.c_cost_per_1k_tokens := 0.03%float;
               CostEfficiencyService.c_total_cost := 10%float;
               CostEfficiencyService.c_total_tokens := 333333 |}]
           ltac:(vm_compute; reflexivity)).
Defined.

Lemma cell_exactly_for_observed_pairs_witness :
  CostEfficiencyService.fetch_cost_efficiency one_team (Ok priced_document)
  = Ok [{| CostEfficiencyService.c_team := "Alpha Team";
           CostEfficiencyService.c_model := "gpt-4";
           CostEfficiencyService.c_cost_per_1k_tokens := 0.03%float;
           CostEfficiencyService.c_total_cost := 10%float;
           CostEfficiencyService.c_total_tokens := 333333 |}]
  /\ CostEfficiencySpec.all_uses one_team (results priced_document) "Alpha Team" "gpt-4"
     <> []
  /\ CostEfficiencySpec.all_uses one_team (results priced_document) "Alpha Team" "claude"
     = [].
Proof.
  split; [vm_compute; reflexivity |]. split; [| reflexivity].
  apply (proj1 (cell_exactly_for_observed_pairs one_team priced_document
                  [{| CostEfficiencyService.c_team := "Alpha Team";
                      CostEfficiencyService.c_model := "gpt-4";
                      CostEfficiencyService.c_cost_per_1k_tokens := 0.03%float;
                      CostEfficiencyService.c_total_cost := 10%float;
                      CostEfficiencyService.c_total_tokens := 333333 |}]
                  "Alpha Team" "gpt-4" ltac:(vm_compute; reflexivity))).
  eexists. split; [now left |]. split; reflexivity.
Defined.

(** ** The exceptions raised on a fetched document *)

Lemma for_each_error (A S : Type) (P : exn -> Prop) (body : S -> A -> result S)
      (l : list A) :
  (forall s a e, In a l -> body s a = Err e -> P e) ->
  forall s e, for_each body l s = Err e -> P e.
Proof.
  induction l as [| a l IH]; intros Hbody s e; simpl; [discriminate |].
  destruct (body s a) as [s' |e'] eqn:E; simpl.
  - apply IH. intros s0 a0 e0 Hin. apply Hbody. now right.
  - intros [= <-]. apply (Hbody s a); [now left | exact E].
Qed.

Lemma map_result_error (A B : Type) (P : exn -> Prop) (f : A -> result B)
      (l : list A) :
  (forall a e, In a l -> f a = Err e -> P e) ->
  forall e, map_result f l = Err e -> P e.
Proof.
  induction l as [| a l IH]; intros Hf e; simpl; [discriminate |].
  destruct (f a) as [b | e'] eqn:E; simpl.
  - destruct (map_result f l) as [bs | e''] eqn:E'; simpl; [discriminate |].
    intros [= <-]. apply IH; [| reflexivity]. intros a0 e0 Hin. apply Hf. now right.
  - intros [= <-]. apply (Hf a); [now left | exact E].
Qed.

Lemma attr_error (A : Type) (o : option A) (e : exn) :
  attr o = Err e -> e = AttributeError.
Proof. destruct o; [discriminate | now intros [= <-]]. Qed.

Lemma contains_error (A : Type) (o : option A) (e : exn) :
  contains o = Err e -> e = TypeError.
Proof. destruct o; [discriminate | now intros [= <-]]. Qed.

Lemma finite_or_raise_error (sf : spec_float) (e : exn) :
  finite_or_raise sf = Err e -> e = OverflowError.
Proof. destruct sf; simpl; try discriminate; now intros [= <-]. Qed.

Lemma py_round_error (x : float) (ndigits : Z) (e : exn) :
  py_round x ndigits = Err e -> e = OverflowError.
Proof.
  unfold py_round. destruct (Prim2SF x); try discriminate.
  destruct (323 <? ndigits); [discriminate |].
  destruct (ndigits <? -308); [discriminate |].
  match goal with |- (if ?c then _ else _) = _ -> _ => destruct c end;
    [discriminate | apply finite_or_raise_error].
Qed.

Lemma bind_error (A B : Type) (P : exn -> Prop) (c : result A) (k : A -> result B)
      (e : exn) :
  (forall e, c = Err e -> P e) ->
  (forall a e, k a = Err e -> P e) ->
  bind c k = Err e -> P e.
Proof.
  intros Hc Hk. destruct c as [a | e']; simpl.
  - apply Hk.
  - intros [= <-]. now apply Hc.
Qed.

Lemma float_of_int_error (z : Z) (e : exn) :
  float_of_int z = Err e -> e = OverflowError.
Proof.
  unfold float_of_int. destruct z; [discriminate | |]; apply finite_or_raise_error.
Qed.

Lemma int_truediv_error (a b : Z) (e : exn) :
  b <> 0 -> int_truediv a b = Err e -> e = OverflowError.
Proof.
  intro Hb. unfold int_truediv.
  destruct (Z.eqb_spec b 0); [contradiction |].
  destruct a; [discriminate | |]; apply finite_or_raise_error.
Qed.

Lemma summarise_error (item : string * SuccessRateService.team_counters) (e : exn) :
  SuccessRateService.summarise item = Err e -> e = OverflowError.
Proof.
  destruct item as [name c].
  unfold SuccessRateService.summarise, SuccessRateService.success_rate_of.
  apply (bind_error _ _ (fun e => e = OverflowError)).
  - intro e0. destruct (0 <? SuccessRateService.tc_total_requests c) eqn:Hpos;
      [| discriminate].
    apply Z.ltb_lt in Hpos.
    apply (bind_error _ _ (fun e => e = OverflowError)); [| discriminate].
    intro e1. apply int_truediv_error. lia.
  - intros q e0. apply (bind_error _ _ (fun e => e = OverflowError)); [| discriminate].
    intro e1. apply py_round_error.
Qed.

Lemma cell_of_error (team : string) (item : string * CostEfficiencyService.pair_totals)
      (e : exn) :
  CostEfficiencyService.cell_of team item = Err e -> e = OverflowError.
Proof.
  destruct item as [model p].
  unfold CostEfficiencyService.cell_of, CostEfficiencyService.cost_per_1k_of.
  apply (bind_error _ _ (fun e => e = OverflowError)).
  - intro e0. destruct (0 <? CostEfficiencyService.pt_total_tokens p); [| discriminate].
    apply (bind_error _ _ (fun e => e = OverflowError)); [| discriminate].
    intro e1. apply float_of_int_error.
  - intros c e0. apply (bind_error _ _ (fun e => e = OverflowError)).
    + intro e1. apply py_round_error.
    + intros r e1. apply (bind_error _ _ (fun e => e = OverflowError)); [| discriminate].
      intro e2. apply py_round_error.
Qed.

Section DocumentErrors.

Variable set_iter : list string -> list string.
Variable svc : TeamServiceProtocol.
Variable get_display_name : string -> string.

Lemma extract_breakdown_error (entity : MetricWithMetadata) (top : BreakdownMetrics)
      (e : exn) :
  TokenAggregationService._extract_breakdown set_iter entity top = Err e ->
  lookup_error e.
Proof.
  unfold TokenAggregationService._extract_breakdown.
  destruct (api_key_breakdown entity) as [keys |]; simpl;
    [| intros [= <-]; now left].
  destruct (model_groups top) as [models |]; simpl; [| intros [= <-]; now left].
  destruct (for_each _ models _) as [akm | e'] eqn:E; simpl.
  - apply (for_each_error _ _ lookup_error). intros acc [key ms] e0 _.
    unfold TokenAggregationService.build_key, TokenAggregationService.lookup_alias.
    destruct (api_keys top) as [ks |]; simpl; [| intros [= <-]; now left].
    destruct (get_or_empty ks key) as [data |]; simpl.
    + destruct (km_metadata data); simpl; [| intros [= <-]; now left].
      destruct ms; discriminate.
    + destruct ms; discriminate.
  - intros [= <-]. revert E. apply (for_each_error _ _ lookup_error).
    intros akm [name md] e0 _. unfold TokenAggregationService.visit_model.
    apply (for_each_error _ _ lookup_error). intros s key e1 _.
    unfold TokenAggregationService.visit_key.
    destruct (api_key_breakdown md) as [d |]; simpl; [| intros [= <-]; now right].
    destruct (dict_get d key); discriminate.
Qed.

Lemma team_totals_error (data : SpendAnalyticsPaginatedResponse) (e : exn) :
  TokenAggregationService.fetch_total_tokens_per_team set_iter svc (Ok data) = Err e ->
  lookup_error e.
Proof.
  unfold TokenAggregationService.fetch_total_tokens_per_team.
  apply (for_each_error _ _ lookup_error). intros td entry e0 _.
  unfold TokenAggregationService.add_entry.
  destruct (breakdown entry) as [top |]; simpl; [| intros [= <-]; now left].
  destruct (entities top) as [es |]; simpl; [| intros [= <-]; now left].
  apply (for_each_error _ _ lookup_error). intros td' [team_id entity] e1 _.
  unfold TokenAggregationService.add_entity.
  destruct (dict_mem td' (get_team_name svc team_id)); [| discriminate].
  destruct (TokenAggregationService._extract_breakdown set_iter entity top) eqn:E;
    simpl; [discriminate |].
  intros [= <-]. exact (extract_breakdown_error _ _ _ E).
Qed.

Lemma cost_aggregate_error (data : SpendAnalyticsPaginatedResponse) (e : exn) :
  CostEfficiencyService.aggregate svc data = Err e ->
  lookup_error e.
Proof.
  unfold CostEfficiencyService.aggregate.
  apply (for_each_error _ _ lookup_error). intros tmd entry e0 _.
  unfold CostEfficiencyService.add_entry.
  destruct (breakdown entry) as [top |]; simpl; [| intros [= <-]; now left].
  apply (for_each_error _ _ lookup_error). intros tmd1 team_id e1 _.
  unfold CostEfficiencyService.visit_team.
  destruct (entities top) as [es |]; simpl; [| intros [= <-]; now left].
  destruct (model_groups top) as [ms |]; simpl; [| intros [= <-]; now left].
  apply (for_each_error _ _ lookup_error). intros tmd2 [name md] e2 _.
  unfold CostEfficiencyService.visit_model.
  destruct (get_api_key_breakdown (get_or_empty es team_id)) as [keys |]; simpl;
    [| intros [= <-]; now left].
  apply (for_each_error _ _ lookup_error). intros tmd3 key e3 _.
  unfold CostEfficiencyService.visit_key.
  destruct (api_key_breakdown md) as [d |]; simpl; [| intros [= <-]; now right].
  destruct (dict_get d key); discriminate.
Qed.

(** X16. On a fetched document the five services end with no other
    exception than [AttributeError] and [TypeError], raised on a map that
    the document lacks, and [OverflowError], raised by a number beyond the
    range of a float.  In particular the integer division of the success
    rate never raises [ZeroDivisionError]: it is only evaluated on a positive
    total. *)
Theorem only_document_errors (data : SpendAnalyticsPaginatedResponse) (e : exn) :
  TokenAggregationService.fetch_total_tokens_per_team set_iter svc (Ok data) = Err e
  \/ TimeSeriesService.fetch_daily_timeseries_per_team svc (Ok data) = Err e
  \/ SuccessRateService.fetch_team_success_rate_summary svc (Ok data) = Err e
  \/ CostEfficiencyService.fetch_cost_efficiency svc (Ok data) = Err e
  \/ ModelUsageService.fetch_model_usage get_display_name (Ok data) = Err e ->
  document_error e /\ e <> ZeroDivisionError.
Proof.
  intro H. assert (Hdoc : document_error e).
  { unfold document_error. destruct H as [H | [H | [H | [H | H]]]].
    - destruct (team_totals_error data e H) as [-> | ->]; auto.
    - unfold TimeSeriesService.fetch_daily_timeseries_per_team in H.
      rewrite daily_timeseries_closed_form in H.
      destruct (forallb _ (results data)); [discriminate | injection H as <-; now left].
    - unfold SuccessRateService.fetch_team_success_rate_summary in H.
      rewrite aggregate_closed_form in H.
      destruct (forallb _ (results data)); simpl in H; [| injection H as <-; now left].
      right. right. revert H.
      apply (map_result_error _ _ (fun e => e = OverflowError)).
      intros item e0 _. apply summarise_error.
    - unfold CostEfficiencyService.fetch_cost_efficiency in H.
      destruct (CostEfficiencyService.aggregate svc data) as [tmd | e'] eqn:E;
        simpl in H.
      + right. right. revert H. unfold CostEfficiencyService.build_cells.
        apply (map_result_error _ _ (fun e => e = OverflowError)).
        intros [team item] e0 _. apply cell_of_error.
      + injection H as <-. destruct (cost_aggregate_error data e' E) as [-> | ->]; auto.
    - rewrite fetch_model_usage_closed_form in H.
      destruct (forallb _ (results data)); [discriminate | injection H as <-; now left]. }
  split; [exact Hdoc |].
  destruct Hdoc as [-> | [-> | ->]]; discriminate.
Qed.

End DocumentErrors.

Lemma only_document_errors_witness :
  SuccessRateService.fetch_team_success_rate_summary
    one_team (Ok document_without_breakdown)
  = Err AttributeError
  /\ document_error AttributeError.
Proof.
  split; [reflexivity |].
  exact (proj1 (only_document_errors
                  (fun keys => keys) one_team (fun name => name)
                  document_without_breakdown AttributeError
                  (or_intror (or_intror (or_introl eq_refl))))).
Defined.

(** ** The services behind the date-range endpoints *)

Section EndpointErrors.
Import EndpointUtils Endpoints.

Context {datetime : Type}.
Variable tools : DateTools datetime.
Variable builtin_message : exn -> string.
Variable set_iter : list string -> list string.
Variable svc : TeamServiceProtocol.
Variable client : string -> string -> result SpendAnalyticsPaginatedResponse.

Lemma endpoint_call (A : Type) (start_date end_date : option string) (s e : string)
      (service_method : string -> string -> result A) :
  dates_accepted tools start_date end_date s e ->
  execute_date_range_endpoint tools builtin_message start_date end_date service_method
  = match service_method s e with
    | Ok a => Returns a
    | Err x =>
        if is_RuntimeError x
        then RaisesHTTPException 502 (str builtin_message x)
        else if is_Exception x
             then RaisesHTTPException 500
                    ("Unexpected error: " ++ str builtin_message x)
             else Raises x
    end.
Proof.
  intros (params & start_dt & end_dt & Hv & Hp & Hs & He).
  unfold execute_date_range_endpoint, bad_request.
  rewrite Hv, Hp, Hs, He. reflexivity.
Qed.


(** X18. When the client ends the process because the upstream answer has
    more than one page ([sys.exit(1)]), none of the four endpoints that
    consult a service turns this into an HTTP error: the [SystemExit] passes
    through the service and through the endpoint helper. *)
Theorem system_exit_passes_every_endpoint
        (start_date end_date : option string) (s e : string) (code : Z) :
  dates_accepted tools start_date end_date s e ->
  client s e = Err (SystemExit code) ->
  tokens tools builtin_message set_iter svc client start_date end_date
  = Raises (SystemExit code)
  /\ timeseries tools builtin_message svc client start_date end_date
     = Raises (SystemExit code)
  /\ success_rate tools builtin_message svc client start_date end_date
     = Raises (SystemExit code)
  /\ cost_efficiency tools builtin_message svc client start_date end_date
     = Raises (SystemExit code).
Proof.
  intros Hdates Hexit.
  unfold tokens, timeseries, success_rate, cost_efficiency.
  rewrite !(endpoint_call _ _ _ s e _ Hdates), Hexit. repeat split.
Qed.

(** X19. When the dates are accepted and the fetched document has a day
    without breakdown, the endpoints of the success rate, the team totals
    and the cost efficiency raise [HTTPException] 500 with the detail
    ["Unexpected error: "] followed by the text of the [AttributeError] or
    [TypeError] that the service raised. *)
Theorem missing_breakdown_is_an_internal_error
        (start_date end_date : option string) (s e : string)
        (data : SpendAnalyticsPaginatedResponse) (entry : DailySpendData) :
  dates_accepted tools start_date end_date s e ->
  client s e = Ok data ->
  In entry (results data) ->
  breakdown entry = None ->
  success_rate tools builtin_message svc client start_date end_date
  = RaisesHTTPException 500 ("Unexpected error: " ++ builtin_message AttributeError)
  /\ (exists x,
         lookup_error x
         /\ tokens tools builtin_message set_iter svc client start_date end_date
            = RaisesHTTPException 500 ("Unexpected error: " ++ builtin_message x))
  /\ (exists x,
         lookup_error x
         /\ cost_efficiency tools builtin_message svc client start_date end_date
            = RaisesHTTPException 500 ("Unexpected error: " ++ builtin_message x)).
Proof.
  intros Hdates Hdoc Hin Hnone.
  unfold tokens, timeseries, success_rate, cost_efficiency.
  rewrite !(endpoint_call _ _ _ s e _ Hdates), Hdoc.
  split; [| split].
  - unfold SuccessRateService.fetch_team_success_rate_summary.
    rewrite aggregate_closed_form.
    rewrite (forallb_false_in _ _ _ entry Hin); [reflexivity |].
    unfold SuccessRateSpec.day_ok. now rewrite Hnone.
  - pose proof (team_totals_ok set_iter svc data) as Hok.
    rewrite (forallb_false_in _ _ _ entry Hin) in Hok.
    + destruct (TokenAggregationService.fetch_total_tokens_per_team
                  set_iter svc (Ok data)) as [out | x] eqn:E; [discriminate Hok |].
      exists x. pose proof (team_totals_error set_iter svc data x E) as Hx.
      split; [exact Hx |]. destruct Hx as [-> | ->]; reflexivity.
    + unfold TeamTotalsFold.day_ok, TokenAggregationService.add_entry.
      now rewrite Hnone.
  - pose proof (cost_aggregate_ok svc data) as Hok.
    rewrite (forallb_false_in _ _ _ entry Hin) in Hok.
    + unfold CostEfficiencyService.fetch_cost_efficiency.
      destruct (CostEfficiencyService.aggregate svc data) as [tmd | x] eqn:E;
        [discriminate Hok |].
      exists x. pose proof (cost_aggregate_error svc data x E) as Hx.
      split; [exact Hx |]. destruct Hx as [-> | ->]; reflexivity.
    + unfold CostEfficiencySpec.day_ok, CostEfficiencyService.add_entry.
      now rewrite Hnone.
Qed.

End EndpointErrors.

Lemma lenient_dates_accepted :
  Endpoints.dates_accepted (lenient_tools window_start window_end)
                           None None window_start window_end.
Proof.
  exists (None, None), tt, tt. repeat split.
Defined.


Lemma system_exit_passes_every_endpoint_witness :
  Endpoints.dates_accepted (lenient_tools window_start window_end)
                           None None window_start window_end
  /\ Endpoints.timeseries
       (lenient_tools window_start window_end) (fun _ => "") one_team
       (fun _ _ => Err (SystemExit 1)) None None
     = EndpointUtils.Raises (SystemExit 1).
Proof.
  split; [exact lenient_dates_accepted |].
  exact (proj1 (proj2
           (system_exit_passes_every_endpoint
              (lenient_tools window_start window_end) (fun _ => "")
              (fun keys => keys) one_team
              (fun _ _ => Err (SystemExit 1))
              None None window_start window_end 1
              lenient_dates_accepted eq_refl))).
Defined.

Lemma missing_breakdown_is_an_internal_error_witness :
  In day_without_breakdown (results document_without_breakdown)
  /\ Endpoints.success_rate
       (lenient_tools window_start window_end)
       (fun _ => "'NoneType' object has no attribute 'get'") one_team
       (fun _ _ => Ok document_without_breakdown) None None
     = EndpointUtils.RaisesHTTPException
         500 "Unexpected error: 'NoneType' object has no attribute 'get'".
Proof.
  split; [now left |].
  exact (proj1
           (missing_breakdown_is_an_internal_error
              (lenient_tools window_start window_end)
              (fun _ => "'NoneType' object has no attribute 'get'")
              (fun keys => keys) one_team
              (fun _ _ => Ok document_without_breakdown)
              None None window_start window_end
              document_without_breakdown day_without_breakdown
              lenient_dates_accepted eq_refl (or_introl eq_refl) eq_refl)).
Defined.

(** ** The cache of the team directory *)

Section TeamCache.
Import TeamServiceState.

(** X20. Once a call of [get_team_ids] has succeeded, the team service
    never asks the client again: every later [get_team_ids], [fetch_teams]
    and [get_team_name] answers from the cached teams and leaves the object
    unchanged, whatever the client would answer now, also when it would
    fail. *)
Theorem teams_are_fetched_once
        (api : result (list TeamResponse)) (st st' : state) (ids : list string) :
  get_team_ids api st = (Ok ids, st') ->
  forall api',
    get_team_ids api' st' = (Ok ids, st')
    /\ fetch_teams api' st' = (Ok (_teams st'), st')
    /\ forall team_id,
        get_team_name api' st' team_id
        = (Ok (match dict_get (_team_id_to_name st') team_id with
               | Some name => name
               | None => team_id
               end),
           st').
Proof.
  unfold get_team_ids, fetch_teams.
  destruct (_initialized st) eqn:Hinit; simpl.
  - intros [= <- <-] api'. unfold get_team_ids, get_team_name, fetch_teams.
    rewrite Hinit. simpl. repeat split.
  - destruct api as [teams | e]; [| discriminate].
    intros [= <- <-] api'. unfold get_team_ids, get_team_name, fetch_teams.
    simpl. repeat split.
Qed.

(** X21. The first use of a new team service.  When the client answers
    with [teams], the service returns their ids in the client's order and
    from then on names every id as [TeamService.get_team_name teams] does,
    without asking again.  When the client fails, the exception is passed on
    and the object stays uninitialised, so that the next call asks the
    client again. *)
Theorem first_use_of_the_team_service
        (teams : list TeamResponse) (e : exn) :
  (exists st,
      get_team_ids (Ok teams) init = (Ok (map team_id teams), st)
      /\ forall api team_id,
          get_team_name api st team_id
          = (Ok (TeamService.get_team_name teams team_id), st)
          /\ get_team_ids api st = (Ok (TeamService._team_ids teams), st))
  /\ get_team_ids (Err e) init = (Err e, init)
  /\ (forall team_id, get_team_name (Err e) init team_id = (Err e, init))
  /\ fetch_teams (Err e) init = (Err e, init)
  /\ fst (get_team_ids (Ok teams) (snd (get_team_ids (Err e) init)))
     = Ok (map team_id teams).
Proof.
  split; [| repeat split].
  eexists. split; [reflexivity |]. intros api id. split; reflexivity.
Qed.

End TeamCache.

Lemma teams_are_fetched_once_witness :
  TeamServiceState.get_team_ids
    (Ok [{| team_id := "team1"; team_alias := Some "Alpha Team" |}])
    TeamServiceState.init
  = (Ok ["team1"],
     snd (TeamServiceState.get_team_ids
            (Ok [{| team_id := "team1"; team_alias := Some "Alpha Team" |}])
            TeamServiceState.init))
  /\ TeamServiceState.get_team_ids
       (Err (RuntimeError "Error fetching teams: timeout"))
       (snd (TeamServiceState.get_team_ids
               (Ok [{| team_id := "team1"; team_alias := Some "Alpha Team" |}])
               TeamServiceState.init))
     = (Ok ["team1"],
        snd (TeamServiceState.get_team_ids
               (Ok [{| team_id := "team1"; team_alias := Some "Alpha Team" |}])
               TeamServiceState.init)).
Proof.
  split; [reflexivity |].
  exact (proj1 (teams_are_fetched_once
                  (Ok [{| team_id := "team1"; team_alias := Some "Alpha Team" |}])
                  TeamServiceState.init _ ["team1"] eq_refl
                  (Err (RuntimeError "Error fetching teams: timeout")))).
Defined.

(** ** The drill-down of the team-totals answer *)

Section DrillDown.
Import TokenAggregationService TeamTotalsSpec TeamTotalsFold ExtractSpec.
Import AliasSpec SourcesSpec.

Variable set_iter : list string -> list string.
Hypothesis set_iter_perm : forall l, NoDup l -> Permutation (set_iter l) l.
Variable svc : TeamServiceProtocol.

Lemma lookup_built (A : Type) (key : A -> string) (f : string -> A)
      (l : list string) (k : string) :
  (forall x, key (f x) = x) ->
  lookup key k (map f l) = if existsb (String.eqb k) l then Some (f k) else None.
Proof.
  intro Hkey. induction l as [| a l IH]; [reflexivity |].
  simpl map. rewrite lookup_cons, Hkey. simpl existsb.
  rewrite (String.eqb_sym k a).
  destruct (String.eqb_spec a k) as [-> | _]; [reflexivity | exact IH].
Qed.

Lemma gathered_names (models : dict MetricWithMetadata) (key : string)
      (e : model_entry) :
  In e (gathered models key) -> In (model_name e) (dict_keys models).
Proof.
  unfold gathered. rewrite in_flat_map. intros ([name md] & Hin & He). simpl in He.
  destruct (api_key_breakdown md) as [d |]; [| destruct He].
  unfold key_models in He. destruct (dict_get d key); [| destruct He].
  destruct He as [<- | []]. simpl. apply in_map_iff. now exists (name, md).
Qed.

Lemma lookup_gathered (models : dict MetricWithMetadata) (key model : string) :
  NoDup (dict_keys models) ->
  option_map token_counts (lookup model_name model (gathered models key))
  = group_counts models key model.
Proof.
  unfold group_counts.
  induction models as [| [name md] models IH]; intro Hnd; [reflexivity |].
  simpl in Hnd. inversion Hnd as [| ? ? Hnot Hrest]. subst.
  rewrite gathered_cons, lookup_app. simpl fst. simpl snd. simpl dict_get.
  destruct (String.eqb_spec name model) as [-> | Hne].
  - assert (Hnone : lookup model_name model (gathered models key) = None).
    { apply lookup_none. intro Hin. apply in_map_iff in Hin.
      destruct Hin as (e & <- & He). apply Hnot. now apply (gathered_names _ key). }
    destruct (api_key_breakdown md) as [d |].
    + unfold key_models. destruct (dict_get d key) as [data |].
      * rewrite lookup_cons. simpl. now rewrite String.eqb_refl.
      * rewrite lookup_nil, Hnone. reflexivity.
    + rewrite lookup_nil, Hnone. reflexivity.
  - rewrite <- (IH Hrest).
    destruct (api_key_breakdown md) as [d |]; [| now rewrite lookup_nil].
    unfold key_models. destruct (dict_get d key) as [data |]; [| now rewrite lookup_nil].
    rewrite lookup_cons. simpl.
    destruct (String.eqb_spec name model); [contradiction | reflexivity].
Qed.

Lemma source_counts (be : BreakdownMetrics * MetricWithMetadata) (key model : string) :
  extractable set_iter be ->
  key_model_totals (snd (source_of set_iter (fst be) (snd be))) key model
  = day_counts be key model.
Proof.
  destruct be as [top entity]. intros ((bd & Hrun) & Hkeys & Hmodels). simpl in *.
  unfold source_of. rewrite Hrun. simpl snd.
  destruct (extract_breakdown_closed_form set_iter set_iter_perm entity top bd
              Hkeys Hrun) as (keys & models & Hk & Hm & ->).
  unfold day_counts, key_model_totals. simpl fst. simpl snd. rewrite Hk, Hm.
  rewrite (lookup_built _ api_key
             (fun k => entry_of keys top (k, gathered models k)))
    by reflexivity.
  assert (Hmem : existsb (String.eqb key) (set_iter (dict_keys keys))
                 = dict_mem keys key).
  { destruct (dict_mem keys key) eqn:E.
    - apply existsb_exists. exists key. split; [| apply String.eqb_refl].
      apply (Permutation_in _ (Permutation_sym (set_iter_perm _ (Hkeys _ Hk)))).
      now apply dict_mem_keys.
    - destruct (existsb _ _) eqn:E'; [| reflexivity].
      apply existsb_exists in E'. destruct E' as (x & Hin & Hx).
      apply String.eqb_eq in Hx. subst x.
      apply (Permutation_in _ (set_iter_perm _ (Hkeys _ Hk))) in Hin.
      apply dict_mem_keys in Hin. congruence. }
  rewrite Hmem. unfold dict_mem.
  destruct (dict_get keys key) as [data |] eqn:Hdata; [| reflexivity].
  unfold entry_of. simpl fst. simpl snd. simpl ke_models.
  destruct (gathered models key) as [| m ms] eqn:Hg.
  - unfold get_or_empty. rewrite Hdata. rewrite lookup_cons, lookup_nil.
    change (model_name (model_entry_of "All Models" (get_key_metrics (Found data))))
      with "All Models".
    rewrite (String.eqb_sym model).
    destruct (String.eqb "All Models" model); reflexivity.
  - rewrite <- Hg. apply lookup_gathered. now apply Hmodels.
Qed.

Lemma drill_down_closed_form
      (data : SpendAnalyticsPaginatedResponse) (out : dict team_entry)
      (name : string) (t : team_entry) (key model : string) :
  fetch_total_tokens_per_team set_iter svc (Ok data) = Ok out ->
  forallb distinct_day (results data) = true ->
  dict_get out name = Some t ->
  key_model_totals (te_api_keys t) key model
  = fold_left plus
      (map (fun be => day_counts be key model)
           (team_entities svc name (results data)))
      None.
Proof.
  intros Hrun Hdistinct Ht.
  destruct (team_totals_spec set_iter svc data out Hrun) as [Hkeys Hget].
  assert (Hname : In name (display_names svc)).
  { rewrite <- Hkeys. apply dict_mem_keys. unfold dict_mem. now rewrite Ht. }
  rewrite (Hget name Hname) in Ht. injection Ht as <-.
  rewrite (proj2 (add_sources_totals _ _)). simpl te_api_keys.
  pose proof (team_entities_extractable set_iter svc data out name
                Hrun Hdistinct Hname) as Hgood.
  rewrite sources_of_team_entities, map_map.
  rewrite (proj2 (merge_all_totals _ [] well_keyed_nil
                    (extractable_well_keyed set_iter set_iter_perm _ Hgood))).
  rewrite map_map. simpl. f_equal.
  apply map_ext_in. intros be Hin. apply source_counts.
  rewrite Forall_forall in Hgood. now apply Hgood.
Qed.

(** X22. The drill-down of the team-totals answer, on a document whose
    dictionaries have distinct keys.  The counts ([total_tokens],
    [prompt_tokens], [completion_tokens]) held for a pair (api_key,
    model_name) in the breakdown of team [name] are the sums, over all days
    and all entities of the team, of what each entity gives to the pair on
    its day: the key's counts in that model group when some model group lists
    the key, the key's own counts under ["All Models"] when none does, and
    nothing when the key is not the entity's.  The pair is absent exactly
    when no entity gives it anything. *)
Theorem drill_down_sums_the_days
        (data : SpendAnalyticsPaginatedResponse) (out : dict team_entry)
        (name : string) (t : team_entry) (key model : string) :
  fetch_total_tokens_per_team set_iter svc (Ok data) = Ok out ->
  forallb distinct_day (results data) = true ->
  dict_get out name = Some t ->
  key_model_totals (te_api_keys t) key model
  = fold_left plus
      (map (fun be => day_counts be key model)
           (team_entities svc name (results data)))
      None.
Proof. exact (drill_down_closed_form data out name t key model). Qed.

End DrillDown.

Lemma drill_down_sums_the_days_witness :
  forallb distinct_day (results alias_on_first_day) = true
  /\ fold_left TeamTotalsSpec.plus
       (map (fun be => day_counts be "key1" "gpt-4")
            (AliasSpec.team_entities one_team "Alpha Team"
                                     (results alias_on_first_day)))
       None
     = Some (2000, 1200, 800).
Proof.
  split; [reflexivity |].
  exact (eq_trans
           (eq_sym (drill_down_sums_the_days
                      (fun keys => keys) (fun l _ => Permutation_refl l) one_team
                      alias_on_first_day _ "Alpha Team"
                      (two_days_of_key (Some (JStr "DevBoost Key")))
                      "key1" "gpt-4" eq_refl eq_refl eq_refl))
           eq_refl).
Defined.

(** ** Documents on which the services do not raise *)

Lemma for_each_ok (A S : Type) (body : S -> A -> result S) (l : list A) :
  (forall s a, In a l -> is_ok (body s a) = true) ->
  forall s, is_ok (for_each body l s) = true.
Proof.
  induction l as [| a l IH]; intros Hbody s; [reflexivity |]. simpl.
  pose proof (Hbody s a (or_introl eq_refl)) as Ha.
  destruct (body s a) as [s' |]; [| discriminate Ha]. simpl.
  apply IH. intros s0 a0 Hin. apply Hbody. now right.
Qed.

Section CompleteDocuments.

Variable set_iter : list string -> list string.
Variable svc : TeamServiceProtocol.

Lemma complete_extraction (top : BreakdownMetrics) (entity : MetricWithMetadata)
      (ms : dict MetricWithMetadata) (ks : dict KeyMetricWithMetadata) :
  model_groups top = Some ms ->
  api_keys top = Some ks ->
  forallb (fun item : string * MetricWithMetadata =>
             present (api_key_breakdown (snd item))) ms = true ->
  forallb (fun item : string * KeyMetricWithMetadata =>
             present (km_metadata (snd item))) ks = true ->
  present (api_key_breakdown entity) = true ->
  is_ok (TokenAggregationService._extract_breakdown set_iter entity top) = true.
Proof.
  intros Hms Hks Hgroups Hmeta Hentity.
  unfold TokenAggregationService._extract_breakdown.
  destruct (api_key_breakdown entity) as [keys |]; [| discriminate Hentity].
  rewrite Hms, Hks. simpl.
  match goal with
  | |- context [for_each (TokenAggregationService.visit_model ?k) ms ?s0] =>
      pose proof (for_each_ok _ _ (TokenAggregationService.visit_model k) ms) as Hloop;
      specialize (fun H => Hloop H s0)
  end.
  match type of Hloop with
  | ?P -> _ => assert (Hbody : P)
  end.
  { intros akm [name md] Hin. unfold TokenAggregationService.visit_model.
    apply for_each_ok. intros s key _.
    unfold TokenAggregationService.visit_key.
    rewrite forallb_forall in Hgroups. specialize (Hgroups _ Hin). simpl in Hgroups.
    destruct (api_key_breakdown md) as [d |]; [| discriminate Hgroups]. simpl.
    destruct (dict_get d key); reflexivity. }
  specialize (Hloop Hbody).
  destruct (for_each _ ms _) as [akm |]; [| discriminate Hloop]. simpl.
  apply for_each_ok. intros acc [key models] _.
  unfold TokenAggregationService.build_key, TokenAggregationService.lookup_alias.
  simpl. unfold get_or_empty.
  destruct (dict_get ks key) as [data |] eqn:Hdata; simpl.
  - rewrite forallb_forall in Hmeta.
    specialize (Hmeta _ (dict_get_in _ _ _ _ Hdata)). simpl in Hmeta.
    destruct (km_metadata data); [| discriminate Hmeta]. simpl.
    destruct models; reflexivity.
  - destruct models; reflexivity.
Qed.

(** X23. On a document every day of which is complete, the team-totals
    and the time-series service always answer, and the success-rate and the
    cost-efficiency service can only fail with [OverflowError], on a total
    beyond the range of a float. *)
Theorem complete_documents_are_answered (data : SpendAnalyticsPaginatedResponse) :
  forallb complete_day (results data) = true ->
  (exists out,
      TokenAggregationService.fetch_total_tokens_per_team set_iter svc (Ok data)
      = Ok out)
  /\ (exists rows,
         TimeSeriesService.fetch_daily_timeseries_per_team svc (Ok data) = Ok rows)
  /\ (forall e,
         SuccessRateService.fetch_team_success_rate_summary svc (Ok data) = Err e ->
         e = OverflowError)
  /\ (forall e,
         CostEfficiencyService.fetch_cost_efficiency svc (Ok data) = Err e ->
         e = OverflowError).
Proof.
  intro Hcomplete. rewrite forallb_forall in Hcomplete.
  split; [| split; [| split]].
  - apply is_ok_true. rewrite team_totals_ok. apply forallb_forall.
    intros entry Hin. specialize (Hcomplete entry Hin).
    unfold complete_day in Hcomplete.
    unfold TeamTotalsFold.day_ok, TokenAggregationService.add_entry.
    destruct (breakdown entry) as [b |]; [| discriminate Hcomplete]. simpl.
    destruct (entities b) as [es |] eqn:Hes; [| discriminate Hcomplete].
    destruct (model_groups b) as [ms |] eqn:Hms; [| discriminate Hcomplete].
    destruct (api_keys b) as [ks |] eqn:Hks; [| discriminate Hcomplete].
    apply andb_prop in Hcomplete. destruct Hcomplete as [Hcomplete Hmeta].
    apply andb_prop in Hcomplete. destruct Hcomplete as [Hentities Hgroups].
    simpl. apply for_each_ok. intros td [team_id entity] Hentity.
    unfold TokenAggregationService.add_entity.
    destruct (dict_mem td (get_team_name svc team_id)); [| reflexivity].
    rewrite forallb_forall in Hentities. specialize (Hentities _ Hentity).
    pose proof (complete_extraction b entity ms ks Hms Hks Hgroups Hmeta Hentities)
      as Hok.
    destruct (TokenAggregationService._extract_breakdown set_iter entity b);
      [reflexivity | discriminate Hok].
  - unfold TimeSeriesService.fetch_daily_timeseries_per_team.
    rewrite daily_timeseries_closed_form.
    replace (forallb (TimeSeriesSpec.day_ok svc) (results data)) with true;
      [eexists; reflexivity |].
    symmetry. apply forallb_forall. intros entry Hin.
    specialize (Hcomplete entry Hin). unfold complete_day in Hcomplete.
    unfold TimeSeriesSpec.day_ok, TimeSeriesService.entities_of.
    destruct (breakdown entry) as [b |]; [| reflexivity].
    destruct (entities b); [reflexivity | discriminate Hcomplete].
  - intro e. unfold SuccessRateService.fetch_team_success_rate_summary.
    rewrite aggregate_closed_form.
    replace (forallb (SuccessRateSpec.day_ok svc) (results data)) with true.
    + simpl. apply (map_result_error _ _ (fun e => e = OverflowError)).
      intros item e0 _. apply summarise_error.
    + symmetry. apply forallb_forall. intros entry Hin.
      specialize (Hcomplete entry Hin). unfold complete_day in Hcomplete.
      unfold SuccessRateSpec.day_ok.
      destruct (breakdown entry) as [b |]; [| discriminate Hcomplete].
      destruct (entities b); [reflexivity | discriminate Hcomplete].
  - intro e. unfold CostEfficiencyService.fetch_cost_efficiency.
    pose proof (cost_aggregate_ok svc data) as Hok.
    replace (forallb (CostEfficiencySpec.day_ok svc) (results data)) with true in Hok.
    + destruct (CostEfficiencyService.aggregate svc data) as [tmd |];
        [| discriminate Hok].
      simpl. unfold CostEfficiencyService.build_cells.
      apply (map_result_error _ _ (fun e => e = OverflowError)).
      intros [team item] e0 _. apply cell_of_error.
    + symmetry. apply forallb_forall. intros entry Hin.
      specialize (Hcomplete entry Hin). unfold complete_day in Hcomplete.
      unfold CostEfficiencySpec.day_ok, CostEfficiencyService.add_entry.
      destruct (breakdown entry) as [b |]; [| discriminate Hcomplete]. simpl.
      destruct (entities b) as [es |] eqn:Hes; [| discriminate Hcomplete].
      destruct (model_groups b) as [ms |] eqn:Hms; [| discriminate Hcomplete].
      destruct (api_keys b) as [ks |] eqn:Hks; [| discriminate Hcomplete].
      apply andb_prop in Hcomplete. destruct Hcomplete as [Hcomplete Hmeta].
      apply andb_prop in Hcomplete. destruct Hcomplete as [Hentities Hgroups].
      apply for_each_ok. intros tmd team_id _.
      unfold CostEfficiencyService.visit_team. simpl.
      apply for_each_ok. intros tmd1 [name md] Hmd.
      unfold CostEfficiencyService.visit_model.
      assert (Hkeys : present (get_api_key_breakdown (get_or_empty es team_id)) = true).
      { unfold get_or_empty. destruct (dict_get es team_id) as [entity |] eqn:He;
          [| reflexivity].
        rewrite forallb_forall in Hentities.
        exact (Hentities _ (dict_get_in _ _ _ _ He)). }
      destruct (get_api_key_breakdown (get_or_empty es team_id)) as [keys |];
        [| discriminate Hkeys].
      simpl. apply for_each_ok. intros tmd2 key _.
      unfold CostEfficiencyService.visit_key.
      rewrite forallb_forall in Hgroups. specialize (Hgroups _ Hmd). simpl in Hgroups.
      destruct (api_key_breakdown md) as [d |]; [| discriminate Hgroups]. simpl.
      destruct (dict_get d key); reflexivity.
Qed.

End CompleteDocuments.

Lemma complete_documents_are_answered_witness :
  forallb complete_day (results alias_on_first_day) = true
  /\ exists out,
      TokenAggregationService.fetch_total_tokens_per_team
        (fun keys => keys) one_team (Ok alias_on_first_day)
      = Ok out.
Proof.
  split; [reflexivity |].
  exact (proj1 (complete_documents_are_answered
                  (fun keys => keys) one_team alias_on_first_day eq_refl)).
Defined.

(** ** Entities of teams that were not requested *)

Lemma for_each_ext_in (A S : Type) (f g : S -> A -> result S) (l : list A) :
  (forall s a, In a l -> f s a = g s a) ->
  forall s, for_each f l s = for_each g l s.
Proof.
  induction l as [| a l IH]; intros H s; [reflexivity |]. simpl.
  rewrite (H s a (or_introl eq_refl)). destruct (g s a) as [s' | e]; simpl;
    [| reflexivity].
  apply IH. intros s0 x Hin. apply H. now right.
Qed.

Lemma for_each_map (A B S : Type) (f : S -> B -> result S) (h : A -> B) (l : list A)
      (s : S) :
  for_each f (map h l) s = for_each (fun s a => f s (h a)) l s.
Proof.
  revert s. induction l as [| a l IH]; intro s; [reflexivity |]. simpl.
  destruct (f s (h a)) as [s' | e]; simpl; [apply IH | reflexivity].
Qed.

Lemma dict_get_filter (V : Type) (q : string -> bool) (d : dict V) (k : string) :
  dict_get (filter (fun item : string * V => q (fst item)) d) k
  = if q k then dict_get d k else None.
Proof.
  induction d as [| [k' v] d IH]; simpl; [now destruct (q k) |].
  destruct (q k') eqn:Hq; simpl.
  - destruct (String.eqb_spec k' k) as [-> | _]; [now rewrite Hq | exact IH].
  - destruct (String.eqb_spec k' k) as [-> | _]; [now rewrite Hq, IH, Hq | exact IH].
Qed.

Section RequestedOnly.

Variable set_iter : list string -> list string.
Variable svc : TeamServiceProtocol.

Lemma requested_id (team_id : string) :
  In team_id (get_team_ids svc) ->
  requested_name svc (get_team_name svc team_id) = true.
Proof.
  intro Hin. unfold requested_name. apply existsb_exists.
  exists (get_team_name svc team_id). split; [| apply String.eqb_refl].
  unfold display_names. apply In_distinct. now apply in_map.
Qed.

Lemma entity_of_requested_id (es : dict MetricWithMetadata) (team_id : string) :
  In team_id (get_team_ids svc) ->
  get_or_empty
    (filter (fun item : string * MetricWithMetadata =>
               requested_name svc (get_team_name svc (fst item))) es)
    team_id
  = get_or_empty es team_id.
Proof.
  intro Hin. unfold get_or_empty.
  rewrite (dict_get_filter _ (fun id => requested_name svc (get_team_name svc id))).
  now rewrite (requested_id _ Hin).
Qed.

Lemma member_of_requested (td : dict TokenAggregationService.team_entry)
      (name : string) :
  dict_keys td = display_names svc ->
  dict_mem td name = requested_name svc name.
Proof.
  intro Hkeys. unfold requested_name.
  destruct (dict_mem td name) eqn:E.
  - symmetry. apply existsb_exists. exists name. split; [| apply String.eqb_refl].
    rewrite <- Hkeys. now apply dict_mem_keys.
  - destruct (existsb _ _) eqn:E'; [| reflexivity].
    apply existsb_exists in E'. destruct E' as (x & Hin & Hx).
    apply String.eqb_eq in Hx. subst x. rewrite <- Hkeys in Hin.
    apply dict_mem_keys in Hin. congruence.
Qed.

Lemma add_requested_entities (top top' : BreakdownMetrics)
      (es : dict MetricWithMetadata) (td : dict TokenAggregationService.team_entry) :
  api_keys top' = api_keys top ->
  model_groups top' = model_groups top ->
  dict_keys td = display_names svc ->
  for_each (TokenAggregationService.add_entity set_iter svc top')
           (filter (fun item : string * MetricWithMetadata =>
                      requested_name svc (get_team_name svc (fst item))) es)
           td
  = for_each (TokenAggregationService.add_entity set_iter svc top) es td.
Proof.
  intros Hkeys Hmodels. revert td.
  assert (Hsame : forall td item,
             TokenAggregationService.add_entity set_iter svc top' td item
             = TokenAggregationService.add_entity set_iter svc top td item).
  { intros td [team_id entity]. unfold TokenAggregationService.add_entity.
    unfold TokenAggregationService._extract_breakdown.
    now rewrite Hkeys, Hmodels. }
  induction es as [| [team_id entity] es IH]; intros td Htd; [reflexivity |].
  simpl filter. simpl fst.
  destruct (requested_name svc (get_team_name svc team_id)) eqn:Hreq.
  - cbn [for_each]. rewrite Hsame.
    destruct (TokenAggregationService.add_entity set_iter svc top td
                (team_id, entity)) as [td' |] eqn:E; simpl; [| reflexivity].
    apply IH. rewrite <- Htd.
    exact (proj1 (add_entity_spec set_iter svc top td td' _ E)).
  - cbn [for_each].
    unfold TokenAggregationService.add_entity at 2.
    rewrite (member_of_requested td _ Htd), Hreq. simpl. now apply IH.
Qed.

Lemma add_requested_entry (td : dict TokenAggregationService.team_entry)
      (entry : DailySpendData) :
  dict_keys td = display_names svc ->
  TokenAggregationService.add_entry set_iter svc td (requested_only svc entry)
  = TokenAggregationService.add_entry set_iter svc td entry.
Proof.
  intro Htd. unfold TokenAggregationService.add_entry, requested_only. simpl.
  destruct (breakdown entry) as [b |]; [| reflexivity]. simpl.
  destruct (entities b) as [es |]; [| reflexivity]. simpl.
  now apply add_requested_entities.
Qed.

(** X24. The entities of teams that were not requested play no part: the
    team-totals, time-series, success-rate and cost-efficiency services give
    the same result, value or exception, on a document and on the document
    without these entities.  Such an entity is never looked into, so that no
    defect of it can make a service fail. *)
Theorem unrequested_teams_play_no_part (data : SpendAnalyticsPaginatedResponse) :
  let data' := {| results := map (requested_only svc) (results data) |} in
  TokenAggregationService.fetch_total_tokens_per_team set_iter svc (Ok data')
  = TokenAggregationService.fetch_total_tokens_per_team set_iter svc (Ok data)
  /\ TimeSeriesService.fetch_daily_timeseries_per_team svc (Ok data')
     = TimeSeriesService.fetch_daily_timeseries_per_team svc (Ok data)
  /\ SuccessRateService.fetch_team_success_rate_summary svc (Ok data')
     = SuccessRateService.fetch_team_success_rate_summary svc (Ok data)
  /\ CostEfficiencyService.fetch_cost_efficiency svc (Ok data')
     = CostEfficiencyService.fetch_cost_efficiency svc (Ok data).
Proof.
  simpl. split; [| split; [| split]].
  - unfold TokenAggregationService.fetch_total_tokens_per_team. simpl results.
    rewrite for_each_map.
    assert (H : forall days td,
               dict_keys td = display_names svc ->
               for_each (fun s a => TokenAggregationService.add_entry
                                      set_iter svc s (requested_only svc a)) days td
               = for_each (TokenAggregationService.add_entry set_iter svc) days td).
    { induction days as [| entry days IH]; intros td Htd; [reflexivity |].
      simpl. rewrite (add_requested_entry td entry Htd).
      destruct (TokenAggregationService.add_entry set_iter svc td entry)
        as [td' |] eqn:E; simpl; [| reflexivity].
      apply IH. rewrite <- Htd.
      exact (proj1 (team_totals_add_entry_spec set_iter svc entry td td' E)). }
    apply H. apply initial_team_data_keys.
  - unfold TimeSeriesService.fetch_daily_timeseries_per_team. simpl results.
    rewrite for_each_map. apply for_each_ext_in. intros rows entry _.
    unfold TimeSeriesService.add_entry, TimeSeriesService.entities_of, requested_only.
    simpl. destruct (breakdown entry) as [b |]; [| reflexivity]. simpl.
    destruct (entities b) as [es |]; [| reflexivity]. simpl.
    rewrite (for_each_ext_in _ _ _
               (TimeSeriesService.add_team svc (Some es))); [reflexivity |].
    intros points team_id Hin. unfold TimeSeriesService.add_team. simpl.
    unfold TimeSeriesService.point_of. now rewrite (entity_of_requested_id es _ Hin).
  - unfold SuccessRateService.fetch_team_success_rate_summary,
      SuccessRateService.aggregate. simpl results.
    rewrite for_each_map.
    rewrite (for_each_ext_in _ _ _ (SuccessRateService.add_entry svc)); [reflexivity |].
    intros tm entry _. unfold SuccessRateService.add_entry, requested_only. simpl.
    destruct (breakdown entry) as [b |]; [| reflexivity]. simpl.
    destruct (entities b) as [es |]; [| reflexivity]. simpl.
    apply for_each_ext_in. intros tm' team_id Hin.
    unfold SuccessRateService.add_team. simpl.
    now rewrite (entity_of_requested_id es _ Hin).
  - unfold CostEfficiencyService.fetch_cost_efficiency,
      CostEfficiencyService.aggregate. simpl results.
    rewrite for_each_map.
    rewrite (for_each_ext_in _ _ _ (CostEfficiencyService.add_entry svc));
      [reflexivity |].
    intros tmd entry _. unfold CostEfficiencyService.add_entry, requested_only. simpl.
    destruct (breakdown entry) as [b |]; [| reflexivity]. simpl.
    destruct (entities b) as [es |]; [| reflexivity]. simpl.
    apply for_each_ext_in. intros tmd' team_id Hin.
    unfold CostEfficiencyService.visit_team. simpl.
    now rewrite (entity_of_requested_id es _ Hin).
Qed.

End RequestedOnly.

(** ** Teams that share a display name: the shared entry *)

Section SharedEntries.
Import TokenAggregationService TeamTotalsSpec TeamTotalsFold ExtractSpec.
Import AliasSpec SourcesSpec.
Import SuccessRateService SuccessRateSpec.

Variable set_iter : list string -> list string.
Hypothesis set_iter_perm : forall l, NoDup l -> Permutation (set_iter l) l.
Variable svc : TeamServiceProtocol.

(** C10. The display names of the requested ids are listed once each, so
    that two requested ids with the same display name stand behind one name,
    and their number is that of the distinct names, not that of the ids.
    Whenever the team-totals service answers, its answer has exactly one
    entry per display name; the entry of a name holds the [total_tokens] of
    all entities resolving to the name, summed over all days, and (on a
    document whose dictionaries have distinct keys) its breakdown holds, for
    every pair (api_key, model_name), the token counts that all these
    entities give to the pair, summed over all days.  Whenever the
    success-rate service answers, its answer has exactly one row per display
    name, with the request counts of all requested ids resolving to the name,
    summed over all days.  Neither half depends on the other service. *)
Theorem shared_display_name_one_entry (data : SpendAnalyticsPaginatedResponse) :
  NoDup (display_names svc)
  /\ List.length (display_names svc)
     = List.length (nodup string_dec (map (get_team_name svc) (get_team_ids svc)))
  /\ (forall team_id,
         In team_id (get_team_ids svc) ->
         In (get_team_name svc team_id) (display_names svc)
         /\ In team_id (ids_named svc (get_team_name svc team_id)))
  /\ (forall out,
         fetch_total_tokens_per_team set_iter svc (Ok data) = Ok out ->
         dict_keys out = display_names svc
         /\ List.length out
            = List.length (nodup string_dec
                                 (map (get_team_name svc) (get_team_ids svc)))
         /\ forall name t,
             dict_get out name = Some t ->
             te_total_tokens t = entity_total svc (results data) name
             /\ (forallb distinct_day (results data) = true ->
                 forall key model,
                   key_model_totals (te_api_keys t) key model
                   = fold_left plus
                       (map (fun be => day_counts be key model)
                            (team_entities svc name (results data)))
                       None))
  /\ (forall rows,
         fetch_team_success_rate_summary svc (Ok data) = Ok rows ->
         map ts_name rows = display_names svc
         /\ List.length rows
            = List.length (nodup string_dec
                                 (map (get_team_name svc) (get_team_ids svc)))
         /\ Forall (fun row =>
                      ts_total_requests row
                      = requested_total api_requests svc (results data) (ts_name row)
                      /\ ts_successful_requests row
                         = requested_total successful_requests svc (results data)
                                           (ts_name row)
                      /\ ts_failed_requests row
                         = requested_total failed_requests svc (results data)
                                           (ts_name row))
                   rows).
Proof.
  split; [apply NoDup_distinct |]. split; [apply display_names_length |].
  split; [apply requested_id_is_named |]. split.
  - intros out Hout.
    destruct (team_totals_spec set_iter svc data out Hout) as [Hkeys _].
    split; [exact Hkeys |].
    split; [now rewrite <- display_names_length, <- Hkeys; unfold dict_keys;
                rewrite length_map |].
    intros name t Ht. split.
    + exact (team_entry_tokens set_iter svc data out name t Hout Ht).
    + intros Hdistinct key model.
      exact (drill_down_closed_form set_iter set_iter_perm svc data out name t
               key model Hout Hdistinct Ht).
  - intros rows Hrows.
    destruct (success_rate_rows_sums svc data rows Hrows) as [Hnames Hall].
    split; [exact Hnames |].
    split; [now rewrite <- display_names_length, <- Hnames, length_map |].
    exact Hall.
Qed.

End SharedEntries.

Lemma shared_display_name_one_entry_witness :
  get_team_ids shared_name = ["team1"; "team2"]
  /\ display_names shared_name = ["Platform"]
  /\ TokenAggregationService.fetch_total_tokens_per_team
       (fun keys => keys) shared_name (Ok shared_days)
     = Ok [("Platform", shared_entry)]
  /\ forallb distinct_day (results shared_days) = true
  /\ fold_left TeamTotalsSpec.plus
       (map (fun be => day_counts be "key2" "gpt-4")
            (AliasSpec.team_entities shared_name "Platform" (results shared_days)))
       None
     = Some (1000, 600, 400)
  /\ SuccessRateService.fetch_team_success_rate_summary shared_name (Ok shared_days)
     = Ok [{| SuccessRateService.ts_name := "Platform";
              SuccessRateService.ts_total_requests := 30;
              SuccessRateService.ts_successful_requests := 30;
              SuccessRateService.ts_failed_requests := 0;
              SuccessRateService.ts_success_rate := 100%float |}]
  /\ requested_total api_requests shared_name (results shared_days) "Platform" = 30.
Proof.
  pose proof (shared_display_name_one_entry
                (fun keys => keys) (fun l _ => Permutation_refl l)
                shared_name shared_days) as (_ & _ & _ & Htotals & Hrates).
  assert (H1 : TokenAggregationService.fetch_total_tokens_per_team
                 (fun keys => keys) shared_name (Ok shared_days)
               = Ok [("Platform", shared_entry)]) by reflexivity.
  assert (H2 : SuccessRateService.fetch_team_success_rate_summary
                 shared_name (Ok shared_days)
               = Ok [{| SuccessRateService.ts_name := "Platform";
                        SuccessRateService.ts_total_requests := 30;
                        SuccessRateService.ts_successful_requests := 30;
                        SuccessRateService.ts_failed_requests := 0;
                        SuccessRateService.ts_success_rate := 100%float |}])
    by (vm_compute; reflexivity).
  split; [reflexivity |]. split; [reflexivity |]. split; [exact H1 |].
  split; [reflexivity |]. split; [| split; [exact H2 |]].
  - destruct (Htotals _ H1) as (_ & _ & Hentry).
    destruct (Hentry "Platform" shared_entry eq_refl) as [_ Hpairs].
    exact (eq_trans (eq_sym (Hpairs eq_refl "key2" "gpt-4")) eq_refl).
  - destruct (Hrates _ H2) as (_ & _ & Hrows).
    inversion Hrows as [| row rows [Htotal _] _]. subst.
    exact (eq_sym Htotal).
Defined.

(** ** Failure of the upstream fetch: what the services raise *)


Section ReraisedFailure.

Variable set_iter : list string -> list string.
Variable svc : TeamServiceProtocol.
Variable get_display_name : string -> string.


End ReraisedFailure.


